(** * The Java binding of the Unicorn engine: hook dispatch and object lifetime

    A shallow embedding of [bindings/java/unicorn_Unicorn.c].  The C file is
    glue between three parties: the Java virtual machine (reached through
    the JNI function table [env]), the C allocator, and the native engine
    (the [uc_*] API).  None of the three is part of the file, so each is a
    parameter here: a [Platform] decides whether a JNI or libc call
    succeeds, what the engine answers, and what Java code does when a hook
    method is invoked.  Every binding function is a computation in a state
    monad over a [World] that holds what the C code can observe or change:
    the pending Java exception, the live global references, the [malloc]ed
    [hook_wrapper] blocks, the Java arrays, the function-local [static]
    caches, and a log of the calls made to the outside. *)

From Stdlib Require Import ZArith String List Bool Lia.
From stdpp Require Import gmap strings list fin_maps.

Local Open Scope string_scope.
Local Open Scope Z_scope.

(** ** Values that cross the boundary *)

(** What a reference designates: a class, an ordinary object, a primitive
    array. *)
Inductive object :=
| OClass (name : string)
| OInst (id : Z)
| OArray (id : Z).

(** A JNI reference.  [NULL] is the C null pointer; a global reference has
    an identity [g] of its own, which [DeleteGlobalRef] consumes. *)
Inductive jobject :=
| NULL
| Local (o : object)
| Global (g : Z) (o : object).

Definition is_null (r : jobject) : bool :=
  match r with NULL => true | _ => false end.

Definition referent (r : jobject) : option object :=
  match r with NULL => None | Local o => Some o | Global _ o => Some o end.

(** A [jmethodID]; [NoMethod] is the null identifier. *)
Inductive jmethodID :=
| NoMethod
| Method (name sig : string).

Definition no_method (m : jmethodID) : bool :=
  match m with NoMethod => true | _ => false end.

(** An argument of a Java method call. *)
Inductive jvalue :=
| JInt (z : Z)
| JLong (z : Z)
| JShort (z : Z)
| JObj (r : jobject).

(** [struct hook_wrapper]; [uc_hh] is the engine's handle of the hook. *)
Record hook_wrapper := HookWrapper {
  uc_hh : Z;
  unicorn : jobject;
  hook_obj : jobject;
  hook_meth : jmethodID;
  user_data : jobject
}.

(** [calloc] hands out zeroed storage. *)
Definition zeroed : hook_wrapper := HookWrapper 0 NULL NULL NoMethod NULL.

(** Engine structures that the trampolines read or write. *)
Record uc_tb := UcTb { tb_pc : Z; tb_icount : Z; tb_size : Z }.
Record uc_arm64_cp_reg := UcArm64Cp {
  cp_crn : Z; cp_crm : Z; cp_op0 : Z; cp_op1 : Z; cp_op2 : Z; cp_val : Z
}.
Record uc_x86_mmr := UcX86Mmr {
  mmr_selector : Z; mmr_base : Z; mmr_limit : Z; mmr_flags : Z
}.
Record uc_tlb_entry := UcTlbEntry { paddr : Z; perms : Z }.

(** The trampolines, as the function pointers handed to the engine. *)
Inductive callback_ptr :=
| ptr_cb_hookintr | ptr_cb_insn_in | ptr_cb_insn_out | ptr_cb_insn_syscall
| ptr_cb_insn_cpuid | ptr_cb_insn_sys | ptr_cb_hookcode | ptr_cb_eventmem
| ptr_cb_hookmem | ptr_cb_hookinsn_invalid | ptr_cb_edge_gen | ptr_cb_tcg_op_2
| ptr_cb_tlbevent | ptr_cb_mmio_read | ptr_cb_mmio_write.

(** ** Fixed-width integers *)

Definition uint (bits : Z) (z : Z) : Z := z mod 2 ^ bits.
Definition sint (bits : Z) (z : Z) : Z :=
  (z + 2 ^ (bits - 1)) mod 2 ^ bits - 2 ^ (bits - 1).

Definition jint_of : Z -> Z := sint 32.
Definition jlong_of : Z -> Z := sint 64.
Definition jshort_of : Z -> Z := sint 16.
Definition uint32_of : Z -> Z := uint 32.
Definition uint64_of : Z -> Z := uint 64.
Definition jboolean_of : Z -> Z := uint 8.

(** ** Calls that leave the file *)

(** An argument of an engine call: an integer or pointer, a buffer (or a
    null buffer pointer), a trampoline (or a null function pointer). *)
Inductive arg :=
| AInt (z : Z)
| ABuf (b : option (list Z))
| AFn (f : option callback_ptr).

Record EngineCall := Call { fn : string; args : list arg }.

(** The JNI and libc requests whose success the platform decides. *)
Inductive Request :=
| ReqCalloc
| ReqFindClass (name : string)
| ReqNewGlobalRef (r : jobject)
| ReqGetObjectClass (r : jobject)
| ReqGetMethodID (clazz : jobject) (name sig : string)
| ReqNewObject (clazz : jobject) (ctor : jmethodID) (ctor_args : list jvalue)
| ReqNewArray (len : Z)
| ReqGetArrayElements (arr : jobject)
| ReqGetDirectBuffer (buf : jobject)
| ReqNewString (chars : string).

Inductive Event :=
| EvEngine (c : EngineCall) (status : Z)
| EvThrowNew (cls msg : string)
| EvNewGlobalRef (g : Z)
| EvDeleteGlobalRef (g : Z)
| EvCalloc (p : Z)
| EvFree (p : Z)
| EvNewObject (id : Z) (clazz : jobject) (ctor_args : list jvalue)
| EvAttachCurrentThread
| EvCallMethod (obj : jobject) (meth : jmethodID) (margs : list jvalue).

(** The two function-local statics of a descriptor constructor. *)
Record class_cache := ClassCache { cc_clazz : jobject; cc_init : jmethodID }.

Record World := MkWorld {
  w_exc : option (string * string);   (* pending exception: class, message *)
  w_globals : gset Z;                 (* live global references *)
  w_heap : gmap Z hook_wrapper;       (* live hook_wrapper blocks, by address *)
  w_arrays : gmap Z (list Z);         (* contents of the Java primitive arrays *)
  w_next : Z;                         (* supply of fresh addresses and ids *)
  w_mmr : class_cache;                (* statics of makeX86_MMR *)
  w_cp : class_cache;                 (* statics of makeArm64_CP *)
  w_tb : class_cache;                 (* statics of makeTranslationBlock *)
  w_region : class_cache;             (* statics of _mem_regions *)
  w_trace : list Event                (* calls made so far, newest first *)
}.

(** What the C file takes from its surroundings. *)
Class Platform := {
  (* does this JNI or libc request succeed in this state? *)
  grants : Request -> World -> bool;
  (* GetObjectClass: the name of the class of an object *)
  class_name_of : object -> string;
  (* the Java code behind Call<Type>Method: raw result and new state *)
  host_method : jobject -> jmethodID -> list jvalue -> World -> Z * World;
  (* the engine: the uc_err (or value) an API call returns ... *)
  engine_status : EngineCall -> World -> Z;
  (* ... and what it stores through its out-pointers *)
  engine_out : EngineCall -> World -> list Z;
  uc_strerror : Z -> string
}.

(** Constants of [unicorn/unicorn.h], [unicorn/x86.h] and
    [unicorn/arm64.h], which are not part of the binding file. *)
Class Headers := {
  UC_ERR_HOOK : Z;
  UC_ERR_INSN_INVALID : Z;
  UC_HOOK_INTR : Z;
  UC_HOOK_INSN : Z;
  UC_HOOK_CODE : Z;
  UC_HOOK_BLOCK : Z;
  UC_HOOK_MEM_INVALID : Z;
  UC_HOOK_MEM_VALID : Z;
  UC_HOOK_INSN_INVALID : Z;
  UC_HOOK_EDGE_GENERATED : Z;
  UC_HOOK_TCG_OPCODE : Z;
  UC_HOOK_TLB_FILL : Z;
  UC_X86_INS_IN : Z;
  UC_X86_INS_OUT : Z;
  UC_X86_INS_SYSCALL : Z;
  UC_X86_INS_SYSENTER : Z;
  UC_X86_INS_CPUID : Z;
  UC_ARM64_INS_MRS : Z;
  UC_ARM64_INS_MSR : Z;
  UC_ARM64_INS_SYS : Z;
  UC_ARM64_INS_SYSL : Z;
  UC_PROT_ALL : Z;
  UC_X86_REG_MSR : Z;
  UC_ARM_REG_CP_REG : Z;
  UC_ARM64_REG_CP_REG : Z
}.

(** Modelled from the spec: the value of [UC_ERR_OK], declared in
    [unicorn/unicorn.h]; the specification fixes it as zero, the only
    success value. *)
Definition UC_ERR_OK : Z := 0.

(** Constants of [jni.h]. *)
Definition JNI_FALSE : Z := 0.
Definition JNI_COMMIT : Z := 1.
Definition JNI_ABORT : Z := 2.

(** ** The monad: state, and a fault for undefined behaviour *)

Inductive Result (A : Type) :=
| Done (a : A) (w : World)
| Fault (w : World).
Arguments Done {A} a w.
Arguments Fault {A} w.

Definition M (A : Type) : Type := World -> Result A.

Definition ret {A} (a : A) : M A := fun w => Done a w.
Definition bind {A B} (m : M A) (k : A -> M B) : M B :=
  fun w => match m w with Done a w' => k a w' | Fault w' => Fault w' end.
Definition fault {A} : M A := fun w => Fault w.

Declare Scope m_scope.
Delimit Scope m_scope with m.
Notation "x <- c ;; k" := (bind c (fun x => k))
  (at level 100, c at next level, right associativity) : m_scope.
Notation "c ;; k" := (bind c (fun _ => k))
  (at level 100, right associativity) : m_scope.
Local Open Scope m_scope.

(** The state a computation stopped in, whether it returned or not. *)
Definition world_of {A} (r : Result A) : World :=
  match r with Done _ w => w | Fault w => w end.

Definition value_of {A} (r : Result A) : option A :=
  match r with Done a _ => Some a | Fault _ => None end.

Definition set_exc (e : option (string * string)) (w : World) : World :=
  MkWorld e (w_globals w) (w_heap w) (w_arrays w) (w_next w)
          (w_mmr w) (w_cp w) (w_tb w) (w_region w) (w_trace w).
Definition set_globals (g : gset Z) (w : World) : World :=
  MkWorld (w_exc w) g (w_heap w) (w_arrays w) (w_next w)
          (w_mmr w) (w_cp w) (w_tb w) (w_region w) (w_trace w).
Definition set_heap (h : gmap Z hook_wrapper) (w : World) : World :=
  MkWorld (w_exc w) (w_globals w) h (w_arrays w) (w_next w)
          (w_mmr w) (w_cp w) (w_tb w) (w_region w) (w_trace w).
Definition set_arrays (a : gmap Z (list Z)) (w : World) : World :=
  MkWorld (w_exc w) (w_globals w) (w_heap w) a (w_next w)
          (w_mmr w) (w_cp w) (w_tb w) (w_region w) (w_trace w).
Definition set_next (n : Z) (w : World) : World :=
  MkWorld (w_exc w) (w_globals w) (w_heap w) (w_arrays w) n
          (w_mmr w) (w_cp w) (w_tb w) (w_region w) (w_trace w).
Definition set_mmr (c : class_cache) (w : World) : World :=
  MkWorld (w_exc w) (w_globals w) (w_heap w) (w_arrays w) (w_next w)
          c (w_cp w) (w_tb w) (w_region w) (w_trace w).
Definition set_cp (c : class_cache) (w : World) : World :=
  MkWorld (w_exc w) (w_globals w) (w_heap w) (w_arrays w) (w_next w)
          (w_mmr w) c (w_tb w) (w_region w) (w_trace w).
Definition set_tb (c : class_cache) (w : World) : World :=
  MkWorld (w_exc w) (w_globals w) (w_heap w) (w_arrays w) (w_next w)
          (w_mmr w) (w_cp w) c (w_region w) (w_trace w).
Definition push_event (e : Event) (w : World) : World :=
  MkWorld (w_exc w) (w_globals w) (w_heap w) (w_arrays w) (w_next w)
          (w_mmr w) (w_cp w) (w_tb w) (w_region w) (e :: w_trace w).

Definition modify (f : World -> World) : M unit := fun w => Done tt (f w).
Definition reads {A} (f : World -> A) : M A := fun w => Done (f w) w.
Definition log (e : Event) : M unit := modify (push_event e).
Definition fresh : M Z :=
  fun w => Done (w_next w) (set_next (w_next w + 1) w).

Section Binding.

Context `{P : Platform} `{H : Headers}.

(** ** The JNI functions, libc and the engine, as the file uses them *)

Definition granted (r : Request) : M bool := reads (grants r).

Definition raise (cls msg : string) : M unit :=
  modify (set_exc (Some (cls, msg))).

(** [FindClass]: a local reference to the class, or null with
    [NoClassDefFoundError] pending. *)
Definition FindClass (name : string) : M jobject :=
  ok <- granted (ReqFindClass name) ;;
  if ok then ret (Local (OClass name))
  else raise "java/lang/NoClassDefFoundError" name ;; ret NULL.

(** [ThrowNew]: the class must be a class; the new exception is pending
    when the native method returns. *)
Definition ThrowNew (clazz : jobject) (msg : string) : M unit :=
  match referent clazz with
  | Some (OClass name) => raise name msg ;; log (EvThrowNew name msg)
  | _ => fault
  end.

Definition ExceptionCheck : M bool := reads (fun w => bool_decide (is_Some (w_exc w))).

(** [NewGlobalRef]: null for a null argument or when memory runs out (no
    exception is raised for it), otherwise a global reference that is new. *)
Definition NewGlobalRef (r : jobject) : M jobject :=
  match referent r with
  | None => ret NULL
  | Some o =>
    ok <- granted (ReqNewGlobalRef r) ;;
    if ok then
      g <- fresh ;;
      modify (fun w => set_globals ({[g]} ∪ w_globals w) w) ;;
      log (EvNewGlobalRef g) ;;
      ret (Global g o)
    else ret NULL
  end.

(** [DeleteGlobalRef]: the reference stops being live. *)
Definition DeleteGlobalRef (r : jobject) : M unit :=
  match r with
  | Global g _ =>
    modify (fun w => set_globals (w_globals w ∖ {[g]}) w) ;;
    log (EvDeleteGlobalRef g)
  | NULL => ret tt
  | Local _ => fault
  end.

(** [GetObjectClass]: the argument must not be null. *)
Definition GetObjectClass (r : jobject) : M jobject :=
  match referent r with
  | None => fault
  | Some o =>
    ok <- granted (ReqGetObjectClass r) ;;
    if ok then ret (Local (OClass (class_name_of o))) else ret NULL
  end.

(** [GetMethodID]: the identifier, or null with [NoSuchMethodError]
    pending. *)
Definition GetMethodID (clazz : jobject) (name sig : string) : M jmethodID :=
  if is_null clazz then fault else
  ok <- granted (ReqGetMethodID clazz name sig) ;;
  if ok then ret (Method name sig)
  else raise "java/lang/NoSuchMethodError" name ;; ret NoMethod.

(** [NewObject]: a new object, or null with an exception pending. *)
Definition NewObject (clazz : jobject) (ctor : jmethodID) (ctor_args : list jvalue)
  : M jobject :=
  if is_null clazz || no_method ctor then fault else
  ok <- granted (ReqNewObject clazz ctor ctor_args) ;;
  if ok then
    id <- fresh ;;
    log (EvNewObject id clazz ctor_args) ;;
    ret (Local (OInst id))
  else raise "java/lang/OutOfMemoryError" "NewObject" ;; ret NULL.

Definition AttachCurrentThread : M unit := log EvAttachCurrentThread.

(** [Call<Type>Method]: the Java method runs; whatever it does to the world
    (throwing included) is the platform's [host_method]. *)
Definition CallMethod (obj : jobject) (meth : jmethodID) (margs : list jvalue) : M Z :=
  if is_null obj || no_method meth then fault else
  log (EvCallMethod obj meth margs) ;;
  fun w => let (r, w') := host_method obj meth margs w in Done r w'.

Definition CallVoidMethod obj meth margs : M unit :=
  CallMethod obj meth margs ;; ret tt.
Definition CallIntMethod obj meth margs : M Z :=
  r <- CallMethod obj meth margs ;; ret (jint_of r).
Definition CallLongMethod obj meth margs : M Z :=
  r <- CallMethod obj meth margs ;; ret (jlong_of r).
Definition CallBooleanMethod obj meth margs : M Z :=
  r <- CallMethod obj meth margs ;; ret (jboolean_of r).

(** [calloc(1, sizeof(struct hook_wrapper))]: null, or a new zeroed block. *)
Definition calloc : M Z :=
  ok <- granted ReqCalloc ;;
  if ok then
    p <- fresh ;;
    modify (fun w => set_heap (<[p := zeroed]> (w_heap w)) w) ;;
    log (EvCalloc p) ;;
    ret p
  else ret 0.

(** Reading and writing a [hook_wrapper] through a pointer; a pointer that
    designates no live block is a fault. *)
Definition load (p : Z) : M hook_wrapper :=
  fun w => match w_heap w !! p with Some r => Done r w | None => Fault w end.

Definition store (p : Z) (f : hook_wrapper -> hook_wrapper) : M unit :=
  r <- load p ;;
  modify (fun w => set_heap (<[p := f r]> (w_heap w)) w).

Definition free (p : Z) : M unit :=
  if p =? 0 then ret tt else
  _ <- load p ;;
  modify (fun w => set_heap (delete p (w_heap w)) w) ;;
  log (EvFree p).

Definition with_uc_hh (v : Z) (r : hook_wrapper) : hook_wrapper :=
  HookWrapper v (unicorn r) (hook_obj r) (hook_meth r) (user_data r).
Definition with_unicorn (v : jobject) (r : hook_wrapper) : hook_wrapper :=
  HookWrapper (uc_hh r) v (hook_obj r) (hook_meth r) (user_data r).
Definition with_hook_obj (v : jobject) (r : hook_wrapper) : hook_wrapper :=
  HookWrapper (uc_hh r) (unicorn r) v (hook_meth r) (user_data r).
Definition with_hook_meth (v : jmethodID) (r : hook_wrapper) : hook_wrapper :=
  HookWrapper (uc_hh r) (unicorn r) (hook_obj r) v (user_data r).
Definition with_user_data (v : jobject) (r : hook_wrapper) : hook_wrapper :=
  HookWrapper (uc_hh r) (unicorn r) (hook_obj r) (hook_meth r) v.

(** An engine API call: the status it returns and what it stores through
    its out-pointers, both the platform's; the call is logged.  A hook
    that the engine dispatches while a call runs is a call of a
    trampoline, and is followed as one: what an entry point is stated
    to do is what the entry point does itself, not what hooks do while
    the engine runs guest code. *)
Definition engine (c : EngineCall) : M (Z * list Z) :=
  fun w => Done (engine_status c w, engine_out c w)
                (push_event (EvEngine c (engine_status c w)) w).

(** A call whose only result is its status. *)
Definition engine_st (name : string) (a : list arg) : M Z :=
  r <- engine (Call name a) ;; ret (fst r).

(** What is in a buffer after the engine stored [out] at its start. *)
Definition overlay (out buf : list Z) : list Z :=
  take (length buf) (out ++ drop (length out) buf)%list.

(** A call that stores through a pointer of the binding, to one object
    of the type its prototype names or to as many elements as it is
    told: the result is the status and the buffer afterwards.  What the
    engine has stored is the platform's, whether it succeeds or fails;
    [engine_out] lists it from the start of the buffer, as far as the
    buffer goes.  A successful store through a null pointer is a
    fault. *)
Definition engine_fill (name : string) (a : list arg) (buf : option (list Z))
  : M (Z * option (list Z)) :=
  r <- engine (Call name a) ;;
  match buf with
  | Some b => ret (fst r, Some (overlay (snd r) b))
  | None => if fst r =? UC_ERR_OK then fault else ret (fst r, None)
  end.

(** A call that stores through a [void *] and is told no length: the
    engine stores as much as the register is wide.  A store that is
    longer than the destination is a fault. *)
Definition engine_fill_unsized (name : string) (a : list arg)
    (buf : option (list Z)) : M (Z * option (list Z)) :=
  r <- engine (Call name a) ;;
  match buf with
  | Some b =>
    if (length b <? length (snd r))%nat then fault
    else ret (fst r, Some (overlay (snd r) b))
  | None => if fst r =? UC_ERR_OK then fault else ret (fst r, None)
  end.

(** A call with one scalar out-parameter, a local that holds [init]. *)
Definition engine_get (name : string) (a : list arg) (init : Z) : M (Z * Z) :=
  r <- engine_fill name a (Some [init]) ;;
  ret (fst r, hd 0 (default [] (snd r))).

(** An API function that returns a value, not a [uc_err]. *)
Definition engine_value (name : string) (a : list arg) : M Z :=
  fun w => Done (engine_status (Call name a) w) w.

Definition uc_emu_stop (uc : Z) : M Z := engine_st "uc_emu_stop" [AInt uc].

(** ** Raising failures *)

Definition throwUnicornException (err : Z) : M unit :=
  clazz <- FindClass "unicorn/UnicornException" ;;
  let msg := uc_strerror err in
  ThrowNew clazz msg.

Definition throwCustomUnicornException (msg : string) : M unit :=
  clazz <- FindClass "unicorn/UnicornException" ;;
  ThrowNew clazz msg.

Definition throwOutOfMemoryError (message : string) : M unit :=
  clazz <- FindClass "java/lang/OutOfMemoryError" ;;
  ThrowNew clazz message.

(** ** Descriptor records *)

(** The block [static jclass clazz; if (!clazz) { clazz = FindClass(..);
    if (!clazz) return NULL; clazz = NewGlobalRef(clazz); if (!clazz)
    return NULL; }], which the constructors below and [_mem_regions] all
    start with; a null result is the early [return NULL]. *)
Definition static_clazz (name : string) (get : World -> class_cache)
    (set : class_cache -> World -> World) : M jobject :=
  c <- reads get ;;
  if is_null (cc_clazz c) then
    clazz <- FindClass name ;;
    modify (fun w => set (ClassCache clazz (cc_init (get w))) w) ;;
    if is_null clazz then ret NULL else
    clazz <- NewGlobalRef clazz ;;
    modify (fun w => set (ClassCache clazz (cc_init (get w))) w) ;;
    ret clazz
  else ret (cc_clazz c).

(** The block [static jmethodID clazzInit; if (!clazzInit) { clazzInit =
    GetMethodID(clazz, "<init>", sig); if (!clazzInit) return NULL; }]. *)
Definition static_clazzInit (clazz : jobject) (sig : string)
    (get : World -> class_cache) (set : class_cache -> World -> World)
  : M jmethodID :=
  c <- reads get ;;
  if no_method (cc_init c) then
    clazzInit <- GetMethodID clazz "<init>" sig ;;
    modify (fun w => set (ClassCache (cc_clazz (get w)) clazzInit) w) ;;
    ret clazzInit
  else ret (cc_init c).

Definition makeArm64_CP (cp_reg : option uc_arm64_cp_reg) : M jobject :=
  match cp_reg with
  | None => ret NULL
  | Some cp_reg =>
    clazz <- static_clazz "unicorn/Arm64_CP" w_cp set_cp ;;
    if is_null clazz then ret NULL else
    clazzInit <- static_clazzInit clazz "(IIIIIJ)V" w_cp set_cp ;;
    if no_method clazzInit then ret NULL else
    NewObject clazz clazzInit
      [JInt (jint_of (cp_crn cp_reg)); JInt (jint_of (cp_crm cp_reg));
       JInt (jint_of (cp_op0 cp_reg)); JInt (jint_of (cp_op1 cp_reg));
       JInt (jint_of (cp_op2 cp_reg)); JLong (jlong_of (cp_val cp_reg))]
  end.

Definition makeTranslationBlock (tb : option uc_tb) : M jobject :=
  match tb with
  | None => ret NULL
  | Some tb =>
    clazz <- static_clazz "unicorn/TranslationBlock" w_tb set_tb ;;
    if is_null clazz then ret NULL else
    clazzInit <- static_clazzInit clazz "(JII)V" w_tb set_tb ;;
    if no_method clazzInit then ret NULL else
    NewObject clazz clazzInit
      [JLong (jlong_of (tb_pc tb)); JInt (jint_of (tb_icount tb));
       JInt (jint_of (tb_size tb))]
  end.

(** ** The trampolines *)

Definition hookErrorCheck (uc : Z) : M bool :=
  pending <- ExceptionCheck ;;
  if pending then uc_emu_stop uc ;; ret true
  else ret false.

Definition sig_InterruptHook := "(Lunicorn/Unicorn;ILjava/lang/Object;)V".
Definition cb_hookintr (uc intno ud : Z) : M unit :=
  AttachCurrentThread ;;
  hh <- load ud ;;
  CallVoidMethod (hook_obj hh) (hook_meth hh)
    [JObj (unicorn hh); JInt (jint_of intno); JObj (user_data hh)] ;;
  hookErrorCheck uc ;;
  ret tt.

Definition sig_InHook := "(Lunicorn/Unicorn;IILjava/lang/Object;)I".
Definition cb_insn_in (uc port size ud : Z) : M Z :=
  AttachCurrentThread ;;
  hh <- load ud ;;
  result <- CallIntMethod (hook_obj hh) (hook_meth hh)
    [JObj (unicorn hh); JInt (jint_of port); JInt (jint_of size);
     JObj (user_data hh)] ;;
  stop <- hookErrorCheck uc ;;
  if stop then ret 0
  else ret (uint32_of result).

Definition sig_OutHook := "(Lunicorn/Unicorn;IIILjava/lang/Object;)V".
Definition cb_insn_out (uc port size value ud : Z) : M unit :=
  AttachCurrentThread ;;
  hh <- load ud ;;
  CallVoidMethod (hook_obj hh) (hook_meth hh)
    [JObj (unicorn hh); JInt (jint_of port); JInt (jint_of size);
     JInt (jint_of value); JObj (user_data hh)] ;;
  hookErrorCheck uc ;;
  ret tt.

Definition sig_SyscallHook := "(Lunicorn/Unicorn;Ljava/lang/Object;)V".
Definition cb_insn_syscall (uc ud : Z) : M unit :=
  AttachCurrentThread ;;
  hh <- load ud ;;
  CallVoidMethod (hook_obj hh) (hook_meth hh)
    [JObj (unicorn hh); JObj (user_data hh)] ;;
  hookErrorCheck uc ;;
  ret tt.

Definition sig_CpuidHook := "(Lunicorn/Unicorn;Ljava/lang/Object;)I".
Definition cb_insn_cpuid (uc ud : Z) : M Z :=
  AttachCurrentThread ;;
  hh <- load ud ;;
  result <- CallIntMethod (hook_obj hh) (hook_meth hh)
    [JObj (unicorn hh); JObj (user_data hh)] ;;
  stop <- hookErrorCheck uc ;;
  if stop then ret 0
  else ret (jint_of result).

Definition sig_Arm64SysHook :=
  "(Lunicorn/Unicorn;ILunicorn/Arm64_CP;Ljava/lang/Object;)I".
Definition cb_insn_sys (uc reg : Z) (cp_reg : option uc_arm64_cp_reg) (ud : Z)
  : M Z :=
  AttachCurrentThread ;;
  jcp_reg <- makeArm64_CP cp_reg ;;
  if is_null jcp_reg then
    hookErrorCheck uc ;;
    ret 0
  else
    hh <- load ud ;;
    result <- CallIntMethod (hook_obj hh) (hook_meth hh)
      [JObj (unicorn hh); JInt (jint_of reg); JObj jcp_reg;
       JObj (user_data hh)] ;;
    stop <- hookErrorCheck uc ;;
    if stop then ret 0
    else ret (uint32_of result).

Definition sig_CodeHook := "(Lunicorn/Unicorn;JILjava/lang/Object;)V".
Definition cb_hookcode (uc address size ud : Z) : M unit :=
  AttachCurrentThread ;;
  hh <- load ud ;;
  CallVoidMethod (hook_obj hh) (hook_meth hh)
    [JObj (unicorn hh); JLong (jlong_of address); JInt (jint_of size);
     JObj (user_data hh)] ;;
  hookErrorCheck uc ;;
  ret tt.

Definition sig_EventMemHook := "(Lunicorn/Unicorn;IJIJLjava/lang/Object;)Z".
Definition cb_eventmem (uc type address size value ud : Z) : M bool :=
  AttachCurrentThread ;;
  hh <- load ud ;;
  result <- CallBooleanMethod (hook_obj hh) (hook_meth hh)
    [JObj (unicorn hh); JInt (jint_of type); JLong (jlong_of address);
     JInt (jint_of size); JLong (jlong_of value); JObj (user_data hh)] ;;
  stop <- hookErrorCheck uc ;;
  if stop then ret false
  else ret (negb (result =? JNI_FALSE)).

Definition sig_MemHook := "(Lunicorn/Unicorn;IJIJLjava/lang/Object;)V".
Definition cb_hookmem (uc type address size value ud : Z) : M unit :=
  AttachCurrentThread ;;
  hh <- load ud ;;
  CallVoidMethod (hook_obj hh) (hook_meth hh)
    [JObj (unicorn hh); JInt (jint_of type); JLong (jlong_of address);
     JInt (jint_of size); JLong (jlong_of value); JObj (user_data hh)] ;;
  hookErrorCheck uc ;;
  ret tt.

Definition sig_InvalidInstructionHook :=
  "(Lunicorn/Unicorn;Ljava/lang/Object;)Z".
Definition cb_hookinsn_invalid (uc ud : Z) : M bool :=
  AttachCurrentThread ;;
  hh <- load ud ;;
  result <- CallBooleanMethod (hook_obj hh) (hook_meth hh)
    [JObj (unicorn hh); JObj (user_data hh)] ;;
  stop <- hookErrorCheck uc ;;
  if stop then ret false
  else ret (negb (result =? JNI_FALSE)).

Definition sig_EdgeGeneratedHook :=
  "(Lunicorn/Unicorn;Lunicorn/TranslationBlock;"
  +:+ "Lunicorn/TranslationBlock;Ljava/lang/Object;)V".
Definition cb_edge_gen (uc : Z) (cur_tb prev_tb : option uc_tb) (ud : Z)
  : M unit :=
  AttachCurrentThread ;;
  jcur_tb <- makeTranslationBlock cur_tb ;;
  if is_null jcur_tb then
    hookErrorCheck uc ;;
    ret tt
  else
    jprev_tb <- makeTranslationBlock prev_tb ;;
    if is_null jprev_tb then
      hookErrorCheck uc ;;
      ret tt
    else
      hh <- load ud ;;
      CallVoidMethod (hook_obj hh) (hook_meth hh)
        [JObj (unicorn hh); JObj jcur_tb; JObj jprev_tb;
         JObj (user_data hh)] ;;
      hookErrorCheck uc ;;
      ret tt.

Definition sig_TcgOpcodeHook := "(Lunicorn/Unicorn;JJJILjava/lang/Object;)V".
Definition cb_tcg_op_2 (uc address arg1 arg2 size ud : Z) : M unit :=
  AttachCurrentThread ;;
  hh <- load ud ;;
  CallVoidMethod (hook_obj hh) (hook_meth hh)
    [JObj (unicorn hh); JLong (jlong_of address); JLong (jlong_of arg1);
     JLong (jlong_of arg2); JInt (jint_of size); JObj (user_data hh)] ;;
  hookErrorCheck uc ;;
  ret tt.

(** The engine's [uc_tlb_entry *entry] is passed in and handed back: the
    second component of the result is the entry as the trampoline leaves
    it. [perms] has the enumeration type [uc_prot]. *)
Definition sig_TlbFillHook := "(Lunicorn/Unicorn;JILjava/lang/Object;)J".
Definition cb_tlbevent (uc vaddr type : Z) (entry : uc_tlb_entry) (ud : Z)
  : M (bool * uc_tlb_entry) :=
  AttachCurrentThread ;;
  hh <- load ud ;;
  result <- CallLongMethod (hook_obj hh) (hook_meth hh)
    [JObj (unicorn hh); JLong (jlong_of vaddr); JInt (jint_of type);
     JObj (user_data hh)] ;;
  stop <- hookErrorCheck uc ;;
  if stop then ret (false, entry)
  else if result =? -1 then ret (false, entry)
  else
    ret (true,
         UcTlbEntry (uint64_of (Z.land result (Z.lnot UC_PROT_ALL)))
                    (uint32_of (Z.land result UC_PROT_ALL))).

Definition sig_MmioReadHandler := "(Lunicorn/Unicorn;JILjava/lang/Object;)J".
Definition cb_mmio_read (uc offset size ud : Z) : M Z :=
  AttachCurrentThread ;;
  hh <- load ud ;;
  result <- CallLongMethod (hook_obj hh) (hook_meth hh)
    [JObj (unicorn hh); JLong (jlong_of offset); JInt (jint_of size);
     JObj (user_data hh)] ;;
  stop <- hookErrorCheck uc ;;
  if stop then ret 0
  else ret (uint64_of result).

Definition sig_MmioWriteHandler := "(Lunicorn/Unicorn;JIJLjava/lang/Object;)V".
Definition cb_mmio_write (uc offset size value ud : Z) : M unit :=
  AttachCurrentThread ;;
  hh <- load ud ;;
  CallVoidMethod (hook_obj hh) (hook_meth hh)
    [JObj (unicorn hh); JLong (jlong_of offset); JInt (jint_of size);
     JLong (jlong_of value); JObj (user_data hh)] ;;
  hookErrorCheck uc ;;
  ret tt.

(** ** Java arrays *)

Definition array_id (r : jobject) : option Z :=
  match referent r with Some (OArray id) => Some id | _ => None end.

Definition array_contents (r : jobject) : M (list Z) :=
  fun w =>
    match array_id r with
    | Some id =>
      match w_arrays w !! id with Some l => Done l w | None => Fault w end
    | None => Fault w
    end.

Definition GetArrayLength (r : jobject) : M Z :=
  l <- array_contents r ;; ret (Z.of_nat (length l)).

(** [Get<Type>ArrayElements(env, array, NULL)]: a native buffer with the
    elements of the array, or null. *)
Definition GetArrayElements (r : jobject) : M (option (list Z)) :=
  l <- array_contents r ;;
  ok <- granted (ReqGetArrayElements r) ;;
  if ok then ret (Some l) else ret None.

(** [Release<Type>ArrayElements(env, array, elems, mode)]: the buffer is
    copied back into the array unless [mode] is [JNI_ABORT]. *)
Definition ReleaseArrayElements (r : jobject) (elems : option (list Z))
    (mode : Z) : M unit :=
  match elems, array_id r with
  | Some l, Some id =>
    if mode =? JNI_ABORT then ret tt
    else modify (fun w => set_arrays (<[id := l]> (w_arrays w)) w)
  | _, _ => fault
  end.

(** [New<Type>Array]: a new array of zeros, or null with an exception
    pending. *)
Definition NewArray (len : Z) : M jobject :=
  ok <- granted (ReqNewArray len) ;;
  if ok then
    id <- fresh ;;
    modify (fun w =>
      set_arrays (<[id := replicate (Z.to_nat len) 0]> (w_arrays w)) w) ;;
    ret (Local (OArray id))
  else raise "java/lang/OutOfMemoryError" "NewArray" ;; ret NULL.

(** [SetLongArrayRegion(env, array, 0, len, buf)]. *)
Definition SetLongArrayRegion (r : jobject) (len : Z) (buf : list Z) : M unit :=
  l <- array_contents r ;;
  match array_id r with
  | Some id =>
    modify (fun w =>
      set_arrays (<[id := overlay (take (Z.to_nat len) buf) l]> (w_arrays w)) w)
  | None => fault
  end.

(** [SetObjectArrayElement(env, array, i, obj)]; the array holds the
    identity of the object. *)
Definition SetObjectArrayElement (r : jobject) (i : Z) (obj : jobject) : M unit :=
  l <- array_contents r ;;
  match array_id r, referent obj with
  | Some id, Some (OInst o) =>
    modify (fun w => set_arrays (<[id := <[Z.to_nat i := o]> l]> (w_arrays w)) w)
  | _, _ => fault
  end.

(** ** The callback registry *)

Definition deleteHookWrapper (hh : Z) : M unit :=
  if hh =? 0 then ret tt else
  r <- load hh ;;
  (if is_null (unicorn r) then ret tt else DeleteGlobalRef (unicorn r)) ;;
  (if is_null (hook_obj r) then ret tt else DeleteGlobalRef (hook_obj r)) ;;
  (if is_null (user_data r) then ret tt else DeleteGlobalRef (user_data r)) ;;
  free hh.

Definition makeHookWrapper (self callback udata : jobject)
    (hook_name hook_sig : string) : M Z :=
  hh <- calloc ;;
  if hh =? 0 then
    throwOutOfMemoryError "Unable to allocate hook_wrapper" ;;
    ret 0
  else
  g <- NewGlobalRef self ;;
  store hh (with_unicorn g) ;;
  if is_null g then deleteHookWrapper hh ;; ret 0 else
  g <- NewGlobalRef callback ;;
  store hh (with_hook_obj g) ;;
  if is_null g then deleteHookWrapper hh ;; ret 0 else
  clazz <- GetObjectClass callback ;;
  if is_null clazz then deleteHookWrapper hh ;; ret 0 else
  m <- GetMethodID clazz hook_name hook_sig ;;
  store hh (with_hook_meth m) ;;
  if no_method m then deleteHookWrapper hh ;; ret 0 else
  if is_null udata then ret hh else
  g <- NewGlobalRef udata ;;
  store hh (with_user_data g) ;;
  if is_null g then deleteHookWrapper hh ;; ret 0 else
  ret hh.

(** [uc_hook_add(uc, &hh->uc_hh, type, callback, hh, begin, end, ...)]:
    [out] is the address the engine stores the new hook handle at, which
    is the address of the record, [uc_hh] being its first member. *)
Definition uc_hook_add (uc out type : Z) (callback : callback_ptr)
    (ud begin end_ : Z) (extra : list Z) : M Z :=
  r <- engine (Call "uc_hook_add"
                 ([AInt uc; AInt out; AInt type; AFn (Some callback); AInt ud;
                   AInt begin; AInt end_] ++ map AInt extra)%list) ;;
  if fst r =? UC_ERR_OK then
    store out (with_uc_hh (hd 0 (snd r))) ;;
    ret (fst r)
  else ret (fst r).

(** The part the three [_hook_add] overloads end with, once the
    trampoline and its signature are chosen; [extra] is what the overload
    adds after [end] in the call of [uc_hook_add]. *)
Definition hook_add_register (self : jobject) (uc type : Z)
    (callback udata : jobject) (begin end_ : Z) (extra : list Z)
    (hook_sig : string) (hook_callback : callback_ptr) : M Z :=
  hh <- makeHookWrapper self callback udata "hook" hook_sig ;;
  err <- uc_hook_add uc hh type hook_callback hh begin end_ extra ;;
  if negb (err =? UC_ERR_OK) then
    throwUnicornException err ;;
    deleteHookWrapper hh ;;
    ret 0
  else ret hh.

Definition Java_unicorn_Unicorn__1hook_1add__JILunicorn_Hook_2Ljava_lang_Object_2JJ
    (self : jobject) (uc type : Z) (callback udata : jobject)
    (begin end_ : Z) : M Z :=
  let register := hook_add_register self uc type callback udata begin end_ [] in
  if type =? UC_HOOK_INTR then
    register sig_InterruptHook ptr_cb_hookintr
  else if (type =? UC_HOOK_CODE) || (type =? UC_HOOK_BLOCK) then
    register sig_CodeHook ptr_cb_hookcode
  else if negb (Z.land type UC_HOOK_MEM_INVALID =? 0)
          && (Z.land type (Z.lnot UC_HOOK_MEM_INVALID) =? 0) then
    register sig_EventMemHook ptr_cb_eventmem
  else if negb (Z.land type UC_HOOK_MEM_VALID =? 0)
          && (Z.land type (Z.lnot UC_HOOK_MEM_VALID) =? 0) then
    register sig_MemHook ptr_cb_hookmem
  else if type =? UC_HOOK_INSN_INVALID then
    register sig_InvalidInstructionHook ptr_cb_hookinsn_invalid
  else if type =? UC_HOOK_EDGE_GENERATED then
    register sig_EdgeGeneratedHook ptr_cb_edge_gen
  else if type =? UC_HOOK_TLB_FILL then
    register sig_TlbFillHook ptr_cb_tlbevent
  else
    throwUnicornException UC_ERR_HOOK ;;
    ret 0.

Definition Java_unicorn_Unicorn__1hook_1add__JILunicorn_Hook_2Ljava_lang_Object_2JJI
    (self : jobject) (uc type : Z) (callback udata : jobject)
    (begin end_ arg : Z) : M Z :=
  let register :=
    hook_add_register self uc type callback udata begin end_ [arg] in
  if type =? UC_HOOK_INSN then
    if arg =? UC_X86_INS_IN then
      register sig_InHook ptr_cb_insn_in
    else if arg =? UC_X86_INS_OUT then
      register sig_OutHook ptr_cb_insn_out
    else if (arg =? UC_X86_INS_SYSCALL) || (arg =? UC_X86_INS_SYSENTER) then
      register sig_SyscallHook ptr_cb_insn_syscall
    else if arg =? UC_X86_INS_CPUID then
      register sig_CpuidHook ptr_cb_insn_cpuid
    else if (arg =? UC_ARM64_INS_MRS) || (arg =? UC_ARM64_INS_MSR)
            || (arg =? UC_ARM64_INS_SYS) || (arg =? UC_ARM64_INS_SYSL) then
      register sig_Arm64SysHook ptr_cb_insn_sys
    else
      throwUnicornException UC_ERR_INSN_INVALID ;;
      ret 0
  else
    throwUnicornException UC_ERR_HOOK ;;
    ret 0.

Definition Java_unicorn_Unicorn__1hook_1add__JILunicorn_Hook_2Ljava_lang_Object_2JJII
    (self : jobject) (uc type : Z) (callback udata : jobject)
    (begin end_ arg1 arg2 : Z) : M Z :=
  let register :=
    hook_add_register self uc type callback udata begin end_ [arg1; arg2] in
  if type =? UC_HOOK_TCG_OPCODE then
    register sig_TcgOpcodeHook ptr_cb_tcg_op_2
  else
    throwUnicornException UC_ERR_HOOK ;;
    ret 0.

Definition Java_unicorn_Unicorn__1hook_1del (uc hh : Z) : M unit :=
  h <- load hh ;;
  engine_st "uc_hook_del" [AInt uc; AInt (uc_hh h)] ;;
  (if is_null (unicorn h) then ret tt else
     DeleteGlobalRef (unicorn h) ;;
     store hh (with_unicorn NULL)) ;;
  (if is_null (hook_obj h) then ret tt else
     DeleteGlobalRef (hook_obj h) ;;
     store hh (with_hook_obj NULL)) ;;
  (if is_null (user_data h) then ret tt else
     DeleteGlobalRef (user_data h) ;;
     store hh (with_user_data NULL)).

Definition Java_unicorn_Unicorn__1hookwrapper_1free (hh : Z) : M unit :=
  deleteHookWrapper hh.

Definition Java_unicorn_Unicorn__1mmio_1map (self : jobject)
    (uc address size : Z) (read_cb user_data_read write_cb user_data_write : jobject)
  : M jobject :=
  let fail (hooks0 hooks1 : Z) : M jobject :=
    deleteHookWrapper hooks0 ;;
    deleteHookWrapper hooks1 ;;
    ret NULL in
  hooks0 <- (if is_null read_cb then ret 0 else
               makeHookWrapper self read_cb user_data_read "read"
                               sig_MmioReadHandler) ;;
  if negb (is_null read_cb) && (hooks0 =? 0) then fail hooks0 0 else
  hooks1 <- (if is_null write_cb then ret 0 else
               makeHookWrapper self write_cb user_data_write "write"
                               sig_MmioWriteHandler) ;;
  if negb (is_null write_cb) && (hooks1 =? 0) then fail hooks0 hooks1 else
  let hooksLong :=
    ((if hooks0 =? 0 then [] else [hooks0])
     ++ (if hooks1 =? 0 then [] else [hooks1]))%list in
  let hooksCount := Z.of_nat (length hooksLong) in
  result <- NewArray hooksCount ;;
  if is_null result then fail hooks0 hooks1 else
  SetLongArrayRegion result hooksCount hooksLong ;;
  err <- engine_st "uc_mmio_map"
           [AInt uc; AInt address; AInt size;
            AFn (if hooks0 =? 0 then None else Some ptr_cb_mmio_read);
            AInt hooks0;
            AFn (if hooks1 =? 0 then None else Some ptr_cb_mmio_write);
            AInt hooks1] ;;
  if negb (err =? UC_ERR_OK) then
    throwUnicornException err ;;
    fail hooks0 hooks1
  else ret result.

(** ** The engine control facade *)

(** Explicit casts of the source between integer types are written out.
    Conversions to the parameter types of the engine's prototypes, which
    the binding file does not contain, are the engine's: it is handed the
    value of each argument expression.  A pointer is kept as the integer
    that its cast to [jlong] yields, so the casts between the two are the
    identity. *)

Definition Java_unicorn_Unicorn__1open (arch mode : Z) : M Z :=
  r <- engine_get "uc_open" [AInt arch; AInt mode] 0 ;;
  let err := fst r in
  if negb (err =? UC_ERR_OK) then
    throwUnicornException err ;;
    ret 0
  else ret (snd r).

Definition Java_unicorn_Unicorn__1close (uc : Z) : M unit :=
  err <- engine_st "uc_close" [AInt uc] ;;
  if negb (err =? UC_ERR_OK) then throwUnicornException err ;; ret tt
  else ret tt.


Definition Java_unicorn_Unicorn__1emu_1stop (uc : Z) : M unit :=
  err <- uc_emu_stop uc ;;
  if negb (err =? UC_ERR_OK) then throwUnicornException err ;; ret tt
  else ret tt.

Definition generic_reg_read (ptr isContext regid : Z) (result : option (list Z))
  : M (Z * option (list Z)) :=
  if negb (isContext =? 0) then
    engine_fill_unsized "uc_context_reg_read"
      [AInt ptr; AInt regid; ABuf result] result
  else
    engine_fill_unsized "uc_reg_read" [AInt ptr; AInt regid; ABuf result] result.

Definition generic_reg_write (ptr isContext regid : Z) (value : option (list Z))
  : M Z :=
  if negb (isContext =? 0) then
    engine_st "uc_context_reg_write" [AInt ptr; AInt regid; ABuf value]
  else
    engine_st "uc_reg_write" [AInt ptr; AInt regid; ABuf value].

(** The member at position [i] of a structure kept as the list of its
    members. *)
Definition member (i : nat) (s : option (list Z)) : Z :=
  nth i (default [] s) 0.

Definition Java_unicorn_Unicorn__1reg_1read_1long (ptr isContext regid : Z)
  : M Z :=
  r <- generic_reg_read ptr isContext regid (Some [0]) ;;
  let err := fst r in
  if negb (err =? UC_ERR_OK) then
    throwUnicornException err ;;
    ret 0
  else ret (jlong_of (member 0 (snd r))).

Definition Java_unicorn_Unicorn__1reg_1read_1bytes (ptr isContext regid : Z)
    (data : jobject) : M unit :=
  arr <- GetArrayElements data ;;
  r <- generic_reg_read ptr isContext regid arr ;;
  let err := fst r in
  ReleaseArrayElements data (snd r) 0 ;;
  if negb (err =? UC_ERR_OK) then throwUnicornException err ;; ret tt
  else ret tt.

Definition Java_unicorn_Unicorn__1reg_1write_1long (ptr isContext regid value : Z)
  : M unit :=
  let cvalue := uint64_of value in
  err <- generic_reg_write ptr isContext regid (Some [cvalue]) ;;
  if negb (err =? UC_ERR_OK) then throwUnicornException err ;; ret tt
  else ret tt.

Definition Java_unicorn_Unicorn__1reg_1write_1bytes (ptr isContext regid : Z)
    (data : jobject) : M unit :=
  arr <- GetArrayElements data ;;
  err <- generic_reg_write ptr isContext regid arr ;;
  ReleaseArrayElements data arr JNI_ABORT ;;
  if negb (err =? UC_ERR_OK) then throwUnicornException err ;; ret tt
  else ret tt.

Definition makeX86_MMR (mmr : option uc_x86_mmr) : M jobject :=
  match mmr with
  | None => ret NULL
  | Some mmr =>
    clazz <- static_clazz "unicorn/X86_MMR" w_mmr set_mmr ;;
    if is_null clazz then ret NULL else
    clazzInit <- static_clazzInit clazz "(JIIS)V" w_mmr set_mmr ;;
    if no_method clazzInit then ret NULL else
    NewObject clazz clazzInit
      [JLong (jlong_of (mmr_base mmr)); JInt (jint_of (mmr_limit mmr));
       JInt (jint_of (mmr_flags mmr)); JShort (jshort_of (mmr_selector mmr))]
  end.

(** [uc_x86_mmr] as the list of its members: selector, base, limit,
    flags. *)
Definition Java_unicorn_Unicorn__1reg_1read_1x86_1mmr (ptr isContext regid : Z)
  : M jobject :=
  r <- generic_reg_read ptr isContext regid (Some [0; 0; 0; 0]) ;;
  let err := fst r in
  if negb (err =? UC_ERR_OK) then
    throwUnicornException err ;;
    ret NULL
  else
    let reg := snd r in
    makeX86_MMR
      (Some (UcX86Mmr (member 0 reg) (member 1 reg) (member 2 reg)
                      (member 3 reg))).

Definition Java_unicorn_Unicorn__1reg_1write_1x86_1mmr
    (ptr isContext regid selector base limit flags : Z) : M unit :=
  let reg := [uint 16 selector; uint64_of base; uint32_of limit;
              uint32_of flags] in
  err <- generic_reg_write ptr isContext regid (Some reg) ;;
  if negb (err =? UC_ERR_OK) then throwUnicornException err ;; ret tt
  else ret tt.

(** [uc_x86_msr]: rid, value. *)
Definition Java_unicorn_Unicorn__1reg_1read_1x86_1msr (ptr isContext rid : Z)
  : M Z :=
  let reg := [uint32_of rid; 0] in
  r <- generic_reg_read ptr isContext UC_X86_REG_MSR (Some reg) ;;
  let err := fst r in
  if negb (err =? UC_ERR_OK) then
    throwUnicornException err ;;
    ret 0
  else ret (jlong_of (member 1 (snd r))).

Definition Java_unicorn_Unicorn__1reg_1write_1x86_1msr
    (ptr isContext rid value : Z) : M unit :=
  let reg := [uint32_of rid; uint64_of value] in
  err <- generic_reg_write ptr isContext UC_X86_REG_MSR (Some reg) ;;
  if negb (err =? UC_ERR_OK) then throwUnicornException err ;; ret tt
  else ret tt.

(** [uc_arm_cp_reg]: cp, is64, sec, crn, crm, opc1, opc2, val. *)
Definition Java_unicorn_Unicorn__1reg_1read_1arm_1cp
    (ptr isContext cp is64 sec crn crm opc1 opc2 : Z) : M Z :=
  let reg := [uint32_of cp; uint32_of is64; uint32_of sec; uint32_of crn;
              uint32_of crm; uint32_of opc1; uint32_of opc2; 0] in
  r <- generic_reg_read ptr isContext UC_ARM_REG_CP_REG (Some reg) ;;
  let err := fst r in
  if negb (err =? UC_ERR_OK) then
    throwUnicornException err ;;
    ret 0
  else ret (jlong_of (member 7 (snd r))).

Definition Java_unicorn_Unicorn__1reg_1write_1arm_1cp
    (ptr isContext cp is64 sec crn crm opc1 opc2 value : Z) : M unit :=
  let reg := [uint32_of cp; uint32_of is64; uint32_of sec; uint32_of crn;
              uint32_of crm; uint32_of opc1; uint32_of opc2;
              uint64_of value] in
  err <- generic_reg_write ptr isContext UC_ARM_REG_CP_REG (Some reg) ;;
  if negb (err =? UC_ERR_OK) then throwUnicornException err ;; ret tt
  else ret tt.

(** [uc_arm64_cp_reg]: crn, crm, op0, op1, op2, val. *)
Definition Java_unicorn_Unicorn__1reg_1read_1arm64_1cp
    (ptr isContext crn crm op0 op1 op2 : Z) : M Z :=
  let reg := [uint32_of crn; uint32_of crm; uint32_of op0; uint32_of op1;
              uint32_of op2; 0] in
  r <- generic_reg_read ptr isContext UC_ARM64_REG_CP_REG (Some reg) ;;
  let err := fst r in
  if negb (err =? UC_ERR_OK) then
    throwUnicornException err ;;
    ret 0
  else ret (jlong_of (member 5 (snd r))).

Definition Java_unicorn_Unicorn__1reg_1write_1arm64_1cp
    (ptr isContext crn crm op0 op1 op2 value : Z) : M unit :=
  let reg := [uint32_of crn; uint32_of crm; uint32_of op0; uint32_of op1;
              uint32_of op2; uint64_of value] in
  err <- generic_reg_write ptr isContext UC_ARM64_REG_CP_REG (Some reg) ;;
  if negb (err =? UC_ERR_OK) then throwUnicornException err ;; ret tt
  else ret tt.

Definition Java_unicorn_Unicorn__1mem_1read (uc address : Z) (dest : jobject)
  : M unit :=
  size <- GetArrayLength dest ;;
  arr <- GetArrayElements dest ;;
  r <- engine_fill "uc_mem_read" [AInt uc; AInt address; ABuf arr; AInt size]
         arr ;;
  let err := fst r in
  ReleaseArrayElements dest (snd r) 0 ;;
  if negb (err =? UC_ERR_OK) then throwUnicornException err ;; ret tt
  else ret tt.

Definition Java_unicorn_Unicorn__1mem_1write (uc address : Z) (src : jobject)
  : M unit :=
  size <- GetArrayLength src ;;
  arr <- GetArrayElements src ;;
  err <- engine_st "uc_mem_write" [AInt uc; AInt address; ABuf arr; AInt size] ;;
  ReleaseArrayElements src arr JNI_ABORT ;;
  if negb (err =? UC_ERR_OK) then throwUnicornException err ;; ret tt
  else ret tt.

Definition Java_unicorn_Unicorn__1version : M Z :=
  v <- engine_value "uc_version" [AInt 0; AInt 0] ;;
  ret (jint_of v).

Definition Java_unicorn_Unicorn__1arch_1supported (arch : Z) : M bool :=
  v <- engine_value "uc_arch_supported" [AInt arch] ;;
  ret (negb (v =? 0)).

Definition Java_unicorn_Unicorn__1query (uc type : Z) : M Z :=
  r <- engine_get "uc_query" [AInt uc; AInt type] 0 ;;
  let err := fst r in
  if negb (err =? UC_ERR_OK) then
    throwUnicornException err ;;
    ret 0
  else ret (jlong_of (snd r)).

Definition Java_unicorn_Unicorn__1errno (uc : Z) : M Z :=
  engine_st "uc_errno" [AInt uc].

(** [NewStringUTF]: a new string, or null with an exception pending. *)
Definition NewStringUTF (chars : string) : M (option string) :=
  ok <- granted (ReqNewString chars) ;;
  if ok then ret (Some chars)
  else raise "java/lang/OutOfMemoryError" "NewStringUTF" ;; ret None.

Definition Java_unicorn_Unicorn__1strerror (code : Z) : M (option string) :=
  let err := uc_strerror code in
  NewStringUTF err.

Definition Java_unicorn_Unicorn__1mem_1map (uc address size perms : Z) : M unit :=
  err <- engine_st "uc_mem_map" [AInt uc; AInt address; AInt size; AInt perms] ;;
  if negb (err =? UC_ERR_OK) then throwUnicornException err ;; ret tt
  else ret tt.

(** [GetDirectBufferCapacity] and [GetDirectBufferAddress]: the capacity
    and the address of the memory of a direct buffer; [-1] and null for
    anything else. *)
Definition direct_buffer (buf : jobject) : M (Z * Z) :=
  fun w =>
    match array_id buf with
    | Some id =>
      match w_arrays w !! id with
      | Some l =>
        if grants (ReqGetDirectBuffer buf) w
        then Done (Z.of_nat (length l), id) w
        else Done (-1, 0) w
      | None => Done (-1, 0) w
      end
    | None => Done (-1, 0) w
    end.

Definition Java_unicorn_Unicorn__1mem_1map_1ptr (uc address : Z) (buf : jobject)
    (perms : Z) : M unit :=
  d <- direct_buffer buf ;;
  let size := fst d in
  let host_address := snd d in
  if (size <? 0) || (host_address =? 0) then
    throwCustomUnicornException "mem_map_ptr requires a direct buffer" ;;
    ret tt
  else
    err <- engine_st "uc_mem_map_ptr"
             [AInt uc; AInt address; AInt size; AInt perms; AInt host_address] ;;
    if negb (err =? UC_ERR_OK) then throwUnicornException err ;; ret tt
    else ret tt.

Definition Java_unicorn_Unicorn__1mem_1unmap (uc address size : Z) : M unit :=
  err <- engine_st "uc_mem_unmap" [AInt uc; AInt address; AInt size] ;;
  if negb (err =? UC_ERR_OK) then throwUnicornException err ;; ret tt
  else ret tt.

Definition Java_unicorn_Unicorn__1mem_1protect (uc address size perms : Z)
  : M unit :=
  err <- engine_st "uc_mem_protect"
           [AInt uc; AInt address; AInt size; AInt perms] ;;
  if negb (err =? UC_ERR_OK) then throwUnicornException err ;; ret tt
  else ret tt.



Definition Java_unicorn_Unicorn__1context_1alloc (uc : Z) : M Z :=
  r <- engine_get "uc_context_alloc" [AInt uc] 0 ;;
  let err := fst r in
  if negb (err =? UC_ERR_OK) then
    throwUnicornException err ;;
    ret 0
  else ret (snd r).

Definition Java_unicorn_Unicorn__1context_1free (ctx : Z) : M unit :=
  err <- engine_st "uc_context_free" [AInt ctx] ;;
  if negb (err =? UC_ERR_OK) then throwUnicornException err ;; ret tt
  else ret tt.

Definition Java_unicorn_Unicorn__1context_1save (uc ctx : Z) : M unit :=
  err <- engine_st "uc_context_save" [AInt uc; AInt ctx] ;;
  if negb (err =? UC_ERR_OK) then throwUnicornException err ;; ret tt
  else ret tt.

Definition Java_unicorn_Unicorn__1context_1restore (uc ctx : Z) : M unit :=
  err <- engine_st "uc_context_restore" [AInt uc; AInt ctx] ;;
  if negb (err =? UC_ERR_OK) then throwUnicornException err ;; ret tt
  else ret tt.

Definition Java_unicorn_Unicorn__1ctl_1get_1mode (uc : Z) : M Z :=
  r <- engine_get "uc_ctl_get_mode" [AInt uc] 0 ;;
  let err := fst r in
  if negb (err =? UC_ERR_OK) then
    throwUnicornException err ;;
    ret 0
  else ret (jint_of (snd r)).

Definition Java_unicorn_Unicorn__1ctl_1get_1arch (uc : Z) : M Z :=
  r <- engine_get "uc_ctl_get_arch" [AInt uc] 0 ;;
  let err := fst r in
  if negb (err =? UC_ERR_OK) then
    throwUnicornException err ;;
    ret 0
  else ret (jint_of (snd r)).

Definition Java_unicorn_Unicorn__1ctl_1get_1timeout (uc : Z) : M Z :=
  r <- engine_get "uc_ctl_get_timeout" [AInt uc] 0 ;;
  let err := fst r in
  if negb (err =? UC_ERR_OK) then
    throwUnicornException err ;;
    ret 0
  else ret (jlong_of (snd r)).

Definition Java_unicorn_Unicorn__1ctl_1get_1page_1size (uc : Z) : M Z :=
  r <- engine_get "uc_ctl_get_page_size" [AInt uc] 0 ;;
  let err := fst r in
  if negb (err =? UC_ERR_OK) then
    throwUnicornException err ;;
    ret 0
  else ret (jint_of (snd r)).

Definition Java_unicorn_Unicorn__1ctl_1set_1page_1size (uc page_size : Z)
  : M unit :=
  err <- engine_st "uc_ctl_set_page_size" [AInt uc; AInt (uint32_of page_size)] ;;
  if negb (err =? UC_ERR_OK) then throwUnicornException err ;; ret tt
  else ret tt.

Definition Java_unicorn_Unicorn__1ctl_1set_1use_1exits (uc value : Z) : M unit :=
  err <- (if negb (value =? 0) then engine_st "uc_ctl_exits_enable" [AInt uc]
          else engine_st "uc_ctl_exits_disable" [AInt uc]) ;;
  if negb (err =? UC_ERR_OK) then throwUnicornException err ;; ret tt
  else ret tt.

Definition Java_unicorn_Unicorn__1ctl_1get_1exits_1cnt (uc : Z) : M Z :=
  r <- engine_get "uc_ctl_get_exits_cnt" [AInt uc] 0 ;;
  let err := fst r in
  if negb (err =? UC_ERR_OK) then
    throwUnicornException err ;;
    ret 0
  else ret (jlong_of (snd r)).

Definition Java_unicorn_Unicorn__1ctl_1get_1exits (uc : Z) : M jobject :=
  r <- engine_get "uc_ctl_get_exits_cnt" [AInt uc] 0 ;;
  let err := fst r in
  let exits_cnt := snd r in
  if negb (err =? UC_ERR_OK) then
    throwUnicornException err ;;
    ret NULL
  else
  result <- NewArray (jint_of exits_cnt) ;;
  if is_null result then ret NULL else
  resultArr <- GetArrayElements result ;;
  match resultArr with
  | None => ret NULL
  | Some _ =>
    r <- engine_fill "uc_ctl_get_exits"
           [AInt uc; ABuf resultArr; AInt exits_cnt] resultArr ;;
    let err := fst r in
    ReleaseArrayElements result (snd r) 0 ;;
    if negb (err =? UC_ERR_OK) then
      throwUnicornException err ;;
      ret NULL
    else ret result
  end.

Definition Java_unicorn_Unicorn__1ctl_1set_1exits (uc : Z) (exits : jobject)
  : M unit :=
  count <- GetArrayLength exits ;;
  arr <- GetArrayElements exits ;;
  match arr with
  | None => ret tt
  | Some _ =>
    err <- engine_st "uc_ctl_set_exits"
             [AInt uc; ABuf arr; AInt (uint64_of count)] ;;
    ReleaseArrayElements exits arr JNI_ABORT ;;
    if negb (err =? UC_ERR_OK) then throwUnicornException err ;; ret tt
    else ret tt
  end.

Definition Java_unicorn_Unicorn__1ctl_1get_1cpu_1model (uc : Z) : M Z :=
  r <- engine_get "uc_ctl_get_cpu_model" [AInt uc] 0 ;;
  let err := fst r in
  if negb (err =? UC_ERR_OK) then
    throwUnicornException err ;;
    ret 0
  else ret (jint_of (snd r)).

Definition Java_unicorn_Unicorn__1ctl_1set_1cpu_1model (uc cpu_model : Z)
  : M unit :=
  err <- engine_st "uc_ctl_set_cpu_model" [AInt uc; AInt cpu_model] ;;
  if negb (err =? UC_ERR_OK) then throwUnicornException err ;; ret tt
  else ret tt.

(** [uc_tb] as the list of its members: pc, icount, size. *)
Definition Java_unicorn_Unicorn__1ctl_1request_1cache (uc address : Z)
  : M jobject :=
  r <- engine_fill "uc_ctl_request_cache" [AInt uc; AInt (uint64_of address)]
         (Some [0; 0; 0]) ;;
  let err := fst r in
  if negb (err =? UC_ERR_OK) then
    throwUnicornException err ;;
    ret NULL
  else
    let tb := snd r in
    makeTranslationBlock (Some (UcTb (member 0 tb) (member 1 tb) (member 2 tb))).

Definition Java_unicorn_Unicorn__1ctl_1remove_1cache (uc address end_ : Z)
  : M unit :=
  err <- engine_st "uc_ctl_remove_cache"
           [AInt uc; AInt (uint64_of address); AInt (uint64_of end_)] ;;
  if negb (err =? UC_ERR_OK) then throwUnicornException err ;; ret tt
  else ret tt.

Definition Java_unicorn_Unicorn__1ctl_1flush_1tb (uc : Z) : M unit :=
  err <- engine_st "uc_ctl_flush_tb" [AInt uc] ;;
  if negb (err =? UC_ERR_OK) then throwUnicornException err ;; ret tt
  else ret tt.

Definition Java_unicorn_Unicorn__1ctl_1flush_1tlb (uc : Z) : M unit :=
  err <- engine_st "uc_ctl_flush_tlb" [AInt uc] ;;
  if negb (err =? UC_ERR_OK) then throwUnicornException err ;; ret tt
  else ret tt.

Definition Java_unicorn_Unicorn__1ctl_1tlb_1mode (uc mode : Z) : M unit :=
  err <- engine_st "uc_ctl_tlb_mode" [AInt uc; AInt mode] ;;
  if negb (err =? UC_ERR_OK) then throwUnicornException err ;; ret tt
  else ret tt.

End Binding.

(** ** Observations on the log *)

(** The statuses of the engine calls in a log, the clean-up call
    [uc_free], whose result [_mem_regions] drops, apart. *)
Fixpoint statuses (t : list Event) : list Z :=
  match t with
  | [] => []
  | EvEngine c s :: t' =>
    if String.eqb (fn c) "uc_free" then statuses t' else s :: statuses t'
  | _ :: t' => statuses t'
  end.

(** The messages of the [UnicornException]s thrown in a log. *)
Fixpoint thrown (t : list Event) : list string :=
  match t with
  | [] => []
  | EvThrowNew cls msg :: t' =>
    if String.eqb cls "unicorn/UnicornException" then msg :: thrown t'
    else thrown t'
  | _ :: t' => thrown t'
  end.

(** The global references released, and acquired, in a log. *)
Fixpoint released (t : list Event) : list Z :=
  match t with
  | [] => []
  | EvDeleteGlobalRef g :: t' => g :: released t'
  | _ :: t' => released t'
  end.

Fixpoint acquired (t : list Event) : list Z :=
  match t with
  | [] => []
  | EvNewGlobalRef g :: t' => g :: acquired t'
  | _ :: t' => acquired t'
  end.

(** The record blocks freed, and allocated, in a log. *)
Fixpoint freed (t : list Event) : list Z :=
  match t with
  | [] => []
  | EvFree p :: t' => p :: freed t'
  | _ :: t' => freed t'
  end.

Fixpoint allocated (t : list Event) : list Z :=
  match t with
  | [] => []
  | EvCalloc p :: t' => p :: allocated t'
  | _ :: t' => allocated t'
  end.

Definition is_call (e : Event) : bool :=
  match e with EvCallMethod _ _ _ => true | _ => false end.


Definition is_alloc (e : Event) : bool :=
  match e with EvCalloc _ | EvNewGlobalRef _ => true | _ => false end.

(** The global references a record holds, in the order of its members. *)
Definition global_id (r : jobject) : list Z :=
  match r with Global g _ => [g] | _ => [] end.

Definition held (r : hook_wrapper) : list Z :=
  (global_id (unicorn r) ++ global_id (hook_obj r) ++ global_id (user_data r))%list.

(** A member that holds a reference holds a global one. *)
Definition holds_globals (r : hook_wrapper) : Prop :=
  (forall o, unicorn r <> Local o) /\ (forall o, hook_obj r <> Local o)
  /\ (forall o, user_data r <> Local o).

(** ** Sample surroundings *)

(** The values that the constants have in the headers of Unicorn 2. *)
Definition unicorn_h : Headers := {|
  UC_ERR_HOOK := 9;
  UC_ERR_INSN_INVALID := 10;
  UC_HOOK_INTR := 1;
  UC_HOOK_INSN := 2;
  UC_HOOK_CODE := 4;
  UC_HOOK_BLOCK := 8;
  UC_HOOK_MEM_INVALID := 1008;
  UC_HOOK_MEM_VALID := 7168;
  UC_HOOK_INSN_INVALID := 16384;
  UC_HOOK_EDGE_GENERATED := 32768;
  UC_HOOK_TCG_OPCODE := 65536;
  UC_HOOK_TLB_FILL := 131072;
  UC_X86_INS_IN := 218;
  UC_X86_INS_OUT := 500;
  UC_X86_INS_SYSCALL := 699;
  UC_X86_INS_SYSENTER := 700;
  UC_X86_INS_CPUID := 105;
  UC_ARM64_INS_MRS := 1;
  UC_ARM64_INS_MSR := 2;
  UC_ARM64_INS_SYS := 3;
  UC_ARM64_INS_SYSL := 4;
  UC_PROT_ALL := 7;
  UC_X86_REG_MSR := 248;
  UC_ARM_REG_CP_REG := 139;
  UC_ARM64_REG_CP_REG := 290
|}.

Definition sample_strerror (err : Z) : string :=
  if err =? 0 then "OK (UC_ERR_OK)"
  else if err =? 1 then "No memory available or memory not present (UC_ERR_NOMEM)"
  else if err =? 3 then "Invalid handle (UC_ERR_HANDLE)"
  else if err =? 9 then "Invalid hook type (UC_ERR_HOOK)"
  else if err =? 10 then "Invalid instruction (UC_ERR_INSN_INVALID)"
  else "Unknown error code".

(** Surroundings given by: the requests that are denied, what a hook
    method returns and throws, and the status of each engine function. *)
Definition surroundings (denied : Request -> bool)
    (hook_result : Z) (hook_throws : option (string * string))
    (status : string -> Z) (out : string -> list Z) : Platform := {|
  grants := fun r _ => negb (denied r);
  class_name_of := fun _ => "unicorn/Hook";
  host_method := fun _ _ _ w =>
    (hook_result,
     match hook_throws with Some e => set_exc (Some e) w | None => w end);
  engine_status := fun c _ => status (fn c);
  engine_out := fun c _ => out (fn c);
  uc_strerror := sample_strerror
|}.

(** Everything succeeds, and hooks return [hook_result]. *)
Definition calm (hook_result : Z) : Platform :=
  surroundings (fun _ => false) hook_result None (fun _ => 0) (fun _ => [77]).

(** Hooks throw. *)
Definition throwing : Platform :=
  surroundings (fun _ => false) 42
    (Some ("java/lang/IllegalStateException", "hook failed"))
    (fun _ => 0) (fun _ => [77]).

(** The allocator has no memory left. *)
Definition no_memory : Platform :=
  surroundings (fun r => match r with ReqCalloc => true | _ => false end)
    0 None (fun _ => 0) (fun _ => [77]).

(** The engine refuses everything with [UC_ERR_HANDLE]. *)
Definition refusing : Platform :=
  surroundings (fun _ => false) 0 None (fun _ => 3) (fun _ => []).

(** The engine accepts everything but the mapping of an MMIO region. *)
Definition no_mmio : Platform :=
  surroundings (fun _ => false) 0 None
    (fun f => if String.eqb f "uc_mmio_map" then 1 else 0) (fun _ => [77]).

Definition no_cache : class_cache := ClassCache NULL NoMethod.

(** A world in which nothing happened yet. *)
Definition w_init : World :=
  MkWorld None ∅ ∅ ∅ 16 no_cache no_cache no_cache no_cache [].

(** A world with one registered hook at address 16 and one byte array. *)
Definition sample_record : hook_wrapper :=
  HookWrapper 77 (Global 17 (OInst 1)) (Global 18 (OInst 2))
              (Method "hook" "(Lunicorn/Unicorn;Ljava/lang/Object;)V")
              (Global 19 (OInst 3)).

Definition w_hooked : World :=
  MkWorld None {[17; 18; 19]} {[16 := sample_record]} {[5 := [1; 2; 3]]} 20
          no_cache no_cache no_cache no_cache [].

Definition this : jobject := Local (OInst 1).
Definition listener : jobject := Local (OInst 2).
Definition cookie : jobject := Local (OInst 3).

(** ** Vocabulary of the properties *)

Section Vocabulary.

Context `{P : Platform}.

(** The world once [hookErrorCheck] has asked the engine to stop. *)
Definition stop_request (uc : Z) (w : World) : World :=
  push_event
    (EvEngine (Call "uc_emu_stop" [AInt uc])
              (engine_status (Call "uc_emu_stop" [AInt uc]) w)) w.

(** The raw result of a hook method and the world it leaves, when it is
    invoked in [w]. *)
Definition after_hook (obj : jobject) (meth : jmethodID) (margs : list jvalue)
    (w : World) : Z * World :=
  host_method obj meth margs (push_event (EvCallMethod obj meth margs) w).

(** The world once [throwUnicornException] has thrown [msg]. *)
Definition failed (msg : string) (w : World) : World :=
  push_event (EvThrowNew "unicorn/UnicornException" msg)
             (set_exc (Some ("unicorn/UnicornException", msg)) w).

(** The class with this name can always be loaded. *)
Definition resolves (name : string) : Prop :=
  forall w, grants (ReqFindClass name) w = true.

(** Construction of a descriptor of the edge-generation hook fails,
    leaving world [w1]: the first constructor returns null, or the first
    succeeds and the second returns null. *)
Definition construction_fails (cur_tb prev_tb : option uc_tb) (w0 w1 : World)
  : Prop :=
  makeTranslationBlock cur_tb w0 = Done NULL w1
  \/ exists jcur_tb wa,
       makeTranslationBlock cur_tb w0 = Done jcur_tb wa
       /\ is_null jcur_tb = false
       /\ makeTranslationBlock prev_tb wa = Done NULL w1.

End Vocabulary.

(** The supply of addresses and identities is positive and beyond every
    live block and every live global reference. *)
Definition supply (w : World) : Prop :=
  0 < w_next w
  /\ (forall k, w_next w <= k -> w_heap w !! k = None)
  /\ (forall k, w_next w <= k -> k ∉ w_globals w).

(** The allocator and the virtual machine refuse nothing that the making
    of a record or of an array asks for. *)
Definition registry_granted `{P : Platform} : Prop :=
  forall r w,
    match r with
    | ReqCalloc | ReqNewGlobalRef _ | ReqGetObjectClass _
    | ReqGetMethodID _ _ _ | ReqNewArray _ => grants r w = true
    | _ => True
    end.

(** A registration [add] on engine [uc] that returns a record can be
    undone: [_hook_del] then [_hookwrapper_free] both return, every global
    reference acquired since the registration began is released, none is
    released twice, and the blocks and live references are those from
    before the registration. *)
Definition released_once `{P : Platform} (add : M Z) (uc : Z) : Prop :=
  forall w hh w1,
    supply w -> add w = Done hh w1 -> hh <> 0 ->
    exists w2 w3 t,
      Java_unicorn_Unicorn__1hook_1del uc hh w1 = Done tt w2
      /\ Java_unicorn_Unicorn__1hookwrapper_1free hh w2 = Done tt w3
      /\ w_trace w3 = (t ++ w_trace w)%list
      /\ NoDup (released t) /\ released t = acquired t
      /\ allocated t = [hh] /\ freed t = [hh]
      /\ w_heap w3 = w_heap w /\ w_globals w3 = w_globals w.

(** No hook method is invoked in a log. *)
Definition quiet (t : list Event) : Prop :=
  forallb (fun e => negb (is_call e)) t = true.

(** A record that can be dispatched: it has a target and a method. *)
Definition callable (r : hook_wrapper) : Prop :=
  is_null (hook_obj r) = false /\ no_method (hook_meth r) = false.

(** A record after [_hook_del]: the three references are cleared. *)
Definition cleared (r : hook_wrapper) : hook_wrapper :=
  HookWrapper (uc_hh r) NULL NULL (hook_meth r) NULL.

(** The world after [DeleteGlobalRef] on the global reference [g]. *)
Definition release (w : World) (g : Z) : World :=
  push_event (EvDeleteGlobalRef g) (set_globals (w_globals w ∖ {[g]}) w).

(** The world after [deleteHookWrapper] on the pointer [h], which is null
    or points to the live record [r], and the events this adds. *)
Definition discard (h : Z) (r : hook_wrapper) (w : World) : World :=
  if h =? 0 then w
  else
    let w' := fold_left release (held r) w in
    push_event (EvFree h) (set_heap (delete h (w_heap w')) w').

Definition del_events (h : Z) (r : hook_wrapper) : list Event :=
  if h =? 0 then [] else EvFree h :: map EvDeleteGlobalRef (rev (held r)).

(** A Java exception is pending. *)
Definition pending (w : World) : Prop := is_Some (w_exc w).

(** A trampoline [T], given the pointer to a dispatchable record, attaches
    the thread and invokes the hook method with [margs]; if an exception
    is pending when the method returns, [T] asks engine [uc] to stop and
    returns [neutral]. *)
Definition yields_to_failure `{P : Platform} {A} (T : Z -> M A) (uc : Z)
    (margs : hook_wrapper -> list jvalue) (neutral : A) : Prop :=
  forall ud w rec,
    w_heap w !! ud = Some rec -> callable rec ->
    let w1 := snd (after_hook (hook_obj rec) (hook_meth rec) (margs rec)
                     (push_event EvAttachCurrentThread w)) in
    pending w1 ->
    T ud w = Done neutral (stop_request uc w1).

(** ** Vocabulary of the registrations *)

Section Shapes.

Context `{P : Platform} `{H : Headers}.

(** The [switch] of the [JJI] overload: the labels of each group of
    cases, and what the group assigns to [hook_sig] and
    [hook_callback]. *)
Definition insn_groups : list (list Z * (string * callback_ptr)) :=
  [([UC_X86_INS_IN], (sig_InHook, ptr_cb_insn_in));
   ([UC_X86_INS_OUT], (sig_OutHook, ptr_cb_insn_out));
   ([UC_X86_INS_SYSCALL; UC_X86_INS_SYSENTER],
    (sig_SyscallHook, ptr_cb_insn_syscall));
   ([UC_X86_INS_CPUID], (sig_CpuidHook, ptr_cb_insn_cpuid));
   ([UC_ARM64_INS_MRS; UC_ARM64_INS_MSR; UC_ARM64_INS_SYS; UC_ARM64_INS_SYSL],
    (sig_Arm64SysHook, ptr_cb_insn_sys))].

(** All the case labels, in the order of the source. *)
Definition insn_labels : list Z := concat (map fst insn_groups).

(** The event types for which the [JJ] overload reaches the
    registration: the tests of its chain of [if]s. *)
Definition accepts_JJ (type : Z) : bool :=
  (type =? UC_HOOK_INTR)
  || (type =? UC_HOOK_CODE) || (type =? UC_HOOK_BLOCK)
  || negb (Z.land type UC_HOOK_MEM_INVALID =? 0)
     && (Z.land type (Z.lnot UC_HOOK_MEM_INVALID) =? 0)
  || negb (Z.land type UC_HOOK_MEM_VALID =? 0)
     && (Z.land type (Z.lnot UC_HOOK_MEM_VALID) =? 0)
  || (type =? UC_HOOK_INSN_INVALID)
  || (type =? UC_HOOK_EDGE_GENERATED)
  || (type =? UC_HOOK_TLB_FILL).

(** The same for the [JJI] overload, the instruction identifier being a
    label of its [switch], and for the [JJII] overload. *)
Definition accepts_JJI (type arg : Z) : bool :=
  (type =? UC_HOOK_INSN) && bool_decide (arg ∈ insn_labels).

Definition accepts_JJII (type : Z) : bool := type =? UC_HOOK_TCG_OPCODE.

(** A registration that is turned down with the error [err]: it returns
    0, and all it did is throw the exception with the message of
    [err]. *)
Definition rejected_as (err : Z) (add : M Z) : Prop :=
  forall w, add w = Done 0 (failed (uc_strerror err) w).

(** The calls of [_hook_add] that reach [makeHookWrapper], with what the
    overload passes to [uc_hook_add] after [end]. *)
Inductive registration (self : jobject) (uc type : Z)
    (callback udata : jobject) (begin end_ : Z) : list Z -> M Z -> Prop :=
| reg_JJ :
    accepts_JJ type = true ->
    registration self uc type callback udata begin end_ []
      (Java_unicorn_Unicorn__1hook_1add__JILunicorn_Hook_2Ljava_lang_Object_2JJ
         self uc type callback udata begin end_)
| reg_JJI arg :
    accepts_JJI type arg = true ->
    registration self uc type callback udata begin end_ [arg]
      (Java_unicorn_Unicorn__1hook_1add__JILunicorn_Hook_2Ljava_lang_Object_2JJI
         self uc type callback udata begin end_ arg)
| reg_JJII arg1 arg2 :
    accepts_JJII type = true ->
    registration self uc type callback udata begin end_ [arg1; arg2]
      (Java_unicorn_Unicorn__1hook_1add__JILunicorn_Hook_2Ljava_lang_Object_2JJII
         self uc type callback udata begin end_ arg1 arg2).

(** The world in which [makeHookWrapper] returns null for want of
    memory. *)
Definition out_of_memory (w : World) : World :=
  push_event
    (EvThrowNew "java/lang/OutOfMemoryError" "Unable to allocate hook_wrapper")
    (set_exc (Some ("java/lang/OutOfMemoryError",
                    "Unable to allocate hook_wrapper")) w).

(** The call of [uc_hook_add] that a registration makes for the record
    at [hh]. *)
Definition hook_add_call (uc hh type : Z) (cb : callback_ptr)
    (begin end_ : Z) (extra : list Z) : EngineCall :=
  Call "uc_hook_add"
       ([AInt uc; AInt hh; AInt type; AFn (Some cb); AInt hh; AInt begin;
         AInt end_] ++ map AInt extra)%list.

End Shapes.

(** ** Vocabulary of the statuses *)

Definition nonOK (s : Z) : bool := negb (s =? UC_ERR_OK).


(** A step of an entry point that gets no status and throws no
    [UnicornException]. *)
Definition silent {A} (m : M A) : Prop :=
  forall w a w',
    m w = Done a w' ->
    exists t,
      w_trace w' = (t ++ w_trace w)%list
      /\ statuses t = [] /\ thrown t = [].

(** The rest of an entry point that still has to answer for the statuses
    [owed], got before it. *)
Definition settles `{P : Platform} {A} (owed : list Z) (m : M A) : Prop :=
  forall w a w',
    m w = Done a w' ->
    exists t,
      w_trace w' = (t ++ w_trace w)%list
      /\ thrown t = map uc_strerror (List.filter nonOK (statuses t ++ owed)%list).

(** A computation that leaves every Java array as it is, whether it
    returns or not. *)
Definition keeps_arrays {A} (m : M A) : Prop :=
  forall w, w_arrays (world_of (m w)) = w_arrays w.


(** ** Vocabulary of the trampolines that return *)

(** A trampoline [T], given the pointer to a dispatchable record: when no
    exception is pending once the hook method has returned, [T] leaves
    the world as the method left it, the engine not being asked to stop,
    and returns [conv] of what the method returned. *)
Definition hands_back `{P : Platform} {A} (T : Z -> M A)
    (margs : hook_wrapper -> list jvalue) (conv : Z -> A) : Prop :=
  forall ud w rec,
    w_heap w !! ud = Some rec -> callable rec ->
    let rw := after_hook (hook_obj rec) (hook_meth rec) (margs rec)
                (push_event EvAttachCurrentThread w) in
    w_exc (snd rw) = None ->
    T ud w = Done (conv (fst rw)) (snd rw).

(** ** Vocabulary of the descriptor constructors *)

(** The statics of a constructor hold a global reference to the class and
    the identifier of its constructor. *)
Definition cache_filled (c : class_cache) : Prop :=
  (exists g o, cc_clazz c = Global g o) /\ no_method (cc_init c) = false.

(** The static [clazz] does not hold a local reference, which would not
    outlive the native call that made it. *)
Definition cache_sound (c : class_cache) : Prop :=
  forall o, cc_clazz c <> Local o.

(** A constructor [make] of Java descriptors with its statics [get]: for
    a structure that is not null it returns, without invoking a hook
    method; it acquires at most one
    global reference, and none once the statics are filled, which it then
    leaves as they are; it leaves no local reference in the statics; and
    a descriptor it returns is a new object, made last, from the class in
    the statics with the arguments [ctor_args]; the record blocks are
    left alone. *)
Definition caches_class `{P : Platform} {S} (make : option S -> M jobject)
    (get : World -> class_cache) (ctor_args : S -> list jvalue) : Prop :=
  forall s w,
    exists j w' t,
      make (Some s) w = Done j w'
      /\ w_trace w' = (t ++ w_trace w)%list /\ quiet t
      /\ w_heap w' = w_heap w /\ w_next w <= w_next w'
      /\ w_globals w' = list_to_set (acquired t) ∪ w_globals w
      /\ released t = [] /\ (length (acquired t) <= 1)%nat
      /\ (cache_sound (get w) -> cache_sound (get w'))
      /\ (cache_filled (get w) -> get w' = get w /\ acquired t = [])
      /\ (cache_sound (get w) -> is_null j = false ->
          cache_filled (get w')
          /\ exists id,
              j = Local (OInst id) /\ w_next w <= id < w_next w'
              /\ head t
                 = Some (EvNewObject id (cc_clazz (get w')) (ctor_args s))).

(** ** Vocabulary of the frame *)

(** A computation that leaves the record blocks and the live global
    references as they are, whether it returns or not. *)
Definition keeps_registry {A} (m : M A) : Prop :=
  forall w,
    w_heap (world_of (m w)) = w_heap w
    /\ w_globals (world_of (m w)) = w_globals w.

(** ** Vocabulary of the memory regions *)




(** ** Vocabulary of the calls that return a descriptor *)

(** A log of work of the virtual machine only: references acquired and
    objects made; no call of the engine, no exception thrown by the
    binding, no hook method invoked, nothing allocated or released. *)
Definition jni_only (t : list Event) : Prop :=
  forallb (fun e => match e with
                    | EvNewGlobalRef _ | EvNewObject _ _ _ => true
                    | _ => false
                    end) t = true.

(** [run], started in [w], asks the engine once, by the call [c] that
    stores into a structure of members [init], and returns.  When the
    engine fails, the result is null, the engine's exception is pending
    and nothing else was done: no class was looked up and no object
    made.  When it succeeds, what follows the call is work of the
    virtual machine only, so the engine is not called again and the
    binding throws nothing; a descriptor that is returned leaves the
    pending exception as it was; and, the statics [get] holding no local
    reference, such a descriptor is a new object, made last, with the
    arguments [ctor_args] of the structure as the engine left it. *)
Definition builds_descriptor `{P : Platform} (run : M jobject)
    (c : EngineCall) (init : list Z) (get : World -> class_cache)
    (ctor_args : list Z -> list jvalue) (w : World) : Prop :=
  let s := engine_status c w in
  let w1 := push_event (EvEngine c s) w in
  exists j w',
    run w = Done j w'
    /\ (s <> UC_ERR_OK -> j = NULL /\ w' = failed (uc_strerror s) w1)
    /\ (s = UC_ERR_OK ->
        exists t,
          w_trace w' = (t ++ w_trace w1)%list /\ jni_only t
          /\ w_heap w' = w_heap w
          /\ (is_null j = false -> w_exc w' = w_exc w)
          /\ (cache_sound (get w) -> is_null j = false ->
              exists id,
                j = Local (OInst id) /\ w_next w <= id < w_next w'
                /\ head t
                   = Some (EvNewObject id (cc_clazz (get w'))
                             (ctor_args (overlay (engine_out c w) init))))).

(** ** Further sample surroundings *)

(** The virtual machine hands out the elements of no array. *)
Definition no_elements : Platform :=
  surroundings
    (fun r => match r with ReqGetArrayElements _ => true | _ => false end)
    0 None (fun _ => 0) (fun _ => [77]).

(** An engine with two mapped regions, listed at address 900, two exits
    and one cached block. *)
Definition reporting : Platform :=
  surroundings (fun _ => false) 0 None (fun _ => 0)
    (fun f =>
       if String.eqb f "uc_mem_regions"
       then [900; 2; 4096; 8191; 7; 16384; 20479; 1]
       else if String.eqb f "uc_ctl_get_exits_cnt" then [2]
       else if String.eqb f "uc_ctl_get_exits" then [4096; 8192]
       else if String.eqb f "uc_ctl_request_cache" then [4096; 2; 8]
       else [77]).

(** The byte array of [w_hooked]. *)
Definition bytes : jobject := Local (OArray 5).

(** A second target, for the writes of an MMIO region. *)
Definition writer : jobject := Local (OInst 4).

(** An engine that stores one byte, 9, and then refuses. *)
Definition half_reading : Platform :=
  surroundings (fun _ => false) 0 None (fun _ => 3) (fun _ => [9]).

(** An engine that stores five bytes. *)
Definition wide_reading : Platform :=
  surroundings (fun _ => false) 0 None (fun _ => 0)
    (fun _ => [1; 2; 3; 4; 5]).

(** * Properties *)

Section Properties.

Context `{P : Platform} `{H : Headers}.

(** ** The monad *)

Lemma bind_done {A B} (m : M A) (k : A -> M B) w a w' :
  m w = Done a w' -> bind m k w = k a w'.
Proof. unfold bind. intros ->. reflexivity. Qed.

Lemma bind_step {A B} (m : M A) (k : A -> M B) w a w' r :
  m w = Done a w' -> k a w' = r -> bind m k w = r.
Proof. unfold bind. intros -> <-. reflexivity. Qed.

Lemma bind_fault {A B} (m : M A) (k : A -> M B) w w' :
  m w = Fault w' -> bind m k w = Fault w'.
Proof. unfold bind. intros ->. reflexivity. Qed.

(** ** Throwing *)

Lemma throwUnicornException_resolved err w :
  resolves "unicorn/UnicornException" ->
  throwUnicornException err w = Done tt (failed (uc_strerror err) w).
Proof.
  intros Hue. unfold throwUnicornException, FindClass, granted, reads, bind.
  rewrite (Hue w). reflexivity.
Qed.


(** ** The error check of the trampolines *)

Lemma hookErrorCheck_pending uc w :
  pending w -> hookErrorCheck uc w = Done true (stop_request uc w).
Proof.
  intros [e He]. unfold hookErrorCheck, ExceptionCheck, reads, bind. simpl.
  rewrite He. reflexivity.
Qed.

Lemma hookErrorCheck_clear uc w :
  w_exc w = None -> hookErrorCheck uc w = Done false w.
Proof.
  intros He. unfold hookErrorCheck, ExceptionCheck, reads, bind. simpl.
  rewrite He. reflexivity.
Qed.

Lemma hookErrorCheck_total uc w :
  exists b w', hookErrorCheck uc w = Done b w'
    /\ (pending w -> b = true /\ w' = stop_request uc w)
    /\ (w_exc w = None -> b = false /\ w' = w).
Proof.
  destruct (w_exc w) as [e|] eqn:He.
  - exists true, (stop_request uc w). split; [|split].
    + apply hookErrorCheck_pending. exists e. exact He.
    + auto.
    + discriminate.
  - exists false, w. split; [|split].
    + apply hookErrorCheck_clear. exact He.
    + intros [e He']. unfold pending in *. congruence.
    + auto.
Qed.

Lemma CallMethod_callable obj meth margs w :
  is_null obj = false -> no_method meth = false ->
  CallMethod obj meth margs w
  = Done (fst (after_hook obj meth margs w)) (snd (after_hook obj meth margs w)).
Proof.
  intros Ho Hm. unfold CallMethod, after_hook. rewrite Ho, Hm. simpl.
  unfold bind, log, modify. destruct host_method. reflexivity.
Qed.

Lemma load_live p w r : w_heap w !! p = Some r -> load p w = Done r w.
Proof. unfold load. intros ->. reflexivity. Qed.

(** Runs a computation one bind at a time; [leaf] closes the steps that
    need a fact about the world. *)
Ltac run leaf :=
  cbn beta iota delta [is_null no_method negb andb orb];
  lazymatch goal with
  | |- bind _ _ _ = _ => eapply bind_step; [ run leaf | run leaf ]
  | |- (if ?b then _ else _) _ = _ =>
    first [ match goal with Hb : b = _ |- _ => rewrite Hb end; run leaf
          | idtac ]
  | |- _ => first [ leaf | reflexivity | idtac ]
  end.

(** The same, for computations whose tests are decided by equations in
    the context; [leaf] is tried on every step first. *)
Ltac walk leaf :=
  cbn beta iota;
  first
    [ leaf
    | lazymatch goal with
      | |- bind _ _ _ = _ => eapply bind_step; [ walk leaf | walk leaf ]
      | |- (if ?b then _ else _) _ = _ =>
        first [ match goal with Hb : b = _ |- _ => rewrite Hb end; walk leaf
              | progress cbn [is_null no_method]; walk leaf
              | idtac ]
      | |- _ => first [ reflexivity | idtac ]
      end ].

Ltac trampoline_leaf Hrec Hobj Hmeth Hpend :=
  first [ apply load_live; exact Hrec
        | apply (CallMethod_callable _ _ _ _ Hobj Hmeth)
        | apply hookErrorCheck_pending; exact Hpend
        | eassumption ].

Ltac trampoline Hrec Hcall Hpend :=
  unfold CallVoidMethod, CallIntMethod, CallLongMethod, CallBooleanMethod;
  destruct Hcall as [Hobj Hmeth];
  run ltac:(trampoline_leaf Hrec Hobj Hmeth Hpend).

(** ** A pending failure stops the engine, in every trampoline *)

Lemma cb_hookintr_stops uc intno ud w rec :
  w_heap w !! ud = Some rec -> callable rec ->
  let w1 := snd (after_hook (hook_obj rec) (hook_meth rec)
                   [JObj (unicorn rec); JInt (jint_of intno);
                    JObj (user_data rec)]
                   (push_event EvAttachCurrentThread w)) in
  pending w1 ->
  cb_hookintr uc intno ud w = Done tt (stop_request uc w1).
Proof.
  intros Hrec Hcall w1 Hpend. unfold cb_hookintr.
  trampoline Hrec Hcall Hpend.
Qed.

Lemma cb_insn_in_stops uc port size ud w rec :
  w_heap w !! ud = Some rec -> callable rec ->
  let w1 := snd (after_hook (hook_obj rec) (hook_meth rec)
                   [JObj (unicorn rec); JInt (jint_of port);
                    JInt (jint_of size); JObj (user_data rec)]
                   (push_event EvAttachCurrentThread w)) in
  pending w1 ->
  cb_insn_in uc port size ud w = Done 0 (stop_request uc w1).
Proof.
  intros Hrec Hcall w1 Hpend. unfold cb_insn_in.
  trampoline Hrec Hcall Hpend.
Qed.

Lemma cb_insn_out_stops uc port size value ud w rec :
  w_heap w !! ud = Some rec -> callable rec ->
  let w1 := snd (after_hook (hook_obj rec) (hook_meth rec)
                   [JObj (unicorn rec); JInt (jint_of port);
                    JInt (jint_of size); JInt (jint_of value);
                    JObj (user_data rec)]
                   (push_event EvAttachCurrentThread w)) in
  pending w1 ->
  cb_insn_out uc port size value ud w = Done tt (stop_request uc w1).
Proof.
  intros Hrec Hcall w1 Hpend. unfold cb_insn_out.
  trampoline Hrec Hcall Hpend.
Qed.

Lemma cb_insn_syscall_stops uc ud w rec :
  w_heap w !! ud = Some rec -> callable rec ->
  let w1 := snd (after_hook (hook_obj rec) (hook_meth rec)
                   [JObj (unicorn rec); JObj (user_data rec)]
                   (push_event EvAttachCurrentThread w)) in
  pending w1 ->
  cb_insn_syscall uc ud w = Done tt (stop_request uc w1).
Proof.
  intros Hrec Hcall w1 Hpend. unfold cb_insn_syscall.
  trampoline Hrec Hcall Hpend.
Qed.

Lemma cb_insn_cpuid_stops uc ud w rec :
  w_heap w !! ud = Some rec -> callable rec ->
  let w1 := snd (after_hook (hook_obj rec) (hook_meth rec)
                   [JObj (unicorn rec); JObj (user_data rec)]
                   (push_event EvAttachCurrentThread w)) in
  pending w1 ->
  cb_insn_cpuid uc ud w = Done 0 (stop_request uc w1).
Proof.
  intros Hrec Hcall w1 Hpend. unfold cb_insn_cpuid.
  trampoline Hrec Hcall Hpend.
Qed.

Lemma cb_hookcode_stops uc address size ud w rec :
  w_heap w !! ud = Some rec -> callable rec ->
  let w1 := snd (after_hook (hook_obj rec) (hook_meth rec)
                   [JObj (unicorn rec); JLong (jlong_of address);
                    JInt (jint_of size); JObj (user_data rec)]
                   (push_event EvAttachCurrentThread w)) in
  pending w1 ->
  cb_hookcode uc address size ud w = Done tt (stop_request uc w1).
Proof.
  intros Hrec Hcall w1 Hpend. unfold cb_hookcode.
  trampoline Hrec Hcall Hpend.
Qed.

Lemma cb_eventmem_stops uc type address size value ud w rec :
  w_heap w !! ud = Some rec -> callable rec ->
  let w1 := snd (after_hook (hook_obj rec) (hook_meth rec)
                   [JObj (unicorn rec); JInt (jint_of type);
                    JLong (jlong_of address); JInt (jint_of size);
                    JLong (jlong_of value); JObj (user_data rec)]
                   (push_event EvAttachCurrentThread w)) in
  pending w1 ->
  cb_eventmem uc type address size value ud w = Done false (stop_request uc w1).
Proof.
  intros Hrec Hcall w1 Hpend. unfold cb_eventmem.
  trampoline Hrec Hcall Hpend.
Qed.

Lemma cb_hookmem_stops uc type address size value ud w rec :
  w_heap w !! ud = Some rec -> callable rec ->
  let w1 := snd (after_hook (hook_obj rec) (hook_meth rec)
                   [JObj (unicorn rec); JInt (jint_of type);
                    JLong (jlong_of address); JInt (jint_of size);
                    JLong (jlong_of value); JObj (user_data rec)]
                   (push_event EvAttachCurrentThread w)) in
  pending w1 ->
  cb_hookmem uc type address size value ud w = Done tt (stop_request uc w1).
Proof.
  intros Hrec Hcall w1 Hpend. unfold cb_hookmem.
  trampoline Hrec Hcall Hpend.
Qed.

Lemma cb_hookinsn_invalid_stops uc ud w rec :
  w_heap w !! ud = Some rec -> callable rec ->
  let w1 := snd (after_hook (hook_obj rec) (hook_meth rec)
                   [JObj (unicorn rec); JObj (user_data rec)]
                   (push_event EvAttachCurrentThread w)) in
  pending w1 ->
  cb_hookinsn_invalid uc ud w = Done false (stop_request uc w1).
Proof.
  intros Hrec Hcall w1 Hpend. unfold cb_hookinsn_invalid.
  trampoline Hrec Hcall Hpend.
Qed.

Lemma cb_tcg_op_2_stops uc address arg1 arg2 size ud w rec :
  w_heap w !! ud = Some rec -> callable rec ->
  let w1 := snd (after_hook (hook_obj rec) (hook_meth rec)
                   [JObj (unicorn rec); JLong (jlong_of address);
                    JLong (jlong_of arg1); JLong (jlong_of arg2);
                    JInt (jint_of size); JObj (user_data rec)]
                   (push_event EvAttachCurrentThread w)) in
  pending w1 ->
  cb_tcg_op_2 uc address arg1 arg2 size ud w = Done tt (stop_request uc w1).
Proof.
  intros Hrec Hcall w1 Hpend. unfold cb_tcg_op_2.
  trampoline Hrec Hcall Hpend.
Qed.

Lemma cb_tlbevent_stops uc vaddr type entry ud w rec :
  w_heap w !! ud = Some rec -> callable rec ->
  let w1 := snd (after_hook (hook_obj rec) (hook_meth rec)
                   [JObj (unicorn rec); JLong (jlong_of vaddr);
                    JInt (jint_of type); JObj (user_data rec)]
                   (push_event EvAttachCurrentThread w)) in
  pending w1 ->
  cb_tlbevent uc vaddr type entry ud w = Done (false, entry) (stop_request uc w1).
Proof.
  intros Hrec Hcall w1 Hpend. unfold cb_tlbevent.
  trampoline Hrec Hcall Hpend.
Qed.

Lemma cb_mmio_read_stops uc offset size ud w rec :
  w_heap w !! ud = Some rec -> callable rec ->
  let w1 := snd (after_hook (hook_obj rec) (hook_meth rec)
                   [JObj (unicorn rec); JLong (jlong_of offset);
                    JInt (jint_of size); JObj (user_data rec)]
                   (push_event EvAttachCurrentThread w)) in
  pending w1 ->
  cb_mmio_read uc offset size ud w = Done 0 (stop_request uc w1).
Proof.
  intros Hrec Hcall w1 Hpend. unfold cb_mmio_read.
  trampoline Hrec Hcall Hpend.
Qed.

Lemma cb_mmio_write_stops uc offset size value ud w rec :
  w_heap w !! ud = Some rec -> callable rec ->
  let w1 := snd (after_hook (hook_obj rec) (hook_meth rec)
                   [JObj (unicorn rec); JLong (jlong_of offset);
                    JInt (jint_of size); JLong (jlong_of value);
                    JObj (user_data rec)]
                   (push_event EvAttachCurrentThread w)) in
  pending w1 ->
  cb_mmio_write uc offset size value ud w = Done tt (stop_request uc w1).
Proof.
  intros Hrec Hcall w1 Hpend. unfold cb_mmio_write.
  trampoline Hrec Hcall Hpend.
Qed.

Lemma cb_insn_sys_stops uc reg cp_reg ud w jcp_reg w0 rec :
  makeArm64_CP cp_reg (push_event EvAttachCurrentThread w) = Done jcp_reg w0 ->
  is_null jcp_reg = false ->
  w_heap w0 !! ud = Some rec -> callable rec ->
  let w1 := snd (after_hook (hook_obj rec) (hook_meth rec)
                   [JObj (unicorn rec); JInt (jint_of reg); JObj jcp_reg;
                    JObj (user_data rec)] w0) in
  pending w1 ->
  cb_insn_sys uc reg cp_reg ud w = Done 0 (stop_request uc w1).
Proof.
  intros Hmk Hnn Hrec Hcall w1 Hpend. unfold cb_insn_sys.
  trampoline Hrec Hcall Hpend.
Qed.

Lemma cb_edge_gen_stops uc cur_tb prev_tb ud w jcur_tb wa jprev_tb w0 rec :
  makeTranslationBlock cur_tb (push_event EvAttachCurrentThread w)
  = Done jcur_tb wa ->
  is_null jcur_tb = false ->
  makeTranslationBlock prev_tb wa = Done jprev_tb w0 ->
  is_null jprev_tb = false ->
  w_heap w0 !! ud = Some rec -> callable rec ->
  let w1 := snd (after_hook (hook_obj rec) (hook_meth rec)
                   [JObj (unicorn rec); JObj jcur_tb; JObj jprev_tb;
                    JObj (user_data rec)] w0) in
  pending w1 ->
  cb_edge_gen uc cur_tb prev_tb ud w = Done tt (stop_request uc w1).
Proof.
  intros Hcur Hnc Hprev Hnp Hrec Hcall w1 Hpend. unfold cb_edge_gen.
  trampoline Hrec Hcall Hpend.
Qed.

(** C1: in every hook trampoline, if a Java exception is pending when the
    hook method returns, the trampoline calls [uc_emu_stop] before it
    returns, and returns the neutral result of its shape (nothing for the
    void hooks, 0 for the hooks that return a value, false for the veto
    hooks, false with the TLB entry untouched for TLB fill) whatever the
    method returned. *)
Theorem trampoline_failure_takes_priority :
  (forall uc intno,
      yields_to_failure (cb_hookintr uc intno) uc
        (fun r => [JObj (unicorn r); JInt (jint_of intno); JObj (user_data r)])
        tt)
  /\ (forall uc address size,
      yields_to_failure (cb_hookcode uc address size) uc
        (fun r => [JObj (unicorn r); JLong (jlong_of address);
                   JInt (jint_of size); JObj (user_data r)])
        tt)
  /\ (forall uc type address size value,
      yields_to_failure (cb_hookmem uc type address size value) uc
        (fun r => [JObj (unicorn r); JInt (jint_of type);
                   JLong (jlong_of address); JInt (jint_of size);
                   JLong (jlong_of value); JObj (user_data r)])
        tt)
  /\ (forall uc type address size value,
      yields_to_failure (cb_eventmem uc type address size value) uc
        (fun r => [JObj (unicorn r); JInt (jint_of type);
                   JLong (jlong_of address); JInt (jint_of size);
                   JLong (jlong_of value); JObj (user_data r)])
        false)
  /\ (forall uc port size,
      yields_to_failure (cb_insn_in uc port size) uc
        (fun r => [JObj (unicorn r); JInt (jint_of port); JInt (jint_of size);
                   JObj (user_data r)])
        0)
  /\ (forall uc port size value,
      yields_to_failure (cb_insn_out uc port size value) uc
        (fun r => [JObj (unicorn r); JInt (jint_of port); JInt (jint_of size);
                   JInt (jint_of value); JObj (user_data r)])
        tt)
  /\ (forall uc,
      yields_to_failure (cb_insn_syscall uc) uc
        (fun r => [JObj (unicorn r); JObj (user_data r)]) tt)
  /\ (forall uc,
      yields_to_failure (cb_insn_cpuid uc) uc
        (fun r => [JObj (unicorn r); JObj (user_data r)]) 0)
  /\ (forall uc,
      yields_to_failure (cb_hookinsn_invalid uc) uc
        (fun r => [JObj (unicorn r); JObj (user_data r)]) false)
  /\ (forall uc address arg1 arg2 size,
      yields_to_failure (cb_tcg_op_2 uc address arg1 arg2 size) uc
        (fun r => [JObj (unicorn r); JLong (jlong_of address);
                   JLong (jlong_of arg1); JLong (jlong_of arg2);
                   JInt (jint_of size); JObj (user_data r)])
        tt)
  /\ (forall uc vaddr type entry,
      yields_to_failure (cb_tlbevent uc vaddr type entry) uc
        (fun r => [JObj (unicorn r); JLong (jlong_of vaddr);
                   JInt (jint_of type); JObj (user_data r)])
        (false, entry))
  /\ (forall uc offset size,
      yields_to_failure (cb_mmio_read uc offset size) uc
        (fun r => [JObj (unicorn r); JLong (jlong_of offset);
                   JInt (jint_of size); JObj (user_data r)])
        0)
  /\ (forall uc offset size value,
      yields_to_failure (cb_mmio_write uc offset size value) uc
        (fun r => [JObj (unicorn r); JLong (jlong_of offset);
                   JInt (jint_of size); JLong (jlong_of value);
                   JObj (user_data r)])
        tt)
  /\ (forall uc reg cp_reg ud w jcp_reg w0 rec,
      makeArm64_CP cp_reg (push_event EvAttachCurrentThread w)
      = Done jcp_reg w0 ->
      is_null jcp_reg = false ->
      w_heap w0 !! ud = Some rec -> callable rec ->
      let w1 := snd (after_hook (hook_obj rec) (hook_meth rec)
                       [JObj (unicorn rec); JInt (jint_of reg); JObj jcp_reg;
                        JObj (user_data rec)] w0) in
      pending w1 ->
      cb_insn_sys uc reg cp_reg ud w = Done 0 (stop_request uc w1))
  /\ (forall uc cur_tb prev_tb ud w jcur_tb wa jprev_tb w0 rec,
      makeTranslationBlock cur_tb (push_event EvAttachCurrentThread w)
      = Done jcur_tb wa ->
      is_null jcur_tb = false ->
      makeTranslationBlock prev_tb wa = Done jprev_tb w0 ->
      is_null jprev_tb = false ->
      w_heap w0 !! ud = Some rec -> callable rec ->
      let w1 := snd (after_hook (hook_obj rec) (hook_meth rec)
                       [JObj (unicorn rec); JObj jcur_tb; JObj jprev_tb;
                        JObj (user_data rec)] w0) in
      pending w1 ->
      cb_edge_gen uc cur_tb prev_tb ud w = Done tt (stop_request uc w1)).
Proof.
  repeat split; unfold yields_to_failure; intros.
  - eapply cb_hookintr_stops; eassumption.
  - eapply cb_hookcode_stops; eassumption.
  - eapply cb_hookmem_stops; eassumption.
  - eapply cb_eventmem_stops; eassumption.
  - eapply cb_insn_in_stops; eassumption.
  - eapply cb_insn_out_stops; eassumption.
  - eapply cb_insn_syscall_stops; eassumption.
  - eapply cb_insn_cpuid_stops; eassumption.
  - eapply cb_hookinsn_invalid_stops; eassumption.
  - eapply cb_tcg_op_2_stops; eassumption.
  - eapply cb_tlbevent_stops; eassumption.
  - eapply cb_mmio_read_stops; eassumption.
  - eapply cb_mmio_write_stops; eassumption.
  - eapply cb_insn_sys_stops; eassumption.
  - eapply cb_edge_gen_stops; eassumption.
Qed.

(** ** The TLB-fill trampoline *)

Lemma land_bounded a p : 0 <= p -> 0 <= Z.land a p <= p.
Proof.
  intros Hp. split.
  - apply Z.land_nonneg. right. exact Hp.
  - pose proof (Z.sub_land_same_l p a) as Hs.
    assert (0 <= Z.land p (Z.lnot a)) by (apply Z.land_nonneg; left; exact Hp).
    rewrite (Z.land_comm a p). lia.
Qed.

Lemma uint_land bits a x :
  0 <= bits -> uint bits (Z.land a x) = Z.land (uint bits a) x.
Proof.
  intros Hb. unfold uint. rewrite <- !Z.land_ones by exact Hb.
  rewrite <- !Z.land_assoc. f_equal. apply Z.land_comm.
Qed.

Lemma uint_small bits z : 0 <= z < 2 ^ bits -> uint bits z = z.
Proof. intros Hz. unfold uint. apply Z.mod_small. exact Hz. Qed.

(** C5: when the TLB-fill hook returns V and throws nothing, then for V
    other than -1 the trampoline reports the fault as handled and leaves an
    entry whose physical address is V with the permission bits cleared and
    whose permissions are V restricted to the permission bits; for V = -1
    it reports the fault as not handled and leaves the entry as it was. *)
Theorem tlb_fill_splits_result uc vaddr type entry ud w rec :
  w_heap w !! ud = Some rec -> callable rec ->
  0 <= UC_PROT_ALL < 2 ^ 31 ->
  let r := after_hook (hook_obj rec) (hook_meth rec)
             [JObj (unicorn rec); JLong (jlong_of vaddr); JInt (jint_of type);
              JObj (user_data rec)]
             (push_event EvAttachCurrentThread w) in
  let V := jlong_of (fst r) in
  (w_exc (snd r) = None -> V <> -1 ->
   exists e,
     cb_tlbevent uc vaddr type entry ud w = Done (true, e) (snd r)
     /\ paddr e = uint64_of (Z.land V (Z.lnot UC_PROT_ALL))
     /\ paddr e = Z.land (uint64_of V) (Z.lnot UC_PROT_ALL)
     /\ perms e = Z.land V UC_PROT_ALL
     /\ Z.land (paddr e) UC_PROT_ALL = 0)
  /\ (V = -1 ->
      exists w', cb_tlbevent uc vaddr type entry ud w = Done (false, entry) w').
Proof.
  intros Hrec [Hobj Hmeth] Hprot r V. split.
  - intros Hclear HV.
    exists (UcTlbEntry (uint64_of (Z.land V (Z.lnot UC_PROT_ALL)))
                       (uint32_of (Z.land V UC_PROT_ALL))).
    split; [|split; [|split; [|split]]].
    + unfold cb_tlbevent, CallLongMethod.
      run ltac:(first [ apply load_live; exact Hrec
                      | apply (CallMethod_callable _ _ _ _ Hobj Hmeth)
                      | apply hookErrorCheck_clear; exact Hclear ]).
      fold r. fold V. destruct (Z.eqb_spec V (-1)) as [->|_]; [contradiction|].
      reflexivity.
    + reflexivity.
    + simpl. unfold uint64_of. apply uint_land. lia.
    + simpl. unfold uint32_of. apply uint_small.
      pose proof (land_bounded V UC_PROT_ALL (proj1 Hprot)).
      assert (2 ^ 31 < 2 ^ 32) by (apply Z.pow_lt_mono_r; lia). lia.
    + simpl. unfold uint64_of. rewrite uint_land by lia.
      rewrite <- Z.land_assoc, (Z.land_comm (Z.lnot _)), Z.land_lnot_diag.
      apply Z.land_0_r.
  - intros HV.
    destruct (hookErrorCheck_total uc (snd r)) as (b & w' & Hc & _).
    exists w'. unfold cb_tlbevent, CallLongMethod.
    run ltac:(first [ apply load_live; exact Hrec
                    | apply (CallMethod_callable _ _ _ _ Hobj Hmeth)
                    | exact Hc ]).
    fold r. fold V. rewrite HV. destruct b; reflexivity.
Qed.

(** ** The edge-generation trampoline *)

Lemma log_cons (e : Event) (t tr tr' : list Event) :
  tr' = (t ++ tr)%list -> e :: tr' = ((e :: t) ++ tr)%list.
Proof. intros ->. reflexivity. Qed.

Lemma log_nil (tr : list Event) : tr = ([] ++ tr)%list.
Proof. reflexivity. Qed.

(** Finds the events added to a log. *)
Ltac added := repeat apply log_cons; apply log_nil.

(** Splits on every test that the platform or the world decides. *)
Ltac split_tests :=
  repeat match goal with
         | |- context [if ?b then _ else _] => destruct b eqn:?; cbn
         | |- context [match ?x with Some _ => _ | None => _ end] =>
           destruct x eqn:?; cbn
         end.

Lemma makeTranslationBlock_total tb w :
  exists j w' t,
    makeTranslationBlock tb w = Done j w'
    /\ w_trace w' = (t ++ w_trace w)%list /\ quiet t
    /\ (tb = None -> j = NULL /\ w' = w).
Proof.
  destruct tb as [tb|]; cbn.
  2:{ exists NULL, w, []. repeat split. }
  unfold makeTranslationBlock, static_clazz, static_clazzInit, FindClass,
    NewGlobalRef, GetMethodID, NewObject, granted, raise, reads, modify, log,
    fresh, bind, ret, fault.
  cbn.
  split_tests;
    (eexists _, _, _; split; [reflexivity|]; split; [cbn; added|];
     split; [reflexivity|discriminate]).
Qed.

Lemma quiet_app t1 t2 : quiet t1 -> quiet t2 -> quiet (t1 ++ t2).
Proof. unfold quiet. rewrite forallb_app. intros -> ->. reflexivity. Qed.

Lemma hookErrorCheck_quiet uc w b w' :
  hookErrorCheck uc w = Done b w' ->
  exists t, w_trace w' = (t ++ w_trace w)%list /\ quiet t.
Proof.
  destruct (hookErrorCheck_total uc w) as (b0 & w0 & Hc & Hp & Hn).
  rewrite Hc. intros [= <- <-].
  destruct (w_exc w) as [e|] eqn:He.
  - destruct Hp as [_ ->]; [exists e; exact He|].
    eexists. split; [cbn; added|reflexivity].
  - destruct Hn as [_ ->]; [reflexivity|].
    exists []. split; reflexivity.
Qed.

(** C9: when the construction of a translation-block descriptor fails in
    the edge-generation trampoline (which it does when the current or the
    previous block is null), the trampoline does not invoke the hook
    method: it runs [hookErrorCheck] in the world the failed construction
    left and returns, without a fault, even for a record pointer that is
    not valid. *)
Theorem edge_gen_short_circuits uc cur_tb prev_tb ud w :
  let w0 := push_event EvAttachCurrentThread w in
  (forall w1,
      construction_fails cur_tb prev_tb w0 w1 ->
      exists b w',
        hookErrorCheck uc w1 = Done b w'
        /\ cb_edge_gen uc cur_tb prev_tb ud w = Done tt w'
        /\ exists t, w_trace w' = (t ++ w_trace w)%list /\ quiet t)
  /\ (cur_tb = None \/ prev_tb = None ->
      exists w1, construction_fails cur_tb prev_tb w0 w1).
Proof.
  intros w0. split.
  - intros w1 Hfail.
    destruct (hookErrorCheck_total uc w1) as (b & w' & Hc & _).
    exists b, w'. split; [exact Hc|].
    destruct (hookErrorCheck_quiet _ _ _ _ Hc) as (tc & Htc & Hqc).
    destruct Hfail as [Hcur | (j & wa & Hcur & Hj & Hprev)].
    + split.
      * unfold cb_edge_gen. run ltac:(first [exact Hcur | exact Hc]).
      * destruct (makeTranslationBlock_total cur_tb w0)
          as (j' & w1' & t1 & Hrun & Ht1 & Hq1 & _).
        rewrite Hcur in Hrun. injection Hrun as <- <-.
        exists (tc ++ t1 ++ [EvAttachCurrentThread])%list. split.
        -- rewrite Htc, Ht1. cbn. rewrite <- !app_assoc. reflexivity.
        -- repeat apply quiet_app; auto. reflexivity.
    + split.
      * unfold cb_edge_gen.
        run ltac:(first [exact Hcur | exact Hprev | exact Hc]).
      * destruct (makeTranslationBlock_total cur_tb w0)
          as (j' & w1' & t1 & Hrun & Ht1 & Hq1 & _).
        rewrite Hcur in Hrun. injection Hrun as <- <-.
        destruct (makeTranslationBlock_total prev_tb wa)
          as (j' & w1' & t2 & Hrun & Ht2 & Hq2 & _).
        rewrite Hprev in Hrun. injection Hrun as <- <-.
        exists (tc ++ t2 ++ t1 ++ [EvAttachCurrentThread])%list. split.
        -- rewrite Htc, Ht2, Ht1. cbn. rewrite <- !app_assoc. reflexivity.
        -- repeat apply quiet_app; auto. reflexivity.
  - intros Hnull.
    destruct (makeTranslationBlock_total cur_tb w0)
      as (j & wa & t1 & Hcur & _ & _ & Hn1).
    destruct (is_null j) eqn:Hj.
    + destruct j; try discriminate. exists wa. left. exact Hcur.
    + destruct Hnull as [-> | ->].
      * destruct Hn1 as [-> _]; [reflexivity|]. discriminate.
      * exists wa. right. exists j, wa. repeat split; auto.
Qed.

(** ** Building and discarding a record *)

(** Normal form of a computation of the registry: every definition of the
    model is unfolded, the lookups at the block just written are resolved. *)
Ltac norm :=
  cbv beta iota zeta delta
    [bind ret fault modify reads log fresh granted raise
     FindClass ThrowNew ExceptionCheck NewGlobalRef DeleteGlobalRef
     GetObjectClass GetMethodID calloc load store free
     with_uc_hh with_unicorn with_hook_obj with_hook_meth with_user_data zeroed
     makeHookWrapper deleteHookWrapper throwOutOfMemoryError
     throwUnicornException uc_hook_add hook_add_register engine engine_st
     is_null no_method referent negb andb orb
     set_exc set_globals set_heap set_arrays set_next push_event];
  cbn [w_exc w_globals w_heap w_arrays w_next w_mmr w_cp w_tb w_region w_trace
       uc_hh unicorn hook_obj hook_meth user_data fst snd].

Ltac heap_step :=
  repeat (progress
            (norm;
             rewrite ?lookup_insert_eq, ?insert_insert_eq, ?delete_insert_eq,
               ?Z.eqb_refl)).

Ltac split_paths Hnz Hres :=
  repeat (repeat (progress (heap_step; rewrite ?Hnz, ?Hres));
          match goal with
          | |- context [match ?x with NULL => _ | _ => _ end] =>
            destruct x eqn:?
          | |- context [if ?b then _ else _] => destruct b eqn:?
          end);
  repeat (progress (heap_step; rewrite ?Hnz, ?Hres)).

Ltac no_dup :=
  repeat (apply NoDup_cons; split;
          [rewrite ?not_elem_of_cons; repeat split;
           first [lia | apply not_elem_of_nil] |]);
  apply NoDup_nil_2.

Lemma supply_fresh w k : supply w -> w_next w <= k -> k ∉ w_globals w.
Proof. intros (_ & _ & Hg). apply Hg. Qed.

Lemma supply_free w k : supply w -> w_next w <= k -> w_heap w !! k = None.
Proof. intros (_ & Hh & _). apply Hh. Qed.

(** What [makeHookWrapper] does: it returns; when it returns null, the
    blocks and the global references are those it started with; when it
    returns a record, the record is new, it holds new global references
    to the engine facade, to the target and to the user data (if there is
    one), and the method is resolved. *)
Lemma makeHookWrapper_spec self callback udata name sig w :
  supply w -> resolves "java/lang/OutOfMemoryError" ->
  exists p w' t,
    makeHookWrapper self callback udata name sig w = Done p w'
    /\ w_trace w' = (t ++ w_trace w)%list
    /\ supply w' /\ w_next w <= w_next w'
    /\ statuses t = [] /\ thrown t = [] /\ w_arrays w' = w_arrays w
    /\ ((p = 0 /\ w_heap w' = w_heap w /\ w_globals w' = w_globals w
         /\ released t = acquired t /\ freed t = allocated t
         /\ NoDup (acquired t)
         /\ (forall g, g ∈ acquired t -> w_next w < g < w_next w')
         /\ (grants ReqCalloc w = false ->
             w_exc w' = Some ("java/lang/OutOfMemoryError",
                              "Unable to allocate hook_wrapper")))
        \/ (p = w_next w /\ p < w_next w' /\ exists rec,
              w_heap w' = <[p := rec]> (w_heap w)
              /\ w_globals w' = list_to_set (held rec) ∪ w_globals w
              /\ holds_globals rec /\ NoDup (held rec)
              /\ (forall g, g ∈ held rec -> w_next w < g < w_next w')
              /\ acquired t = rev (held rec) /\ released t = []
              /\ allocated t = [p] /\ freed t = []
              /\ uc_hh rec = 0
              /\ referent (unicorn rec) = referent self
              /\ referent (hook_obj rec) = referent callback
              /\ hook_meth rec = Method name sig
              /\ referent (user_data rec) = referent udata
              /\ w_exc w' = w_exc w)).
Proof.
  intros Hs Hoom.
  pose proof (supply_fresh w (w_next w + 1) Hs ltac:(lia)) as Hg1.
  pose proof (supply_fresh w (w_next w + 1 + 1) Hs ltac:(lia)) as Hg2.
  pose proof (supply_fresh w (w_next w + 1 + 1 + 1) Hs ltac:(lia)) as Hg3.
  pose proof (supply_free w (w_next w) Hs ltac:(lia)) as Hh0.
  destruct Hs as (Hpos & Hheap & Hglob).
  unfold resolves in Hoom.
  assert (Hnz : (w_next w =? 0) = false) by (apply Z.eqb_neq; lia).
  split_paths Hnz Hoom.
  all: eexists _, _, _; split; [reflexivity|];
    split; [cbn [w_trace]; added|].
  all: split;
    [ unfold supply; cbn [w_next w_heap w_globals];
      split; [lia|]; split; intros k Hk;
      [ rewrite ?lookup_delete_ne, ?lookup_insert_ne by lia; apply Hheap; lia
      | pose proof (Hglob k ltac:(lia)); set_unfold; naive_solver lia ] |].
  all: split; [cbn [w_next]; lia|].
  all: split; [reflexivity|]; split; [reflexivity|]; split; [reflexivity|].
  all: cbn [w_heap w_globals w_exc w_next w_arrays].
  all: first
    [ left; split; [reflexivity|];
      split; [first [reflexivity | apply delete_id; exact Hh0]|];
      split; [set_solver|];
      split; [reflexivity|]; split; [reflexivity|];
      split; [cbn [acquired]; no_dup|];
      split; [cbn [acquired]; intros ? ?; set_unfold; naive_solver lia|];
      intros ?; first [reflexivity | congruence]
    | right; split; [reflexivity|]; split; [lia|];
      eexists; split; [reflexivity|];
      cbn [held global_id unicorn hook_obj user_data hook_meth uc_hh app
           acquired released allocated freed rev referent];
      split; [set_solver|];
      split; [repeat split; intros; discriminate|];
      split; [no_dup|];
      split; [intros ? ?; set_unfold; naive_solver lia|];
      repeat split; reflexivity ].
Qed.

Ltac destruct_refs rec Hglob :=
  destruct rec as [hnd [|ou|gu ou] [|oo|go oo] meth [|od|gd od]];
  try (exfalso; apply (proj1 Hglob ou); reflexivity);
  try (exfalso; apply (proj1 (proj2 Hglob) oo); reflexivity);
  try (exfalso; apply (proj2 (proj2 Hglob) od); reflexivity).

(** What [deleteHookWrapper] does to a live record: each reference it
    holds is released, in the order of the members, then the block is
    freed. *)
Lemma deleteHookWrapper_spec p w rec :
  p <> 0 -> w_heap w !! p = Some rec -> holds_globals rec ->
  exists w',
    deleteHookWrapper p w = Done tt w'
    /\ w_trace w'
       = (EvFree p :: map EvDeleteGlobalRef (rev (held rec)) ++ w_trace w)%list
    /\ w_heap w' = delete p (w_heap w)
    /\ w_globals w' = w_globals w ∖ list_to_set (held rec)
    /\ w_next w' = w_next w /\ w_exc w' = w_exc w
    /\ w_arrays w' = w_arrays w.
Proof.
  intros Hp Hrec Hglob.
  assert (Hnz : (p =? 0) = false) by (apply Z.eqb_neq; exact Hp).
  destruct_refs rec Hglob.
  all: norm; rewrite Hnz, Hrec; norm; rewrite ?Hrec; norm.
  all: eexists; split; [reflexivity|]; cbn; repeat split; set_solver.
Qed.

(** What [_hook_del] does to a live record. *)
Lemma hook_del_spec uc hh w rec :
  w_heap w !! hh = Some rec -> holds_globals rec ->
  exists w',
    Java_unicorn_Unicorn__1hook_1del uc hh w = Done tt w'
    /\ w_trace w'
       = (map EvDeleteGlobalRef (rev (held rec))
          ++ EvEngine (Call "uc_hook_del" [AInt uc; AInt (uc_hh rec)])
               (engine_status (Call "uc_hook_del" [AInt uc; AInt (uc_hh rec)])
                              w)
          :: w_trace w)%list
    /\ w_heap w' = <[hh := cleared rec]> (w_heap w)
    /\ w_globals w' = w_globals w ∖ list_to_set (held rec)
    /\ w_next w' = w_next w /\ w_exc w' = w_exc w
    /\ w_arrays w' = w_arrays w.
Proof.
  intros Hrec Hglob.
  destruct_refs rec Hglob.
  all: unfold Java_unicorn_Unicorn__1hook_1del;
    norm; rewrite Hrec; heap_step; rewrite ?Hrec; heap_step.
  all: eexists; split; [reflexivity|]; cbn; unfold cleared; cbn;
    repeat split; first [set_solver | symmetry; apply insert_id; exact Hrec].
Qed.

(** Closes a goal whose premise says that a computation which faulted or
    returned null returned the record [hh]. *)
Ltac not_a_record Hhh :=
  let Heq := fresh in
  intros Heq;
  first [ discriminate Heq
        | injection Heq as <- _; exfalso; apply Hhh; reflexivity ].

(** A registration that returns a record: the record is new, holds new
    references, and the engine accepted the trampoline with the record as
    its user data. *)
Lemma hook_add_register_success self uc type callback udata begin end_ extra
    hook_sig hook_callback w hh w1 :
  supply w -> resolves "java/lang/OutOfMemoryError" ->
  hook_add_register self uc type callback udata begin end_ extra
                    hook_sig hook_callback w = Done hh w1 ->
  hh <> 0 ->
  exists rec t0,
    hh = w_next w
    /\ w_heap w1 = <[hh := rec]> (w_heap w)
    /\ w_globals w1 = list_to_set (held rec) ∪ w_globals w
    /\ holds_globals rec /\ NoDup (held rec)
    /\ (forall g, g ∈ held rec -> g ∉ w_globals w)
    /\ w_trace w1
       = (EvEngine
            (Call "uc_hook_add"
               ([AInt uc; AInt hh; AInt type; AFn (Some hook_callback);
                 AInt hh; AInt begin; AInt end_] ++ map AInt extra))
            UC_ERR_OK :: t0 ++ w_trace w)%list
    /\ acquired t0 = rev (held rec) /\ released t0 = []
    /\ allocated t0 = [hh] /\ freed t0 = []
    /\ statuses t0 = []
    /\ hook_meth rec = Method "hook" hook_sig
    /\ referent (hook_obj rec) = referent callback
    /\ referent (unicorn rec) = referent self
    /\ referent (user_data rec) = referent udata.
Proof.
  intros Hs Hoom Hrun Hhh.
  destruct (makeHookWrapper_spec self callback udata "hook" hook_sig w Hs Hoom)
    as (p & w' & t & Hmk & Ht & Hs' & Hle & Hst & Hth & Harr & Hcases).
  unfold hook_add_register in Hrun.
  erewrite bind_done in Hrun by exact Hmk.
  destruct Hcases as [(-> & _) | (-> & _ & rec & Hheap & Hglob & Hhg & Hnd & Hfresh
                                   & Hacq & Hrel & Hall & Hfr & Hhh0 & Hru & Hro
                                   & Hm & Hrd & Hexc)].
  - exfalso. revert Hrun. norm.
    destruct (engine_status _ w' =? UC_ERR_OK) eqn:Hok; norm.
    + destruct (w_heap w' !! 0); norm; rewrite ?Hok; norm; not_a_record Hhh.
    + rewrite ?Hok; norm.
      destruct (grants _ _); norm; rewrite ?Z.eqb_refl; not_a_record Hhh.
  - revert Hrun. norm.
    destruct (engine_status _ w' =? UC_ERR_OK) eqn:Hok; norm.
    + rewrite Hheap, lookup_insert_eq. norm. rewrite insert_insert_eq, Hok.
      norm. intros [= <- <-]. apply Z.eqb_eq in Hok.
      exists (with_uc_hh (hd 0 (engine_out
                (Call "uc_hook_add"
                   ([AInt uc; AInt (w_next w); AInt type;
                     AFn (Some hook_callback); AInt (w_next w); AInt begin;
                     AInt end_] ++ map AInt extra)) w')) rec), t.
      split; [reflexivity|]. split; [reflexivity|].
      split; [exact Hglob|]. split; [exact Hhg|]. split; [exact Hnd|].
      split.
      { intros g Hg. pose proof (Hfresh g Hg).
        apply (supply_fresh w g Hs). lia. }
      split.
      { cbn [w_trace]. rewrite Ht. apply (f_equal2 cons); [|reflexivity].
        apply (f_equal2 EvEngine); [reflexivity | exact Hok]. }
      split; [exact Hacq|]. split; [exact Hrel|].
      split; [exact Hall|]. split; [exact Hfr|]. split; [exact Hst|].
      split; [exact Hm|]. split; [exact Hro|]. split; [exact Hru|].
      exact Hrd.
    + rewrite ?Hok; norm. destruct (grants _ _); norm.
      * assert (Hnz : (w_next w =? 0) = false)
          by (apply Z.eqb_neq; pose proof (proj1 Hs); lia).
        rewrite Hnz. norm. rewrite Hheap, lookup_insert_eq. norm.
        destruct rec as [hnd [|ou|gu ou] [|oo|go oo] meth [|od|gd od]];
          norm; rewrite ?lookup_insert_eq; norm; not_a_record Hhh.
      * not_a_record Hhh.
Qed.

(** ** Unregistering *)

Lemma released_app t1 t2 : released (t1 ++ t2) = (released t1 ++ released t2)%list.
Proof.
  induction t1 as [|[] t1 IH]; cbn; rewrite ?IH; reflexivity.
Qed.

Lemma acquired_app t1 t2 : acquired (t1 ++ t2) = (acquired t1 ++ acquired t2)%list.
Proof.
  induction t1 as [|[] t1 IH]; cbn; rewrite ?IH; reflexivity.
Qed.

Lemma allocated_app t1 t2 :
  allocated (t1 ++ t2) = (allocated t1 ++ allocated t2)%list.
Proof.
  induction t1 as [|[] t1 IH]; cbn; rewrite ?IH; reflexivity.
Qed.

Lemma freed_app t1 t2 : freed (t1 ++ t2) = (freed t1 ++ freed t2)%list.
Proof.
  induction t1 as [|[] t1 IH]; cbn; rewrite ?IH; reflexivity.
Qed.

Lemma statuses_app t1 t2 : statuses (t1 ++ t2) = (statuses t1 ++ statuses t2)%list.
Proof.
  induction t1 as [|[] t1 IH]; cbn; rewrite ?IH; try reflexivity.
  destruct (String.eqb _ _); cbn; rewrite ?IH; reflexivity.
Qed.

Lemma thrown_app t1 t2 : thrown (t1 ++ t2) = (thrown t1 ++ thrown t2)%list.
Proof.
  induction t1 as [|[] t1 IH]; cbn; rewrite ?IH; try reflexivity.
  destruct (String.eqb _ _); cbn; rewrite ?IH; reflexivity.
Qed.

Lemma released_deletes l : released (map EvDeleteGlobalRef l) = l.
Proof. induction l as [|g l IH]; cbn; rewrite ?IH; reflexivity. Qed.

Lemma acquired_deletes l : acquired (map EvDeleteGlobalRef l) = [].
Proof. induction l as [|g l IH]; cbn; rewrite ?IH; reflexivity. Qed.

Lemma allocated_deletes l : allocated (map EvDeleteGlobalRef l) = [].
Proof. induction l as [|g l IH]; cbn; rewrite ?IH; reflexivity. Qed.

Lemma freed_deletes l : freed (map EvDeleteGlobalRef l) = [].
Proof. induction l as [|g l IH]; cbn; rewrite ?IH; reflexivity. Qed.

Lemma holds_globals_cleared rec : holds_globals (cleared rec).
Proof. repeat split; intros o; discriminate. Qed.

(** The registration behind every overload, undone. *)
Lemma hook_add_register_released_once self uc type callback udata begin end_
    extra hook_sig hook_callback :
  resolves "java/lang/OutOfMemoryError" ->
  released_once
    (hook_add_register self uc type callback udata begin end_ extra
                       hook_sig hook_callback) uc.
Proof.
  intros Hoom w hh w1 Hs Hadd Hhh.
  destruct (hook_add_register_success _ _ _ _ _ _ _ _ _ _ _ _ _ Hs Hoom Hadd Hhh)
    as (rec & t0 & Hp & Hheap & Hglob & Hhg & Hnd & Hfresh & Htr & Hacq & Hrel
        & Hall & Hfr & Hst & _).
  assert (Hrec : w_heap w1 !! hh = Some rec)
    by (rewrite Hheap; apply lookup_insert_eq).
  destruct (hook_del_spec uc hh w1 rec Hrec Hhg)
    as (w2 & Hdel & Htr2 & Hheap2 & Hglob2 & _).
  assert (Hrec2 : w_heap w2 !! hh = Some (cleared rec))
    by (rewrite Hheap2; apply lookup_insert_eq).
  destruct (deleteHookWrapper_spec hh w2 (cleared rec) Hhh Hrec2
              (holds_globals_cleared rec))
    as (w3 & Hfree & Htr3 & Hheap3 & Hglob3 & _).
  exists w2, w3,
    (EvFree hh
     :: map EvDeleteGlobalRef (rev (held rec))
     ++ EvEngine (Call "uc_hook_del" [AInt uc; AInt (uc_hh rec)])
          (engine_status (Call "uc_hook_del" [AInt uc; AInt (uc_hh rec)]) w1)
     :: EvEngine
          (Call "uc_hook_add"
             ([AInt uc; AInt hh; AInt type; AFn (Some hook_callback);
               AInt hh; AInt begin; AInt end_] ++ map AInt extra))
          UC_ERR_OK
     :: t0)%list.
  split; [exact Hdel|]. split; [exact Hfree|].
  split.
  { rewrite Htr3, Htr2, Htr.
    cbn [held cleared unicorn hook_obj user_data global_id app rev map].
    rewrite <- app_assoc. reflexivity. }
  cbn [released acquired allocated freed app].
  rewrite !released_app, !acquired_app, !allocated_app, !freed_app,
    released_deletes, acquired_deletes, allocated_deletes, freed_deletes.
  cbn [released acquired allocated freed app].
  rewrite Hrel, Hacq, Hall, Hfr, !app_nil_r.
  split; [apply NoDup_ListNoDup, NoDup_rev, NoDup_ListNoDup; exact Hnd|]. split; [reflexivity|].
  split; [reflexivity|]. split; [reflexivity|].
  assert (Hfree0 : w_heap w !! hh = None)
    by (rewrite Hp; apply (supply_free w _ Hs); lia).
  split.
  - rewrite Hheap3, Hheap2, Hheap.
    rewrite delete_insert_eq, delete_insert_eq. apply delete_id. exact Hfree0.
  - rewrite Hglob3, Hglob2, Hglob.
    cbn [held cleared unicorn hook_obj user_data global_id app].
    assert (Hout : forall g, g ∈ held rec -> g ∉ w_globals w) by exact Hfresh.
    set_solver.
Qed.

Lemma throw_returns_null err w hh w1 :
  bind (throwUnicornException err) (fun _ => ret 0) w = Done hh w1 -> hh = 0.
Proof.
  norm. destruct (grants _ _); norm; intros [=]; congruence.
Qed.

Ltac by_overload Hadd Hhh :=
  cbv zeta in Hadd;
  repeat match type of Hadd with
         | context [if ?b then _ else _] => destruct b
         end;
  first [ eexists _, _; exact Hadd
        | exfalso; apply Hhh; exact (throw_returns_null _ _ _ _ Hadd) ].

Lemma hook_add_JJ_registers self uc type callback udata begin end_ w hh w1 :
  Java_unicorn_Unicorn__1hook_1add__JILunicorn_Hook_2Ljava_lang_Object_2JJ
    self uc type callback udata begin end_ w = Done hh w1 ->
  hh <> 0 ->
  exists hook_sig hook_callback,
    hook_add_register self uc type callback udata begin end_ []
                      hook_sig hook_callback w = Done hh w1.
Proof.
  intros Hadd Hhh.
  unfold Java_unicorn_Unicorn__1hook_1add__JILunicorn_Hook_2Ljava_lang_Object_2JJ
    in Hadd.
  by_overload Hadd Hhh.
Qed.

Lemma hook_add_JJI_registers self uc type callback udata begin end_ arg w hh w1 :
  Java_unicorn_Unicorn__1hook_1add__JILunicorn_Hook_2Ljava_lang_Object_2JJI
    self uc type callback udata begin end_ arg w = Done hh w1 ->
  hh <> 0 ->
  exists hook_sig hook_callback,
    hook_add_register self uc type callback udata begin end_ [arg]
                      hook_sig hook_callback w = Done hh w1.
Proof.
  intros Hadd Hhh.
  unfold Java_unicorn_Unicorn__1hook_1add__JILunicorn_Hook_2Ljava_lang_Object_2JJI
    in Hadd.
  by_overload Hadd Hhh.
Qed.

Lemma hook_add_JJII_registers self uc type callback udata begin end_ arg1 arg2
    w hh w1 :
  Java_unicorn_Unicorn__1hook_1add__JILunicorn_Hook_2Ljava_lang_Object_2JJII
    self uc type callback udata begin end_ arg1 arg2 w = Done hh w1 ->
  hh <> 0 ->
  exists hook_sig hook_callback,
    hook_add_register self uc type callback udata begin end_ [arg1; arg2]
                      hook_sig hook_callback w = Done hh w1.
Proof.
  intros Hadd Hhh.
  unfold Java_unicorn_Unicorn__1hook_1add__JILunicorn_Hook_2Ljava_lang_Object_2JJII
    in Hadd.
  by_overload Hadd Hhh.
Qed.

(** C7: for a live record whose references are global ones, [_hook_del]
    returns, calls [uc_hook_del] with the hook handle of the record and
    then releases the references the record holds (engine facade,
    callback target, user data), in this order, leaving the three members
    null; a second [_hook_del] calls [uc_hook_del] again and releases
    nothing; and after a registration through any of the three
    [_hook_add] overloads that returned a record, [_hook_del] then
    [_hookwrapper_free] release every reference the registration acquired
    exactly once. *)
Theorem unregister_releases_each_reference_once :
  (forall uc hh w rec,
      w_heap w !! hh = Some rec -> holds_globals rec ->
      exists w',
        Java_unicorn_Unicorn__1hook_1del uc hh w = Done tt w'
        /\ w_trace w'
           = (map EvDeleteGlobalRef (rev (held rec))
              ++ EvEngine (Call "uc_hook_del" [AInt uc; AInt (uc_hh rec)])
                   (engine_status
                      (Call "uc_hook_del" [AInt uc; AInt (uc_hh rec)]) w)
              :: w_trace w)%list
        /\ w_heap w' = <[hh := cleared rec]> (w_heap w)
        /\ w_globals w' = w_globals w ∖ list_to_set (held rec)
        /\ exists w'',
            Java_unicorn_Unicorn__1hook_1del uc hh w' = Done tt w''
            /\ w_trace w''
               = EvEngine (Call "uc_hook_del" [AInt uc; AInt (uc_hh rec)])
                   (engine_status
                      (Call "uc_hook_del" [AInt uc; AInt (uc_hh rec)]) w')
                 :: w_trace w'
            /\ w_heap w'' = w_heap w'
            /\ w_globals w'' = w_globals w')
  /\ (resolves "java/lang/OutOfMemoryError" ->
      forall self uc type callback udata begin end_,
        released_once
          (Java_unicorn_Unicorn__1hook_1add__JILunicorn_Hook_2Ljava_lang_Object_2JJ
             self uc type callback udata begin end_) uc
        /\ (forall arg,
               released_once
                 (Java_unicorn_Unicorn__1hook_1add__JILunicorn_Hook_2Ljava_lang_Object_2JJI
                    self uc type callback udata begin end_ arg) uc)
        /\ (forall arg1 arg2,
               released_once
                 (Java_unicorn_Unicorn__1hook_1add__JILunicorn_Hook_2Ljava_lang_Object_2JJII
                    self uc type callback udata begin end_ arg1 arg2) uc)).
Proof.
  split.
  - intros uc hh w rec Hrec Hhg.
    destruct (hook_del_spec uc hh w rec Hrec Hhg)
      as (w' & Hdel & Htr & Hheap & Hglob & _).
    exists w'. split; [exact Hdel|]. split; [exact Htr|].
    split; [exact Hheap|]. split; [exact Hglob|].
    assert (Hrec' : w_heap w' !! hh = Some (cleared rec))
      by (rewrite Hheap; apply lookup_insert_eq).
    destruct (hook_del_spec uc hh w' (cleared rec) Hrec'
                (holds_globals_cleared rec))
      as (w'' & Hdel' & Htr' & Hheap' & Hglob' & _).
    exists w''. split; [exact Hdel'|]. split; [exact Htr'|]. split.
    + rewrite Hheap'. apply insert_id. exact Hrec'.
    + rewrite Hglob'. cbn. set_solver.
  - intros Hoom self uc type callback udata begin end_.
    split; [|split].
    + intros w hh w1 Hs Hadd Hhh.
      destruct (hook_add_JJ_registers _ _ _ _ _ _ _ _ _ _ Hadd Hhh)
        as (sg & cb & Hreg).
      exact (hook_add_register_released_once _ _ _ _ _ _ _ _ _ _ Hoom
               w hh w1 Hs Hreg Hhh).
    + intros arg w hh w1 Hs Hadd Hhh.
      destruct (hook_add_JJI_registers _ _ _ _ _ _ _ _ _ _ _ Hadd Hhh)
        as (sg & cb & Hreg).
      exact (hook_add_register_released_once _ _ _ _ _ _ _ _ _ _ Hoom
               w hh w1 Hs Hreg Hhh).
    + intros arg1 arg2 w hh w1 Hs Hadd Hhh.
      destruct (hook_add_JJII_registers _ _ _ _ _ _ _ _ _ _ _ _ Hadd Hhh)
        as (sg & cb & Hreg).
      exact (hook_add_register_released_once _ _ _ _ _ _ _ _ _ _ Hoom
               w hh w1 Hs Hreg Hhh).
Qed.

(** ** Mapping an MMIO region *)

Lemma fold_release_facts l w :
  w_heap (fold_left release l w) = w_heap w
  /\ w_globals (fold_left release l w) = w_globals w ∖ list_to_set l
  /\ w_trace (fold_left release l w)
     = (map EvDeleteGlobalRef (rev l) ++ w_trace w)%list
  /\ w_next (fold_left release l w) = w_next w
  /\ w_exc (fold_left release l w) = w_exc w
  /\ w_arrays (fold_left release l w) = w_arrays w.
Proof.
  revert w. induction l as [|g l IH]; intros w; cbn [fold_left].
  - cbn. repeat split. set_solver.
  - destruct (IH (release w g)) as (Hh & Hg & Ht & Hn & He & Ha).
    rewrite Hh, Hg, Ht, Hn, He, Ha. cbn. repeat split.
    + set_solver.
    + rewrite map_app, <- app_assoc. reflexivity.
Qed.

Lemma deleteHookWrapper_eq h rec w :
  (h = 0 \/ w_heap w !! h = Some rec) -> holds_globals rec ->
  deleteHookWrapper h w = Done tt (discard h rec w).
Proof.
  intros Hlive Hglob. unfold discard.
  destruct (Z.eqb_spec h 0) as [->|Hnz]; [reflexivity|].
  destruct Hlive as [->|Hrec]; [contradiction|].
  assert (Hz : (h =? 0) = false) by (apply Z.eqb_neq; exact Hnz).
  destruct_refs rec Hglob.
  all: norm; rewrite Hz, Hrec; norm; rewrite ?Hrec; norm; reflexivity.
Qed.

Lemma discard_facts h rec w :
  w_heap (discard h rec w) = (if h =? 0 then w_heap w else delete h (w_heap w))
  /\ w_globals (discard h rec w)
     = (if h =? 0 then w_globals w else w_globals w ∖ list_to_set (held rec))
  /\ w_trace (discard h rec w) = (del_events h rec ++ w_trace w)%list
  /\ w_arrays (discard h rec w) = w_arrays w.
Proof.
  unfold discard, del_events. destruct (h =? 0); [repeat split|].
  destruct (fold_release_facts (held rec) w) as (Hh & Hg & Ht & Hn & He & Ha).
  cbn. rewrite Hh, Hg, Ht, Ha. repeat split.
Qed.

(** One target of [_mmio_map]: nothing happens for an absent target;
    otherwise [makeHookWrapper] runs.  [rec] is the record made, if any. *)
Lemma slot_spec self cb ud name sig w :
  supply w -> resolves "java/lang/OutOfMemoryError" ->
  exists h w1 t rec,
    (if is_null cb then ret 0 else makeHookWrapper self cb ud name sig) w
    = Done h w1
    /\ w_trace w1 = (t ++ w_trace w)%list
    /\ supply w1 /\ w_next w <= w_next w1
    /\ statuses t = [] /\ thrown t = [] /\ w_arrays w1 = w_arrays w
    /\ w_heap w1 = (if h =? 0 then w_heap w else <[h := rec]> (w_heap w))
    /\ w_globals w1 = list_to_set (held rec) ∪ w_globals w
    /\ holds_globals rec /\ NoDup (held rec)
    /\ (forall g, g ∈ acquired t -> w_next w < g < w_next w1)
    /\ acquired t ≡ₚ released t ++ held rec
    /\ NoDup (acquired t)
    /\ allocated t = (freed t ++ if h =? 0 then [] else [h])%list
    /\ (h = 0 -> held rec = [])
    /\ (h <> 0 ->
        h = w_next w /\ h < w_next w1 /\ released t = [] /\ freed t = []
        /\ referent (hook_obj rec) = referent cb
        /\ hook_meth rec = Method name sig
        /\ referent (user_data rec) = referent ud)
    /\ (is_null cb = true -> h = 0 /\ t = []).
Proof.
  intros Hs Hoom. destruct (is_null cb) eqn:Hcb.
  - exists 0, w, [], zeroed. cbn.
    split; [reflexivity|]. split; [reflexivity|]. split; [exact Hs|].
    split; [lia|]. split; [reflexivity|]. split; [reflexivity|].
    split; [reflexivity|]. split; [reflexivity|]. split; [set_solver|].
    split; [repeat split; intros; discriminate|].
    split; [apply NoDup_nil_2|]. split; [intros g Hg; set_solver|].
    split; [reflexivity|]. split; [apply NoDup_nil_2|].
    split; [reflexivity|]. split; [reflexivity|].
    split; [intros Hz; exfalso; apply Hz; reflexivity|].
    intros _. split; reflexivity.
  - destruct (makeHookWrapper_spec self cb ud name sig w Hs Hoom)
      as (p & w1 & t & Hmk & Ht & Hs1 & Hle & Hst & Hth & Harr & Hcases).
    destruct Hcases as [(-> & Hheap & Hglob & Hrel & Hfr & Hnd & Hrange & _)
                       | (-> & Hlt & rec & Hheap & Hglob & Hhg & Hnd & Hfresh
                          & Hacq & Hrel & Hall & Hfr & _ & _ & Hro & Hm & Hrd
                          & _)].
    + exists 0, w1, t, zeroed. cbn.
      split; [exact Hmk|]. split; [exact Ht|]. split; [exact Hs1|].
      split; [exact Hle|]. split; [exact Hst|]. split; [exact Hth|].
      split; [exact Harr|]. split; [exact Hheap|].
      split; [rewrite Hglob; set_solver|].
      split; [repeat split; intros; discriminate|].
      split; [apply NoDup_nil_2|]. split; [exact Hrange|].
      split; [rewrite Hrel, app_nil_r; reflexivity|]. split; [exact Hnd|].
      split; [rewrite Hfr, app_nil_r; reflexivity|].
      split; [reflexivity|].
      split; [intros Hz; exfalso; apply Hz; reflexivity|].
      intros [=].
    + assert (Hnz : (w_next w =? 0) = false)
        by (apply Z.eqb_neq; pose proof (proj1 Hs); lia).
      exists (w_next w), w1, t, rec. rewrite Hnz.
      split; [exact Hmk|]. split; [exact Ht|]. split; [exact Hs1|].
      split; [exact Hle|]. split; [exact Hst|]. split; [exact Hth|].
      split; [exact Harr|]. split; [exact Hheap|]. split; [exact Hglob|].
      split; [exact Hhg|]. split; [exact Hnd|].
      split.
      { intros g Hg. apply Hfresh. rewrite Hacq in Hg.
        apply list_elem_of_In, in_rev, list_elem_of_In in Hg. exact Hg. }
      split.
      { rewrite Hrel, Hacq. cbn. symmetry. apply Permutation_rev. }
      split.
      { rewrite Hacq. apply NoDup_ListNoDup, NoDup_rev, NoDup_ListNoDup.
        exact Hnd. }
      split; [rewrite Hall, Hfr; reflexivity|].
      split; [intros Hz; pose proof (proj1 Hs); lia|].
      split; [|intros [=]].
      intros _. repeat split; assumption.
Qed.

Lemma del_events_facts h rec :
  (h = 0 -> held rec = []) ->
  released (del_events h rec) ≡ₚ held rec
  /\ acquired (del_events h rec) = []
  /\ allocated (del_events h rec) = []
  /\ freed (del_events h rec) = (if h =? 0 then [] else [h]).
Proof.
  intros Hz. unfold del_events.
  destruct (Z.eqb_spec h 0) as [Hh|Hh].
  - rewrite (Hz Hh). cbn. repeat split; reflexivity.
  - cbn. rewrite released_deletes, acquired_deletes, allocated_deletes,
      freed_deletes.
    repeat split. symmetry. apply Permutation_rev.
Qed.

Lemma in_acquired_of_held t rec g :
  acquired t ≡ₚ released t ++ held rec -> g ∈ held rec -> g ∈ acquired t.
Proof. intros Hp Hg. rewrite Hp. set_solver. Qed.

Lemma overlay_exact (l : list Z) :
  overlay (take (Z.to_nat (Z.of_nat (length l))) l)
          (replicate (Z.to_nat (Z.of_nat (length l))) 0) = l.
Proof.
  rewrite Nat2Z.id. unfold overlay.
  rewrite firstn_all, length_replicate, drop_ge by (rewrite length_replicate; lia).
  rewrite app_nil_r. apply firstn_all.
Qed.

Lemma perm_interleave {A} (a b c d : list A) :
  a ++ b ++ c ++ d ≡ₚ (c ++ a) ++ (d ++ b).
Proof.
  rewrite <- (app_assoc c a), (app_assoc a b).
  rewrite (Permutation_app_comm (a ++ b)), <- !app_assoc.
  apply Permutation_app_head, Permutation_app_swap_app.
Qed.

Section Unwind.

(** The two targets of one [_mmio_map]: from [w] the first is treated,
    leaving [w1]; from [w1] the second, leaving [w2]. *)
Variables (w w1 w2 : World) (t1 t2 : list Event) (h0 h1 : Z)
          (rec0 rec1 : hook_wrapper).
Hypothesis Hs : supply w.
Hypothesis Ht1 : w_trace w1 = (t1 ++ w_trace w)%list.
Hypothesis Hle1 : w_next w <= w_next w1.
Hypothesis Hheap1 :
  w_heap w1 = (if h0 =? 0 then w_heap w else <[h0 := rec0]> (w_heap w)).
Hypothesis Hglob1 : w_globals w1 = list_to_set (held rec0) ∪ w_globals w.
Hypothesis Hhg0 : holds_globals rec0.
Hypothesis Hrange1 : forall g, g ∈ acquired t1 -> w_next w < g < w_next w1.
Hypothesis Hacq1 : acquired t1 ≡ₚ released t1 ++ held rec0.
Hypothesis Hnda1 : NoDup (acquired t1).
Hypothesis Hall1 :
  allocated t1 = (freed t1 ++ if h0 =? 0 then [] else [h0])%list.
Hypothesis Hst1 : statuses t1 = [].
Hypothesis Hth1 : thrown t1 = [].
Hypothesis Hz0 : h0 = 0 -> held rec0 = [].
Hypothesis Hnz0 : h0 <> 0 -> h0 = w_next w /\ h0 < w_next w1.
Hypothesis Ht2 : w_trace w2 = (t2 ++ w_trace w1)%list.
Hypothesis Hheap2 :
  w_heap w2 = (if h1 =? 0 then w_heap w1 else <[h1 := rec1]> (w_heap w1)).
Hypothesis Hglob2 : w_globals w2 = list_to_set (held rec1) ∪ w_globals w1.
Hypothesis Hhg1 : holds_globals rec1.
Hypothesis Hrange2 : forall g, g ∈ acquired t2 -> w_next w1 < g < w_next w2.
Hypothesis Hacq2 : acquired t2 ≡ₚ released t2 ++ held rec1.
Hypothesis Hnda2 : NoDup (acquired t2).
Hypothesis Hall2 :
  allocated t2 = (freed t2 ++ if h1 =? 0 then [] else [h1])%list.
Hypothesis Hst2 : statuses t2 = [].
Hypothesis Hth2 : thrown t2 = [].
Hypothesis Hz1 : h1 = 0 -> held rec1 = [].
Hypothesis Hnz1 : h1 <> 0 -> h1 = w_next w1 /\ h1 < w_next w2.

Lemma slots_live :
  (h0 = 0 \/ w_heap w2 !! h0 = Some rec0)
  /\ (h1 = 0 \/ delete h0 (w_heap w2) !! h1 = Some rec1)
  /\ (h1 = 0 \/ w_heap w2 !! h1 = Some rec1).
Proof.
  rewrite Hheap2, Hheap1.
  destruct (Z.eqb_spec h0 0) as [E0|N0]; destruct (Z.eqb_spec h1 0) as [E1|N1];
    try (destruct (Hnz0 N0)); try (destruct (Hnz1 N1)).
  - repeat split; left; assumption.
  - split; [left; assumption|]. split; right.
    + rewrite lookup_delete_ne by lia. apply lookup_insert_eq.
    + apply lookup_insert_eq.
  - split; [|split; left; assumption]. right. apply lookup_insert_eq.
  - split; [|split]; right.
    + rewrite lookup_insert_ne by lia. apply lookup_insert_eq.
    + rewrite lookup_delete_ne by lia. apply lookup_insert_eq.
    + apply lookup_insert_eq.
Qed.

Lemma slots_unmapped :
  (if h1 =? 0 then (if h0 =? 0 then w_heap w2 else delete h0 (w_heap w2))
   else delete h1 (if h0 =? 0 then w_heap w2 else delete h0 (w_heap w2)))
  = w_heap w.
Proof.
  rewrite Hheap2, Hheap1.
  destruct (Z.eqb_spec h0 0) as [E0|N0]; destruct (Z.eqb_spec h1 0) as [E1|N1];
    try (destruct (Hnz0 N0)); try (destruct (Hnz1 N1)).
  - reflexivity.
  - rewrite delete_insert_eq. apply delete_id, (supply_free w _ Hs). lia.
  - rewrite delete_insert_eq. apply delete_id, (supply_free w _ Hs). lia.
  - rewrite (delete_insert_ne _ h0 h1) by lia.
    rewrite delete_insert_eq, delete_insert_eq.
    rewrite (delete_id _ h0) by (apply (supply_free w _ Hs); lia).
    apply delete_id, (supply_free w _ Hs). lia.
Qed.

Lemma held_fresh g : g ∈ held rec0 \/ g ∈ held rec1 -> g ∉ w_globals w.
Proof.
  intros [Hg|Hg].
  - apply (in_acquired_of_held _ _ _ Hacq1) in Hg. apply Hrange1 in Hg.
    apply (supply_fresh w g Hs). lia.
  - apply (in_acquired_of_held _ _ _ Hacq2) in Hg. apply Hrange2 in Hg.
    apply (supply_fresh w g Hs). lia.
Qed.

(** Both records are given up in a world [wx] that differs from [w2]
    only by events [tx] that allocate and release nothing: what is left is
    the heap and the live references of [w]. *)
Lemma unwind_spec wx tx :
  w_heap wx = w_heap w2 -> w_globals wx = w_globals w2 ->
  w_trace wx = (tx ++ w_trace w2)%list ->
  released tx = [] -> acquired tx = [] -> allocated tx = [] -> freed tx = [] ->
  exists w' t,
    bind (deleteHookWrapper h0)
         (fun _ => bind (deleteHookWrapper h1) (fun _ => ret NULL)) wx
    = Done NULL w'
    /\ w_trace w' = (t ++ w_trace w)%list
    /\ w_heap w' = w_heap w /\ w_globals w' = w_globals w
    /\ released t ≡ₚ acquired t /\ NoDup (acquired t)
    /\ freed t ≡ₚ allocated t
    /\ statuses t = statuses tx /\ thrown t = thrown tx.
Proof.
  intros Hhx Hgx Htx Hrx Hax Halx Hfx.
  destruct slots_live as (L0 & L1d & L1).
  destruct (discard_facts h0 rec0 wx) as (Hh0 & Hg0 & Htr0 & _).
  destruct (discard_facts h1 rec1 (discard h0 rec0 wx))
    as (Hh1' & Hg1' & Htr1' & _).
  destruct (del_events_facts h0 rec0 Hz0) as (Dr0 & Da0 & Dl0 & Df0).
  destruct (del_events_facts h1 rec1 Hz1) as (Dr1 & Da1 & Dl1 & Df1).
  exists (discard h1 rec1 (discard h0 rec0 wx)),
    (del_events h1 rec1 ++ del_events h0 rec0 ++ tx ++ t2 ++ t1)%list.
  split.
  { eapply bind_step;
      [apply deleteHookWrapper_eq; [rewrite Hhx; exact L0 | exact Hhg0]|].
    eapply bind_step;
      [apply deleteHookWrapper_eq; [|exact Hhg1] | reflexivity].
    rewrite Hh0, Hhx. destruct (Z.eqb_spec h0 0); [exact L1 | exact L1d]. }
  split.
  { rewrite Htr1', Htr0, Htx, Ht2, Ht1. rewrite <- !app_assoc. reflexivity. }
  split.
  { rewrite Hh1', Hh0, Hhx. apply slots_unmapped. }
  split.
  { rewrite Hg1', Hg0, Hgx, Hglob2, Hglob1.
    pose proof held_fresh as Hfresh.
    destruct (Z.eqb_spec h0 0) as [E0|N0];
      destruct (Z.eqb_spec h1 0) as [E1|N1];
      rewrite ?(Hz0 E0), ?(Hz1 E1) in *; set_solver. }
  rewrite !released_app, !acquired_app, !allocated_app, !freed_app,
    !statuses_app, !thrown_app.
  rewrite Da0, Da1, Dl0, Dl1, Df0, Df1, Hrx, Hax, Halx, Hfx, Hst1, Hst2,
    Hth1, Hth2.
  cbn [app]. rewrite !app_nil_r.
  split.
  { rewrite Dr0, Dr1, Hacq2, Hacq1. apply perm_interleave. }
  split.
  { apply NoDup_app. split; [exact Hnda2|]. split; [|exact Hnda1].
    intros g Hg2 Hg1. apply Hrange2 in Hg2. apply Hrange1 in Hg1. lia. }
  split.
  { rewrite Hall2, Hall1. apply perm_interleave. }
  assert (Hquiet : forall h rec,
             statuses (del_events h rec) = [] /\ thrown (del_events h rec) = []).
  { intros h rec. unfold del_events. destruct (h =? 0); [split; reflexivity|].
    cbn. induction (rev (held rec)); [split; reflexivity | exact IHl]. }
  destruct (Hquiet h0 rec0) as (-> & ->).
  destruct (Hquiet h1 rec1) as (-> & ->).
  split; reflexivity.
Qed.


(** The rest of [_mmio_map] once both targets are treated and neither
    failed: the result array is made and filled, and the engine is asked
    to map the region. *)
Hypothesis Hk0 : released t1 = [] /\ freed t1 = [].
Hypothesis Hk1 : released t2 = [] /\ freed t2 = [].
Hypothesis Harr1 : w_arrays w1 = w_arrays w.
Hypothesis Harr2 : w_arrays w2 = w_arrays w1.
Hypothesis Hue : resolves "unicorn/UnicornException".

Lemma mmio_finish uc address size :
  let hooksLong :=
    ((if h0 =? 0 then [] else [h0]) ++ (if h1 =? 0 then [] else [h1]))%list in
  let hooksCount := Z.of_nat (length hooksLong) in
  exists result w' t,
    bind (NewArray hooksCount)
      (fun result =>
         if is_null result then
           bind (deleteHookWrapper h0)
                (fun _ => bind (deleteHookWrapper h1) (fun _ => ret NULL))
         else
           bind (SetLongArrayRegion result hooksCount hooksLong)
             (fun _ =>
                bind (engine_st "uc_mmio_map"
                        [AInt uc; AInt address; AInt size;
                         AFn (if h0 =? 0 then None else Some ptr_cb_mmio_read);
                         AInt h0;
                         AFn (if h1 =? 0 then None else Some ptr_cb_mmio_write);
                         AInt h1])
                  (fun err =>
                     if negb (err =? UC_ERR_OK) then
                       bind (throwUnicornException err)
                         (fun _ =>
                            bind (deleteHookWrapper h0)
                              (fun _ =>
                                 bind (deleteHookWrapper h1)
                                      (fun _ => ret NULL)))
                     else ret result))) w2
    = Done result w'
    /\ w_trace w' = (t ++ w_trace w)%list
    /\ (is_null result = true ->
        w_heap w' = w_heap w /\ w_globals w' = w_globals w
        /\ released t ≡ₚ acquired t /\ NoDup (acquired t)
        /\ freed t ≡ₚ allocated t)
    /\ (is_null result = false ->
        statuses t = [UC_ERR_OK] /\ thrown t = []
        /\ released t = [] /\ freed t = []
        /\ w_heap w' = w_heap w2
        /\ result = Local (OArray (w_next w2))
        /\ w_arrays w' !! w_next w2 = Some hooksLong
        /\ hooksLong = rev (allocated t) /\ NoDup hooksLong
        /\ head t
           = Some (EvEngine
                     (Call "uc_mmio_map"
                        [AInt uc; AInt address; AInt size;
                         AFn (if h0 =? 0 then None else Some ptr_cb_mmio_read);
                         AInt h0;
                         AFn (if h1 =? 0 then None else Some ptr_cb_mmio_write);
                         AInt h1]) UC_ERR_OK))
    /\ (grants (ReqNewArray hooksCount) w2 = true ->
        (forall c w0, fn c = "uc_mmio_map" -> engine_status c w0 = UC_ERR_OK) ->
        is_null result = false).
Proof.
  intros hooksLong hooksCount.
  destruct (grants (ReqNewArray hooksCount) w2) eqn:Hgrant.
  2:{ (* no array *)
    destruct (unwind_spec
                (set_exc (Some ("java/lang/OutOfMemoryError", "NewArray")) w2)
                [])
      as (w' & t & Hun & Htr & Hh & Hg & Hperm & Hnd & Hfa & _);
      try reflexivity.
    exists NULL, w', t. split.
    { unfold NewArray, granted, raise, reads, modify.
      walk ltac:(exact Hun). }
    split; [exact Htr|]. split; [intros _; auto|].
    split; [intros [=] | intros [=]]. }
  set (wa := set_arrays
               (<[w_next w2 := replicate (Z.to_nat hooksCount) 0]> (w_arrays w2))
               (set_next (w_next w2 + 1) w2)).
  set (wb := set_arrays
               (<[w_next w2 :=
                    overlay (take (Z.to_nat hooksCount) hooksLong)
                            (replicate (Z.to_nat hooksCount) 0)]>
                  (w_arrays wa)) wa).
  set (c := Call "uc_mmio_map"
              [AInt uc; AInt address; AInt size;
               AFn (if h0 =? 0 then None else Some ptr_cb_mmio_read);
               AInt h0;
               AFn (if h1 =? 0 then None else Some ptr_cb_mmio_write);
               AInt h1]).
  set (wc := push_event (EvEngine c (engine_status c wb)) wb).
  assert (Hnew : NewArray hooksCount w2 = Done (Local (OArray (w_next w2))) wa).
  { unfold NewArray, granted, reads, fresh, modify.
    walk ltac:(fail). }
  assert (Hset : SetLongArrayRegion (Local (OArray (w_next w2))) hooksCount
                   hooksLong wa = Done tt wb).
  { unfold SetLongArrayRegion, array_contents, bind, modify. cbn.
    rewrite lookup_insert_eq. reflexivity. }
  assert (Hmap : engine_st "uc_mmio_map" (args c) wb
                 = Done (engine_status c wb) wc) by reflexivity.
  destruct Hk0 as (Hr1 & Hf1). destruct Hk1 as (Hr2 & Hf2).
  destruct (negb (engine_status c wb =? UC_ERR_OK)) eqn:Hneg.
  2:{ (* the region is mapped *)
    assert (Hok : engine_status c wb = UC_ERR_OK)
      by (apply Z.eqb_eq, negb_false_iff; exact Hneg).
    exists (Local (OArray (w_next w2))), wc,
      (EvEngine c UC_ERR_OK :: t2 ++ t1)%list.
    split.
    { walk ltac:(first [exact Hnew | exact Hset | exact Hmap]). }
    split.
    { cbn [wc wb wa w_trace push_event set_arrays set_next].
      rewrite Hok, Ht2, Ht1, <- app_comm_cons, <- app_assoc. reflexivity. }
    split; [intros [=]|]. split; [|intros _ _; reflexivity]. intros _.
    cbn [statuses thrown released freed allocated c fn].
    rewrite statuses_app, thrown_app, released_app, freed_app, allocated_app.
    rewrite Hst1, Hst2, Hth1, Hth2, Hr1, Hr2, Hf1, Hf2, Hall1, Hall2, Hf1, Hf2.
    split; [reflexivity|]. split; [reflexivity|]. split; [reflexivity|].
    split; [reflexivity|]. split; [reflexivity|]. split; [reflexivity|].
    split.
    { cbn [wc wb wa w_arrays push_event set_arrays set_next].
      rewrite lookup_insert_eq. f_equal. apply overlay_exact. }
    unfold hooksLong.
    destruct (Z.eqb_spec h0 0) as [E0|N0];
      destruct (Z.eqb_spec h1 0) as [E1|N1];
      try (destruct (Hnz0 N0)); try (destruct (Hnz1 N1)); cbn;
      (split; [reflexivity|]); (split; [no_dup | reflexivity]). }
  (* the engine refused *)
  set (wd := failed (uc_strerror (engine_status c wb)) wc).
  destruct (unwind_spec wd
              [EvThrowNew "unicorn/UnicornException"
                          (uc_strerror (engine_status c wb));
               EvEngine c (engine_status c wb)])
    as (w' & t & Hun & Htr & Hh & Hg & Hperm & Hnd & Hfa & _);
    try reflexivity.
  exists NULL, w', t. split.
  { walk ltac:(first [ exact Hnew | exact Hset | exact Hmap | exact Hun
                     | apply (throwUnicornException_resolved _ _ Hue) ]). }
  split; [exact Htr|]. split; [intros _; auto|]. split; [intros [=]|].
  intros _ Hacc. rewrite (Hacc c wb eq_refl) in Hneg. discriminate Hneg.
Qed.

End Unwind.

(** With nothing refused, a record for a target that is present is
    made. *)
Lemma makeHookWrapper_granted self callback udata name sig w :
  supply w -> registry_granted ->
  is_null self = false -> is_null callback = false ->
  exists w',
    makeHookWrapper self callback udata name sig w = Done (w_next w) w'.
Proof.
  intros Hs Hg Hself Hcb.
  assert (Hnz : (w_next w =? 0) = false)
    by (apply Z.eqb_neq; pose proof (proj1 Hs); lia).
  assert (Hcal : forall w0, grants ReqCalloc w0 = true)
    by (intros w0; apply (Hg ReqCalloc)).
  assert (Hngr : forall r w0, grants (ReqNewGlobalRef r) w0 = true)
    by (intros r w0; apply (Hg (ReqNewGlobalRef r))).
  assert (Hgoc : forall r w0, grants (ReqGetObjectClass r) w0 = true)
    by (intros r w0; apply (Hg (ReqGetObjectClass r))).
  assert (Hgm : forall c n s w0, grants (ReqGetMethodID c n s) w0 = true)
    by (intros c n s w0; apply (Hg (ReqGetMethodID c n s))).
  destruct self as [|os|gs os]; [discriminate Hself|..];
    (destruct callback as [|oc|gc oc]; [discriminate Hcb|..]);
    destruct udata as [|od|gd od].
  all: repeat (progress (heap_step; rewrite ?Hnz, ?Hcal, ?Hngr, ?Hgoc, ?Hgm)).
  all: eexists; reflexivity.
Qed.

Lemma failed_slot cb h :
  negb (is_null cb) && (h =? 0) = true -> h = 0.
Proof.
  intros Hf. apply andb_prop in Hf. apply Z.eqb_eq. tauto.
Qed.

(** C3: [_mmio_map] returns. When it returns null (a record could not be
    made, the result array could not be made, or the engine refused the
    region), the record blocks and the live global references are the
    ones from before the call: every record made in the call is freed and
    every reference acquired in it is released, once. When it returns an
    array, the engine accepted the region, nothing was released, and the
    array holds one record per target that is present, the read target
    first, each a different block bound to its target, and the last
    thing done was the call of [uc_mmio_map], which was given, for each
    target that is present, its trampoline and its record, and null for
    both otherwise.  And an array is returned, for an engine facade that
    is not null, when nothing the making of the records and of the array
    asks for is refused and the engine accepts the region. *)
Theorem mmio_map_all_or_nothing self uc address size read_cb user_data_read
    write_cb user_data_write w :
  supply w ->
  resolves "java/lang/OutOfMemoryError" ->
  resolves "unicorn/UnicornException" ->
  exists result w' t,
    Java_unicorn_Unicorn__1mmio_1map self uc address size read_cb
      user_data_read write_cb user_data_write w = Done result w'
    /\ w_trace w' = (t ++ w_trace w)%list
    /\ (is_null result = true ->
        w_heap w' = w_heap w /\ w_globals w' = w_globals w
        /\ released t ≡ₚ acquired t /\ NoDup (acquired t)
        /\ freed t ≡ₚ allocated t)
    /\ (is_null result = false ->
        statuses t = [UC_ERR_OK] /\ thrown t = []
        /\ released t = [] /\ freed t = []
        /\ exists id hooks,
            result = Local (OArray id)
            /\ w_arrays w' !! id = Some hooks
            /\ hooks = rev (allocated t) /\ NoDup hooks
            /\ length hooks
               = ((if is_null read_cb then 0 else 1)
                  + (if is_null write_cb then 0 else 1))%nat
            /\ (is_null read_cb = false ->
                exists h r,
                  hooks !! 0%nat = Some h /\ w_heap w' !! h = Some r
                  /\ referent (hook_obj r) = referent read_cb
                  /\ hook_meth r = Method "read" sig_MmioReadHandler
                  /\ referent (user_data r) = referent user_data_read)
            /\ (is_null write_cb = false ->
                exists h r,
                  last hooks = Some h /\ w_heap w' !! h = Some r
                  /\ referent (hook_obj r) = referent write_cb
                  /\ hook_meth r = Method "write" sig_MmioWriteHandler
                  /\ referent (user_data r) = referent user_data_write)
            /\ exists h0 h1,
                hooks = ((if is_null read_cb then [] else [h0])
                         ++ (if is_null write_cb then [] else [h1]))%list
                /\ (is_null read_cb = true -> h0 = 0)
                /\ (is_null write_cb = true -> h1 = 0)
                /\ head t
                   = Some (EvEngine
                             (Call "uc_mmio_map"
                                [AInt uc; AInt address; AInt size;
                                 AFn (if is_null read_cb then None
                                      else Some ptr_cb_mmio_read);
                                 AInt h0;
                                 AFn (if is_null write_cb then None
                                      else Some ptr_cb_mmio_write);
                                 AInt h1]) UC_ERR_OK))
    /\ (is_null self = false -> registry_granted ->
        (forall c w0, fn c = "uc_mmio_map" -> engine_status c w0 = UC_ERR_OK) ->
        is_null result = false).
Proof.
  intros Hs Hoom Hue.
  destruct (slot_spec self read_cb user_data_read "read" sig_MmioReadHandler
              w Hs Hoom)
    as (h0 & w1 & t1 & rec0 & Hslot0 & Ht1 & Hs1 & Hle1 & Hst1 & Hth1 & Harr1
        & Hheap1 & Hglob1 & Hhg0 & Hnd0 & Hrange1 & Hacq1 & Hnda1 & Hall1
        & Hz0 & Hnz0 & Habs0).
  assert (Hnz0' : h0 <> 0 -> h0 = w_next w /\ h0 < w_next w1)
    by (intros N; destruct (Hnz0 N) as (? & ? & _); auto).
  destruct (negb (is_null read_cb) && (h0 =? 0)) eqn:Hfail0.
  - (* the record of the read target could not be made *)
    pose proof (failed_slot _ _ Hfail0) as E0.
    destruct (slot_spec self NULL NULL "" "" w1 Hs1 Hoom)
      as (h1 & w2 & t2 & rec1 & Hslot1 & Ht2 & Hs2 & Hle2 & Hst2 & Hth2 & Harr2
          & Hheap2 & Hglob2 & Hhg1 & Hnd1 & Hrange2 & Hacq2 & Hnda2 & Hall2
          & Hz1 & Hnz1 & Habs1).
    destruct (Habs1 eq_refl) as (E1 & Et2).
    assert (Hnz1' : h1 <> 0 -> h1 = w_next w1 /\ h1 < w_next w2)
      by (intros N; destruct (Hnz1 N) as (? & ? & _); auto).
    assert (Hw2 : w2 = w1) by (cbv in Hslot1; congruence).
    edestruct (unwind_spec w w1 w2 t1 t2 h0 h1 rec0 rec1) with (wx := w1)
      (tx := @nil Event)
      as (w' & t & Hun & Htr & Hh & Hg & Hperm & Hnd & Hfa & Hsta & Htha);
      [first [eassumption | reflexivity | rewrite Hw2; reflexivity] .. | ].
    rewrite E1 in Hun.
    exists NULL, w', t. split.
    { unfold Java_unicorn_Unicorn__1mmio_1map. cbv zeta.
      eapply bind_step; [exact Hslot0|]. rewrite Hfail0. exact Hun. }
    split; [exact Htr|]. split; [intros _; auto|]. split; [intros [=]|].
    intros Hself Hgr _. exfalso.
    destruct (is_null read_cb) eqn:Hr; [discriminate Hfail0|].
    destruct (makeHookWrapper_granted self read_cb user_data_read "read"
                sig_MmioReadHandler w Hs Hgr Hself Hr) as (wg & Hmade).
    rewrite Hmade in Hslot0. injection Hslot0 as Hh0 _.
    pose proof (proj1 Hs). lia.
  - destruct (slot_spec self write_cb user_data_write "write"
                sig_MmioWriteHandler w1 Hs1 Hoom)
      as (h1 & w2 & t2 & rec1 & Hslot1 & Ht2 & Hs2 & Hle2 & Hst2 & Hth2 & Harr2
          & Hheap2 & Hglob2 & Hhg1 & Hnd1 & Hrange2 & Hacq2 & Hnda2 & Hall2
          & Hz1 & Hnz1 & Habs1).
    assert (Hnz1' : h1 <> 0 -> h1 = w_next w1 /\ h1 < w_next w2)
      by (intros N; destruct (Hnz1 N) as (? & ? & _); auto).
    destruct (negb (is_null write_cb) && (h1 =? 0)) eqn:Hfail1.
    + (* the record of the write target could not be made *)
      edestruct (unwind_spec w w1 w2 t1 t2 h0 h1 rec0 rec1) with (wx := w2)
        (tx := @nil Event)
        as (w' & t & Hun & Htr & Hh & Hg & Hperm & Hnd & Hfa & Hsta & Htha);
        [first [eassumption | reflexivity] .. | ].
      exists NULL, w', t. split.
      { unfold Java_unicorn_Unicorn__1mmio_1map. cbv zeta.
        eapply bind_step; [exact Hslot0|]. rewrite Hfail0.
        eapply bind_step; [exact Hslot1|]. rewrite Hfail1. exact Hun. }
      split; [exact Htr|]. split; [intros _; auto|]. split; [intros [=]|].
      intros Hself Hgr _. exfalso.
      pose proof (failed_slot _ _ Hfail1) as E1.
      destruct (is_null write_cb) eqn:Hr; [discriminate Hfail1|].
      destruct (makeHookWrapper_granted self write_cb user_data_write "write"
                  sig_MmioWriteHandler w1 Hs1 Hgr Hself Hr) as (wg & Hmade).
      rewrite Hmade in Hslot1. injection Hslot1 as Hh1 _.
      pose proof (proj1 Hs1). lia.
    + (* both targets are treated *)
      assert (Hp0 : (h0 =? 0) = is_null read_cb).
      { destruct (is_null read_cb); [|exact Hfail0].
        destruct (Habs0 eq_refl) as (-> & _). reflexivity. }
      assert (Hp1 : (h1 =? 0) = is_null write_cb).
      { destruct (is_null write_cb); [|exact Hfail1].
        destruct (Habs1 eq_refl) as (-> & _). reflexivity. }
      assert (Hk0 : released t1 = [] /\ freed t1 = []).
      { destruct (Z.eqb_spec h0 0) as [E|N].
        - symmetry in Hp0. destruct (Habs0 Hp0) as (_ & ->). split; reflexivity.
        - destruct (Hnz0 N) as (_ & _ & ? & ? & _). split; assumption. }
      assert (Hk1 : released t2 = [] /\ freed t2 = []).
      { destruct (Z.eqb_spec h1 0) as [E|N].
        - symmetry in Hp1. destruct (Habs1 Hp1) as (_ & ->). split; reflexivity.
        - destruct (Hnz1 N) as (_ & _ & ? & ? & _). split; assumption. }
      edestruct slots_live with (w := w) (w1 := w1) (w2 := w2) (h0 := h0)
        (h1 := h1) (rec0 := rec0) (rec1 := rec1) as (L0 & _ & L1);
        [eassumption .. |].
      edestruct (mmio_finish w w1 w2 t1 t2 h0 h1 rec0 rec1) with (uc := uc)
        (address := address) (size := size)
        as (result & w' & t & Hrun & Htr & Hnull & Hfull & Hmust);
        [first [eassumption | reflexivity] .. | ].
      exists result, w', t. split.
      { unfold Java_unicorn_Unicorn__1mmio_1map. cbv zeta.
        eapply bind_step; [exact Hslot0|]. rewrite Hfail0.
        eapply bind_step; [exact Hslot1|]. rewrite Hfail1. exact Hrun. }
      split; [exact Htr|]. split; [exact Hnull|].
      split; [|intros _ Hgr Hacc; apply Hmust; [apply (Hgr (ReqNewArray _))
                                              | exact Hacc]].
      intros Hn.
      destruct (Hfull Hn) as (Hst & Hth & Hrel & Hfr & Hheap & Hres & Harr
                              & Hrev & Hnd & Hcall).
      split; [exact Hst|]. split; [exact Hth|]. split; [exact Hrel|].
      split; [exact Hfr|].
      eexists _, _. split; [exact Hres|]. split; [exact Harr|].
      split; [exact Hrev|]. split; [exact Hnd|].
      rewrite Hheap, Hp0, Hp1.
      split.
      { destruct (is_null read_cb), (is_null write_cb); reflexivity. }
      split.
      { intros Hr. rewrite Hr in *. exists h0, rec0.
        destruct (Hnz0 ltac:(apply Z.eqb_neq; exact Hp0))
          as (_ & _ & _ & _ & Ho & Hm & Hu).
        destruct L0 as [E|L0]; [apply Z.eqb_neq in Hp0; contradiction|].
        repeat split; assumption || reflexivity. }
      split.
      { intros Hr. rewrite Hr in *. exists h1, rec1.
        destruct (Hnz1 ltac:(apply Z.eqb_neq; exact Hp1))
          as (_ & _ & _ & _ & Ho & Hm & Hu).
        destruct L1 as [E|L1]; [apply Z.eqb_neq in Hp1; contradiction|].
        split; [destruct (is_null read_cb); reflexivity|].
        repeat split; assumption. }
      exists h0, h1. rewrite Hp0, Hp1 in Hcall.
      split; [reflexivity|].
      split; [intros Hr; rewrite Hr in Hp0; apply Z.eqb_eq; exact Hp0|].
      split; [intros Hr; rewrite Hr in Hp1; apply Z.eqb_eq; exact Hp1|].
      exact Hcall.
Qed.

(** ** The data given to a write is left as it was *)

Lemma keeps_ret {A} (a : A) : keeps_arrays (ret a).
Proof. intros w. reflexivity. Qed.

Lemma keeps_fault {A} : keeps_arrays (@fault A).
Proof. intros w. reflexivity. Qed.

Lemma keeps_reads {A} (f : World -> A) : keeps_arrays (reads f).
Proof. intros w. reflexivity. Qed.

Lemma keeps_modify (f : World -> World) :
  (forall w, w_arrays (f w) = w_arrays w) -> keeps_arrays (modify f).
Proof. intros Hf w. apply Hf. Qed.

Lemma keeps_bind {A B} (m : M A) (k : A -> M B) :
  keeps_arrays m -> (forall a, keeps_arrays (k a)) -> keeps_arrays (bind m k).
Proof.
  intros Hm Hk w. unfold bind. specialize (Hm w).
  destruct (m w) as [a w1|w1]; cbn in *; [|exact Hm].
  rewrite Hk. exact Hm.
Qed.

Lemma keeps_array_contents r : keeps_arrays (array_contents r).
Proof.
  intros w. unfold array_contents.
  destruct (array_id r); [|reflexivity].
  destruct (w_arrays w !! _); reflexivity.
Qed.

Lemma keeps_engine c : keeps_arrays (engine c).
Proof. intros w. reflexivity. Qed.

Lemma keeps_throwUnicornException err :
  keeps_arrays (throwUnicornException err).
Proof.
  unfold throwUnicornException, FindClass, ThrowNew, granted, raise, log.
  apply keeps_bind.
  - apply keeps_bind; [apply keeps_reads|]. intros [|].
    + apply keeps_ret.
    + apply keeps_bind; [|intros; apply keeps_ret].
      apply keeps_modify. reflexivity.
  - intros clazz. cbv zeta. destruct (referent clazz) as [[name| |]|];
      try apply keeps_fault.
    apply keeps_bind; intros; apply keeps_modify; reflexivity.
Qed.

Lemma keeps_release_abort r elems :
  keeps_arrays (ReleaseArrayElements r elems JNI_ABORT).
Proof.
  unfold ReleaseArrayElements.
  destruct elems; [|apply keeps_fault].
  destruct (array_id r); [apply keeps_ret | apply keeps_fault].
Qed.

(** Applies the rules above along the structure of a computation. *)
Ltac frame :=
  repeat first
    [ apply keeps_ret | apply keeps_fault | apply keeps_reads
    | apply keeps_array_contents | apply keeps_engine
    | apply keeps_throwUnicornException | apply keeps_release_abort
    | apply keeps_bind; [|intros ?]
    | match goal with
      | |- keeps_arrays (if ?b then _ else _) => destruct b
      | |- keeps_arrays (match ?x with _ => _ end) => destruct x
      end ].

(** C10: the three entry points that take their data from a Java array
    (raw register write, memory write, setting the exits) release the
    elements with [JNI_ABORT]: whether the call returns, throws or stops,
    every Java array holds afterwards what it held before.  The engine
    reads the elements it is handed by these calls ([const] in its
    prototypes); what it writes, it writes through the buffers of
    [engine_fill] and [engine_fill_unsized]. *)
Theorem write_calls_leave_arrays_alone :
  (forall ptr isContext regid data,
      keeps_arrays
        (Java_unicorn_Unicorn__1reg_1write_1bytes ptr isContext regid data))
  /\ (forall uc address src,
         keeps_arrays (Java_unicorn_Unicorn__1mem_1write uc address src))
  /\ (forall uc exits,
         keeps_arrays (Java_unicorn_Unicorn__1ctl_1set_1exits uc exits)).
Proof.
  split; [|split]; intros.
  all: unfold Java_unicorn_Unicorn__1reg_1write_1bytes,
         Java_unicorn_Unicorn__1mem_1write,
         Java_unicorn_Unicorn__1ctl_1set_1exits, generic_reg_write,
         GetArrayLength, GetArrayElements, granted, engine_st.
  all: frame.
Qed.

(** ** Which registrations are made, and which are turned down *)

Lemma throw_rejects err :
  resolves "unicorn/UnicornException" ->
  rejected_as err (bind (throwUnicornException err) (fun _ => ret 0)).
Proof.
  intros Hue w. unfold bind.
  rewrite (throwUnicornException_resolved _ _ Hue). reflexivity.
Qed.

(** Decides the tests of an overload with the facts at hand. *)
Ltac decide_tests :=
  repeat (rewrite ?Z.eqb_refl; cbn [orb andb negb];
          match goal with
          | |- context [?a =? ?b] =>
            let E := fresh "E" in
            assert (E : (a =? b) = false)
              by (apply Z.eqb_neq;
                  first [assumption | apply not_eq_sym; assumption]);
            rewrite E; clear E
          end);
  rewrite ?Z.eqb_refl; cbn [orb andb negb].

(** The labels are different from each other, and from an identifier
    that is none of them. *)
Ltac distinct_labels Hnd :=
  unfold insn_labels, insn_groups in Hnd; cbn [concat map fst app] in Hnd;
  repeat (apply NoDup_cons in Hnd as [? Hnd]);
  repeat match goal with
         | Hn : _ ∉ _ :: _ |- _ =>
           apply not_elem_of_cons in Hn as [? Hn]
         end.

Lemma insn_group_registers self uc callback udata begin end_ ids sh id w :
  NoDup insn_labels -> (ids, sh) ∈ insn_groups -> id ∈ ids ->
  Java_unicorn_Unicorn__1hook_1add__JILunicorn_Hook_2Ljava_lang_Object_2JJI
    self uc UC_HOOK_INSN callback udata begin end_ id w
  = hook_add_register self uc UC_HOOK_INSN callback udata begin end_ [id]
                      (fst sh) (snd sh) w.
Proof.
  intros Hnd Hgrp Hid. distinct_labels Hnd.
  unfold Java_unicorn_Unicorn__1hook_1add__JILunicorn_Hook_2Ljava_lang_Object_2JJI.
  cbv zeta. rewrite Z.eqb_refl.
  unfold insn_groups in Hgrp.
  repeat (apply elem_of_cons in Hgrp as [Hgrp|Hgrp];
          [injection Hgrp as -> ->;
           repeat (apply elem_of_cons in Hid as [->|Hid]);
           try (apply elem_of_nil in Hid; contradiction);
           decide_tests; reflexivity|]).
  apply elem_of_nil in Hgrp. contradiction.
Qed.

Lemma unknown_insn_rejected self uc callback udata begin end_ id :
  resolves "unicorn/UnicornException" -> id ∉ insn_labels ->
  rejected_as UC_ERR_INSN_INVALID
    (Java_unicorn_Unicorn__1hook_1add__JILunicorn_Hook_2Ljava_lang_Object_2JJI
       self uc UC_HOOK_INSN callback udata begin end_ id).
Proof.
  intros Hue Hid w.
  unfold insn_labels, insn_groups in Hid. cbn [concat map fst app] in Hid.
  repeat match goal with
         | Hn : _ ∉ _ :: _ |- _ =>
           apply not_elem_of_cons in Hn as [? Hn]
         end.
  unfold Java_unicorn_Unicorn__1hook_1add__JILunicorn_Hook_2Ljava_lang_Object_2JJI.
  cbv zeta. rewrite Z.eqb_refl. decide_tests.
  apply (throw_rejects _ Hue).
Qed.

(** Lists of signatures, and of trampolines, without a repetition. *)
Ltac all_different :=
  repeat (apply NoDup_cons; split;
          [rewrite ?not_elem_of_cons; repeat split;
           first [discriminate | apply not_elem_of_nil] |]);
  apply NoDup_nil_2.

(** C8: under the event type [UC_HOOK_INSN], the case labels of the
    [switch] being different from each other, the instruction identifier
    selects what is registered: for an identifier of a group of cases, the
    [JJI] overload is the registration with the signature and the
    trampoline of that group; the five groups (port in, port out,
    syscall/sysenter, cpuid, the four ARM64 system-register instructions)
    have five different signatures and five different trampolines; and
    for any other identifier the call returns 0 after throwing the
    exception of [UC_ERR_INSN_INVALID], and nothing else happened. *)
Theorem insn_id_selects_shape :
  NoDup insn_labels ->
  (forall self uc callback udata begin end_ ids sh id w,
      (ids, sh) ∈ insn_groups -> id ∈ ids ->
      Java_unicorn_Unicorn__1hook_1add__JILunicorn_Hook_2Ljava_lang_Object_2JJI
        self uc UC_HOOK_INSN callback udata begin end_ id w
      = hook_add_register self uc UC_HOOK_INSN callback udata begin end_ [id]
                          (fst sh) (snd sh) w)
  /\ NoDup (map (fun g => fst (snd g)) insn_groups)
  /\ NoDup (map (fun g => snd (snd g)) insn_groups)
  /\ (resolves "unicorn/UnicornException" ->
      forall self uc callback udata begin end_ id,
        id ∉ insn_labels ->
        rejected_as UC_ERR_INSN_INVALID
          (Java_unicorn_Unicorn__1hook_1add__JILunicorn_Hook_2Ljava_lang_Object_2JJI
             self uc UC_HOOK_INSN callback udata begin end_ id)).
Proof.
  intros Hnd. split; [|split; [|split]].
  - intros. eapply insn_group_registers; eassumption.
  - cbn [map insn_groups fst snd]. all_different.
  - cbn [map insn_groups fst snd]. all_different.
  - intros Hue self uc callback udata begin end_ id Hid.
    apply unknown_insn_rejected; assumption.
Qed.

Lemma JJ_rejects self uc type callback udata begin end_ :
  resolves "unicorn/UnicornException" -> accepts_JJ type = false ->
  rejected_as UC_ERR_HOOK
    (Java_unicorn_Unicorn__1hook_1add__JILunicorn_Hook_2Ljava_lang_Object_2JJ
       self uc type callback udata begin end_).
Proof.
  intros Hue Hacc w. unfold accepts_JJ in Hacc.
  repeat (apply orb_false_elim in Hacc as [Hacc ?]).
  unfold Java_unicorn_Unicorn__1hook_1add__JILunicorn_Hook_2Ljava_lang_Object_2JJ.
  cbv zeta.
  repeat match goal with
         | Hb : ?b = false |- context [?b] => rewrite Hb
         end.
  cbn [orb]. apply (throw_rejects _ Hue).
Qed.

Lemma JJI_rejects_type self uc type callback udata begin end_ arg :
  resolves "unicorn/UnicornException" -> type <> UC_HOOK_INSN ->
  rejected_as UC_ERR_HOOK
    (Java_unicorn_Unicorn__1hook_1add__JILunicorn_Hook_2Ljava_lang_Object_2JJI
       self uc type callback udata begin end_ arg).
Proof.
  intros Hue Hty w.
  unfold Java_unicorn_Unicorn__1hook_1add__JILunicorn_Hook_2Ljava_lang_Object_2JJI.
  cbv zeta. apply Z.eqb_neq in Hty. rewrite Hty.
  apply (throw_rejects _ Hue).
Qed.

Lemma JJII_rejects self uc type callback udata begin end_ arg1 arg2 :
  resolves "unicorn/UnicornException" -> accepts_JJII type = false ->
  rejected_as UC_ERR_HOOK
    (Java_unicorn_Unicorn__1hook_1add__JILunicorn_Hook_2Ljava_lang_Object_2JJII
       self uc type callback udata begin end_ arg1 arg2).
Proof.
  intros Hue Hty w. unfold accepts_JJII in Hty.
  unfold Java_unicorn_Unicorn__1hook_1add__JILunicorn_Hook_2Ljava_lang_Object_2JJII.
  cbv zeta. rewrite Hty. apply (throw_rejects _ Hue).
Qed.

(** C2, as the code has it: a call of [_hook_add] whose event type, or
    whose instruction identifier under [UC_HOOK_INSN], is not one that
    its overload tests for, returns 0 and has done nothing but throw one
    [UnicornException]: no engine function was called, no record was
    allocated and no reference acquired.  The exception is the one of
    [UC_ERR_HOOK] for an event type that is not accepted, and the one of
    [UC_ERR_INSN_INVALID] for an instruction identifier that is not a
    label of the [switch]. *)
Theorem invalid_shape_fails_before_registration :
  resolves "unicorn/UnicornException" ->
  (forall self uc type callback udata begin end_,
      accepts_JJ type = false ->
      rejected_as UC_ERR_HOOK
        (Java_unicorn_Unicorn__1hook_1add__JILunicorn_Hook_2Ljava_lang_Object_2JJ
           self uc type callback udata begin end_))
  /\ (forall self uc type callback udata begin end_ arg,
         type <> UC_HOOK_INSN ->
         rejected_as UC_ERR_HOOK
           (Java_unicorn_Unicorn__1hook_1add__JILunicorn_Hook_2Ljava_lang_Object_2JJI
              self uc type callback udata begin end_ arg))
  /\ (forall self uc callback udata begin end_ arg,
         arg ∉ insn_labels ->
         rejected_as UC_ERR_INSN_INVALID
           (Java_unicorn_Unicorn__1hook_1add__JILunicorn_Hook_2Ljava_lang_Object_2JJI
              self uc UC_HOOK_INSN callback udata begin end_ arg))
  /\ (forall self uc type callback udata begin end_ arg1 arg2,
         accepts_JJII type = false ->
         rejected_as UC_ERR_HOOK
           (Java_unicorn_Unicorn__1hook_1add__JILunicorn_Hook_2Ljava_lang_Object_2JJII
              self uc type callback udata begin end_ arg1 arg2))
  /\ (forall msg w,
         w_trace (failed msg w)
         = EvThrowNew "unicorn/UnicornException" msg :: w_trace w
         /\ w_exc (failed msg w) = Some ("unicorn/UnicornException", msg)
         /\ w_heap (failed msg w) = w_heap w
         /\ w_globals (failed msg w) = w_globals w
         /\ w_arrays (failed msg w) = w_arrays w).
Proof.
  intros Hue. split; [|split; [|split; [|split]]].
  - intros. apply JJ_rejects; assumption.
  - intros. apply JJI_rejects_type; assumption.
  - intros. apply unknown_insn_rejected; assumption.
  - intros. apply JJII_rejects; assumption.
  - intros msg w. repeat split.
Qed.

(** ** A registration whose record could not be made *)

Lemma registration_registers self uc type callback udata begin end_ extra add :
  registration self uc type callback udata begin end_ extra add ->
  exists hook_sig hook_callback,
    forall w,
      add w = hook_add_register self uc type callback udata begin end_ extra
                                hook_sig hook_callback w.
Proof.
  intros [Hacc|arg Hacc|arg1 arg2 Hacc].
  - unfold accepts_JJ in Hacc.
    unfold Java_unicorn_Unicorn__1hook_1add__JILunicorn_Hook_2Ljava_lang_Object_2JJ.
    cbv zeta.
    repeat match goal with
           | |- context [if ?b then _ else _] =>
             destruct b eqn:?; [eexists _, _; intros w; reflexivity|]
           end.
    exfalso.
    repeat match goal with
           | Hb : _ = false |- _ => rewrite Hb in Hacc
           | Hb : _ || _ = false |- _ => apply orb_false_elim in Hb as [? ?]
           end.
    discriminate Hacc.
  - unfold accepts_JJI in Hacc. apply andb_prop in Hacc as [Hty Harg].
    apply bool_decide_eq_true in Harg.
    unfold Java_unicorn_Unicorn__1hook_1add__JILunicorn_Hook_2Ljava_lang_Object_2JJI.
    cbv zeta. rewrite Hty.
    repeat match goal with
           | |- context [if ?b then _ else _] =>
             destruct b eqn:?; [eexists _, _; intros w; reflexivity|]
           end.
    exfalso.
    repeat match goal with
           | Hb : _ || _ = false |- _ => apply orb_false_elim in Hb as [? ?]
           end.
    unfold insn_labels, insn_groups in Harg. cbn [concat map fst app] in Harg.
    repeat (apply elem_of_cons in Harg as [->|Harg];
            [rewrite Z.eqb_refl in *; discriminate|]).
    apply elem_of_nil in Harg. exact Harg.
  - unfold accepts_JJII in Hacc.
    unfold Java_unicorn_Unicorn__1hook_1add__JILunicorn_Hook_2Ljava_lang_Object_2JJII.
    cbv zeta. rewrite Hacc. eexists _, _. intros w. reflexivity.
Qed.

Lemma makeHookWrapper_out_of_memory self callback udata name sig w :
  grants ReqCalloc w = false -> resolves "java/lang/OutOfMemoryError" ->
  makeHookWrapper self callback udata name sig w = Done 0 (out_of_memory w).
Proof.
  intros Hden Hoom. norm. rewrite Hden. heap_step. rewrite (Hoom w).
  reflexivity.
Qed.

Lemma uc_hook_add_null uc type cb begin end_ extra w1 :
  w_heap w1 !! 0 = None ->
  uc_hook_add uc 0 type cb 0 begin end_ extra w1
  = (let c := hook_add_call uc 0 type cb begin end_ extra in
     let s := engine_status c w1 in
     if s =? UC_ERR_OK then Fault (push_event (EvEngine c s) w1)
     else Done s (push_event (EvEngine c s) w1)).
Proof.
  intros Hnull.
  unfold uc_hook_add, hook_add_call, engine, store, load, bind, modify, ret.
  cbn [fst snd]. cbv zeta.
  destruct (engine_status _ _ =? UC_ERR_OK); [|reflexivity].
  cbn [w_heap push_event]. rewrite Hnull. reflexivity.
Qed.

Lemma hook_add_register_out_of_memory self uc type callback udata begin end_
    extra hook_sig cb w :
  grants ReqCalloc w = false -> resolves "java/lang/OutOfMemoryError" ->
  w_heap w !! 0 = None ->
  let c := hook_add_call uc 0 type cb begin end_ extra in
  let w1 := out_of_memory w in
  let s := engine_status c w1 in
  (s = UC_ERR_OK ->
   hook_add_register self uc type callback udata begin end_ extra hook_sig cb w
   = Fault (push_event (EvEngine c s) w1))
  /\ (s <> UC_ERR_OK -> resolves "unicorn/UnicornException" ->
      hook_add_register self uc type callback udata begin end_ extra hook_sig
                        cb w
      = Done 0 (failed (uc_strerror s) (push_event (EvEngine c s) w1))).
Proof.
  intros Hden Hoom Hnull c w1 s.
  pose proof (makeHookWrapper_out_of_memory self callback udata "hook" hook_sig
                w Hden Hoom) as Hmk.
  pose proof (uc_hook_add_null uc type cb begin end_ extra w1 Hnull) as Hadd.
  cbv zeta in Hadd. fold c in Hadd. fold s in Hadd.
  split.
  - intros Hs. apply Z.eqb_eq in Hs. rewrite Hs in Hadd.
    unfold hook_add_register.
    erewrite bind_done by exact Hmk. fold w1.
    unfold bind at 1. rewrite Hadd. reflexivity.
  - intros Hs Hue. apply Z.eqb_neq in Hs. rewrite Hs in Hadd.
    unfold hook_add_register.
    erewrite bind_done by exact Hmk. fold w1.
    erewrite bind_done by exact Hadd.
    rewrite Hs. cbn [negb].
    erewrite bind_done by (apply (throwUnicornException_resolved _ _ Hue)).
    reflexivity.
Qed.

(** C4, as the code has it: a call of [_hook_add] that reaches
    [makeHookWrapper] when the allocator has no memory gets null from it,
    with [OutOfMemoryError] pending, and goes on to call [uc_hook_add]
    with null for the place of the handle and null for the user data.
    When the engine accepts, the handle is stored through the null
    pointer and the call does not return; when it refuses, the call
    returns 0 after throwing the engine's exception in place of the
    [OutOfMemoryError]. *)
Theorem failed_record_is_registered self uc type callback udata begin end_
    extra add w :
  registration self uc type callback udata begin end_ extra add ->
  grants ReqCalloc w = false ->
  resolves "java/lang/OutOfMemoryError" ->
  w_heap w !! 0 = None ->
  exists hook_sig cb,
    let c := hook_add_call uc 0 type cb begin end_ extra in
    let w1 := out_of_memory w in
    let s := engine_status c w1 in
    makeHookWrapper self callback udata "hook" hook_sig w = Done 0 w1
    /\ (s = UC_ERR_OK -> add w = Fault (push_event (EvEngine c s) w1))
    /\ (s <> UC_ERR_OK -> resolves "unicorn/UnicornException" ->
        add w
        = Done 0 (failed (uc_strerror s) (push_event (EvEngine c s) w1))).
Proof.
  intros Hreg Hden Hoom Hnull.
  destruct (registration_registers _ _ _ _ _ _ _ _ _ Hreg)
    as (hook_sig & cb & Hadd).
  exists hook_sig, cb. cbv zeta.
  destruct (hook_add_register_out_of_memory self uc type callback udata begin
              end_ extra hook_sig cb w Hden Hoom Hnull) as (Hok & Hrefused).
  split; [apply makeHookWrapper_out_of_memory; assumption|].
  split.
  - intros Hs. rewrite Hadd. apply Hok. exact Hs.
  - intros Hs Hue. rewrite Hadd. apply Hrefused; assumption.
Qed.

(** ** Statuses and the exceptions thrown for them *)

Lemma silent_ret {A} (a : A) : silent (ret a).
Proof. intros w a' w' [= <- <-]. exists []. repeat split. Qed.

Lemma silent_fault {A} : silent (@fault A).
Proof. intros w a w' [=]. Qed.

Lemma silent_reads {A} (f : World -> A) : silent (reads f).
Proof. intros w a' w' [= <- <-]. exists []. repeat split. Qed.

Lemma silent_fresh : silent fresh.
Proof. intros w a' w' [= <- <-]. exists []. repeat split. Qed.

Lemma silent_modify (f : World -> World) :
  (forall w, w_trace (f w) = w_trace w) -> silent (modify f).
Proof. intros Hf w a' w' [= <- <-]. exists []. rewrite Hf. repeat split. Qed.

Lemma silent_log e : statuses [e] = [] -> thrown [e] = [] -> silent (log e).
Proof.
  intros Hs Ht w a' w' [= <- <-]. exists [e]. repeat split; assumption.
Qed.

Lemma silent_bind {A B} (m : M A) (k : A -> M B) :
  silent m -> (forall a, silent (k a)) -> silent (bind m k).
Proof.
  intros Hm Hk w b w'. unfold bind.
  destruct (m w) as [a w1|w1] eqn:Hrun; [|discriminate].
  intros Hrest.
  destruct (Hm _ _ _ Hrun) as (t1 & Ht1 & Hs1 & Hth1).
  destruct (Hk a _ _ _ Hrest) as (t2 & Ht2 & Hs2 & Hth2).
  exists (t2 ++ t1)%list.
  rewrite Ht2, Ht1, app_assoc, statuses_app, thrown_app, Hs1, Hs2, Hth1, Hth2.
  repeat split.
Qed.

Lemma silent_array_contents r : silent (array_contents r).
Proof.
  intros w a w'. unfold array_contents.
  destruct (array_id r); [|discriminate].
  destruct (w_arrays w !! _); [|discriminate].
  intros [= <- <-]. exists []. repeat split.
Qed.

Lemma silent_load p : silent (load p).
Proof.
  intros w a w'. unfold load. destruct (w_heap w !! p); [|discriminate].
  intros [= <- <-]. exists []. repeat split.
Qed.

Lemma silent_direct_buffer buf : silent (direct_buffer buf).
Proof.
  intros w a w'. unfold direct_buffer.
  destruct (array_id buf); [|intros [= <- <-]; exists []; repeat split].
  destruct (w_arrays w !! _); [|intros [= <- <-]; exists []; repeat split].
  destruct (grants _ _); intros [= <- <-]; exists []; repeat split.
Qed.

Lemma silent_engine_value name a : silent (engine_value name a).
Proof. intros w a' w' [= <- <-]. exists []. repeat split. Qed.

Lemma silent_uc_free a : silent (engine_st "uc_free" a).
Proof.
  intros w s w' [= <- <-]. eexists [_]. split; [reflexivity|].
  split; reflexivity.
Qed.

Lemma silent_throwOutOfMemoryError msg : silent (throwOutOfMemoryError msg).
Proof.
  intros w u w'.
  unfold throwOutOfMemoryError, FindClass, ThrowNew, granted, raise, log,
    modify, reads, bind, ret, fault.
  destruct (grants _ w); cbn; [|discriminate].
  intros [= <- <-]. eexists [_]. split; [reflexivity|]. split; reflexivity.
Qed.

(** Shows that a step gets no status and throws no [UnicornException],
    along its structure. *)
Ltac hush :=
  repeat first
    [ apply silent_ret | apply silent_fault | apply silent_reads
    | apply silent_fresh | apply silent_array_contents | apply silent_load
    | apply silent_direct_buffer | apply silent_engine_value
    | apply silent_uc_free | apply silent_throwOutOfMemoryError
    | apply silent_log; reflexivity
    | apply silent_modify; intros ?; reflexivity
    | apply silent_bind; [|intros ?]
    | match goal with
      | |- silent (if ?b then _ else _) => destruct b
      | |- silent (match ?x with _ => _ end) => destruct x
      end
    | progress unfold granted, raise, FindClass, NewGlobalRef, DeleteGlobalRef,
        GetObjectClass, GetMethodID, NewObject, calloc, store, free,
        GetArrayLength, GetArrayElements, ReleaseArrayElements, NewArray,
        SetLongArrayRegion, SetObjectArrayElement, NewStringUTF,
        static_clazz, static_clazzInit, makeX86_MMR, makeArm64_CP,
        makeTranslationBlock, deleteHookWrapper, makeHookWrapper ].



Lemma silent_makeX86_MMR mmr : silent (makeX86_MMR mmr).
Proof. hush. Qed.

Lemma silent_makeTranslationBlock tb : silent (makeTranslationBlock tb).
Proof. hush. Qed.


(** A step that calls the engine once and hands out the status. *)
Lemma engine_logs c w r w' :
  engine c w = Done r w' ->
  fst r = engine_status c w
  /\ w_trace w' = EvEngine c (fst r) :: w_trace w.
Proof. intros [= <- <-]. split; reflexivity. Qed.





Lemma settles_engine {B} owed c (k : Z * list Z -> M B) :
  fn c <> "uc_free" ->
  (forall r, settles (fst r :: owed) (k r)) -> settles owed (bind (engine c) k).
Proof.
  intros Hfn Hk w b w'. unfold bind, engine. intros Hrest.
  destruct (Hk _ _ _ _ Hrest) as (t & Ht & Hth).
  exists (t ++ [EvEngine c (engine_status c w)])%list.
  split.
  { rewrite Ht. cbn. rewrite <- app_assoc. reflexivity. }
  rewrite statuses_app, thrown_app. cbn [statuses thrown fst] in *.
  apply String.eqb_neq in Hfn. rewrite Hfn. rewrite app_nil_r, <- app_assoc.
  exact Hth.
Qed.

Lemma throwUnicornException_done err w u w' :
  throwUnicornException err w = Done u w' -> w' = failed (uc_strerror err) w.
Proof.
  unfold throwUnicornException, FindClass, granted, reads, bind.
  destruct (grants (ReqFindClass "unicorn/UnicornException") w); cbn.
  - intros [= _ <-]. reflexivity.
  - discriminate.
Qed.

























(** ** A hook that returns normally *)

(** Runs a trampoline whose hook method leaves no exception pending. *)
Ltac returning Hrec Hcall Hclear :=
  unfold CallVoidMethod, CallIntMethod, CallLongMethod, CallBooleanMethod;
  destruct Hcall as [Hobj Hmeth];
  run ltac:(first [ apply load_live; exact Hrec
                  | apply (CallMethod_callable _ _ _ _ Hobj Hmeth)
                  | apply hookErrorCheck_clear; exact Hclear
                  | eassumption ]).

(** X1: when the hook method returns with no exception pending, a trampoline
    does not call [uc_emu_stop]; it hands the value of the method to the
    engine: converted from [jint] to [uint32_t] for port in, kept as an
    [int] for cpuid, compared with [JNI_FALSE] for the two veto hooks,
    converted from [jlong] to [uint64_t] for an MMIO read. *)
Theorem trampoline_hands_back_result :
  (forall uc intno,
      hands_back (cb_hookintr uc intno)
        (fun r => [JObj (unicorn r); JInt (jint_of intno); JObj (user_data r)])
        (fun _ => tt))
  /\ (forall uc address size,
      hands_back (cb_hookcode uc address size)
        (fun r => [JObj (unicorn r); JLong (jlong_of address);
                   JInt (jint_of size); JObj (user_data r)])
        (fun _ => tt))
  /\ (forall uc type address size value,
      hands_back (cb_hookmem uc type address size value)
        (fun r => [JObj (unicorn r); JInt (jint_of type);
                   JLong (jlong_of address); JInt (jint_of size);
                   JLong (jlong_of value); JObj (user_data r)])
        (fun _ => tt))
  /\ (forall uc type address size value,
      hands_back (cb_eventmem uc type address size value)
        (fun r => [JObj (unicorn r); JInt (jint_of type);
                   JLong (jlong_of address); JInt (jint_of size);
                   JLong (jlong_of value); JObj (user_data r)])
        (fun v => negb (jboolean_of v =? JNI_FALSE)))
  /\ (forall uc port size,
      hands_back (cb_insn_in uc port size)
        (fun r => [JObj (unicorn r); JInt (jint_of port); JInt (jint_of size);
                   JObj (user_data r)])
        (fun v => uint32_of (jint_of v)))
  /\ (forall uc port size value,
      hands_back (cb_insn_out uc port size value)
        (fun r => [JObj (unicorn r); JInt (jint_of port); JInt (jint_of size);
                   JInt (jint_of value); JObj (user_data r)])
        (fun _ => tt))
  /\ (forall uc,
      hands_back (cb_insn_syscall uc)
        (fun r => [JObj (unicorn r); JObj (user_data r)]) (fun _ => tt))
  /\ (forall uc,
      hands_back (cb_insn_cpuid uc)
        (fun r => [JObj (unicorn r); JObj (user_data r)])
        (fun v => jint_of (jint_of v)))
  /\ (forall uc,
      hands_back (cb_hookinsn_invalid uc)
        (fun r => [JObj (unicorn r); JObj (user_data r)])
        (fun v => negb (jboolean_of v =? JNI_FALSE)))
  /\ (forall uc address arg1 arg2 size,
      hands_back (cb_tcg_op_2 uc address arg1 arg2 size)
        (fun r => [JObj (unicorn r); JLong (jlong_of address);
                   JLong (jlong_of arg1); JLong (jlong_of arg2);
                   JInt (jint_of size); JObj (user_data r)])
        (fun _ => tt))
  /\ (forall uc offset size,
      hands_back (cb_mmio_read uc offset size)
        (fun r => [JObj (unicorn r); JLong (jlong_of offset);
                   JInt (jint_of size); JObj (user_data r)])
        (fun v => uint64_of (jlong_of v)))
  /\ (forall uc offset size value,
      hands_back (cb_mmio_write uc offset size value)
        (fun r => [JObj (unicorn r); JLong (jlong_of offset);
                   JInt (jint_of size); JLong (jlong_of value);
                   JObj (user_data r)])
        (fun _ => tt)).
Proof.
  repeat apply conj; unfold hands_back; intros.
  all: unfold cb_hookintr, cb_hookcode, cb_hookmem, cb_eventmem, cb_insn_in,
         cb_insn_out, cb_insn_syscall, cb_insn_cpuid, cb_hookinsn_invalid,
         cb_tcg_op_2, cb_mmio_read, cb_mmio_write.
  all: match goal with
       | Hrec : w_heap _ !! _ = Some _, Hcall : callable _,
         Hclear : w_exc _ = None |- _ => returning Hrec Hcall Hclear
       end.
Qed.

(** ** The statics of the descriptor constructors *)

(** Follows a constructor through its tests of the statics and of what
    the virtual machine grants. *)
Ltac construct_paths :=
  unfold makeX86_MMR, makeArm64_CP, makeTranslationBlock, static_clazz,
    static_clazzInit, FindClass, NewGlobalRef, GetMethodID, NewObject,
    granted, raise, reads, modify, log, fresh, bind, ret, fault;
  cbn;
  repeat match goal with
         | |- context [match ?x with NULL => _ | _ => _ end] =>
           destruct x eqn:?; cbn
         | |- context [match ?x with NoMethod => _ | _ => _ end] =>
           destruct x eqn:?; cbn
         | |- context [if ?b then _ else _] => destruct b eqn:?; cbn
         end.

(** Reads the facts of [caches_class] off one path. *)
Ltac construct_facts :=
  eexists _, _, _; split; [reflexivity|]; split; [cbn; added|]; cbn;
  split; [reflexivity|];
  split; [reflexivity|]; split; [lia|]; split; [set_solver|]; split; [reflexivity|]; split; [lia|];
  unfold cache_sound, cache_filled; cbn;
  split; [first [solve [auto] | intros; discriminate]|];
  split; [intros ((g' & o' & Hg) & Hm);
          first [discriminate | split; reflexivity]|];
  intros Hsound Hnull;
  first [ discriminate
        | exfalso; eapply Hsound; reflexivity
        | split; [split; [eexists _, _; reflexivity | reflexivity]|];
          eexists; split; [reflexivity|]; split; [lia | reflexivity] ].

Lemma makeX86_MMR_caches :
  caches_class makeX86_MMR w_mmr
    (fun mmr => [JLong (jlong_of (mmr_base mmr)); JInt (jint_of (mmr_limit mmr));
                 JInt (jint_of (mmr_flags mmr));
                 JShort (jshort_of (mmr_selector mmr))]).
Proof.
  intros s [exc globals heap arrays next [mc mi] cp tb rg tr].
  destruct mc, mi; construct_paths; construct_facts.
Qed.

Lemma makeArm64_CP_caches :
  caches_class makeArm64_CP w_cp
    (fun cp_reg =>
       [JInt (jint_of (cp_crn cp_reg)); JInt (jint_of (cp_crm cp_reg));
        JInt (jint_of (cp_op0 cp_reg)); JInt (jint_of (cp_op1 cp_reg));
        JInt (jint_of (cp_op2 cp_reg)); JLong (jlong_of (cp_val cp_reg))]).
Proof.
  intros s [exc globals heap arrays next mmr [cc ci] tb rg tr].
  destruct cc, ci; construct_paths; construct_facts.
Qed.

Lemma makeTranslationBlock_caches :
  caches_class makeTranslationBlock w_tb
    (fun tb => [JLong (jlong_of (tb_pc tb)); JInt (jint_of (tb_icount tb));
                JInt (jint_of (tb_size tb))]).
Proof.
  intros s [exc globals heap arrays next mmr cp [tc ti] rg tr].
  destruct tc, ti; construct_paths; construct_facts.
Qed.

(** X2: the three constructors of descriptors keep their class in statics:
    a call for a structure that is not null always returns, acquires at
    most one global reference and releases none, acquires none at all
    once the statics are filled, never leaves a local reference in the
    static [clazz], and what it returns is a new object made from the
    members of the structure, converted to the types of the Java
    constructor. *)
Theorem constructors_cache_class :
  caches_class makeX86_MMR w_mmr
    (fun mmr => [JLong (jlong_of (mmr_base mmr)); JInt (jint_of (mmr_limit mmr));
                 JInt (jint_of (mmr_flags mmr));
                 JShort (jshort_of (mmr_selector mmr))])
  /\ caches_class makeArm64_CP w_cp
       (fun cp_reg =>
          [JInt (jint_of (cp_crn cp_reg)); JInt (jint_of (cp_crm cp_reg));
           JInt (jint_of (cp_op0 cp_reg)); JInt (jint_of (cp_op1 cp_reg));
           JInt (jint_of (cp_op2 cp_reg)); JLong (jlong_of (cp_val cp_reg))])
  /\ caches_class makeTranslationBlock w_tb
       (fun tb => [JLong (jlong_of (tb_pc tb)); JInt (jint_of (tb_icount tb));
                   JInt (jint_of (tb_size tb))]).
Proof.
  split; [|split].
  - exact makeX86_MMR_caches.
  - exact makeArm64_CP_caches.
  - exact makeTranslationBlock_caches.
Qed.

(** ** The trampolines that build descriptors *)

(** X3: the system-register trampoline when the descriptor cannot be made
    (which is the case for a null register structure): the hook method is
    not invoked; the trampoline runs [hookErrorCheck] in the world the
    constructor left and returns 0, without a fault, even for a record
    pointer that is not valid. *)
Theorem sys_hook_short_circuits uc reg cp_reg ud w :
  let w0 := push_event EvAttachCurrentThread w in
  (forall w1,
      makeArm64_CP cp_reg w0 = Done NULL w1 ->
      exists b w',
        hookErrorCheck uc w1 = Done b w'
        /\ cb_insn_sys uc reg cp_reg ud w = Done 0 w'
        /\ exists t, w_trace w' = (t ++ w_trace w)%list /\ quiet t)
  /\ (cp_reg = None -> makeArm64_CP cp_reg w0 = Done NULL w0).
Proof.
  intros w0. split; [|intros ->; reflexivity].
  intros w1 Hmk.
  destruct (hookErrorCheck_total uc w1) as (b & w' & Hc & _).
  exists b, w'. split; [exact Hc|].
  destruct (hookErrorCheck_quiet _ _ _ _ Hc) as (tc & Htc & Hqc).
  split.
  { unfold cb_insn_sys. run ltac:(first [exact Hmk | exact Hc]). }
  assert (Hq : exists t1, w_trace w1 = (t1 ++ w_trace w0)%list /\ quiet t1).
  { destruct cp_reg as [s|].
    - destruct (makeArm64_CP_caches s w0)
        as (j & w1' & t1 & Hrun & Ht1 & Hq1 & _).
      rewrite Hmk in Hrun. injection Hrun as <- <-. exists t1. auto.
    - injection Hmk as <-. exists []. split; reflexivity. }
  destruct Hq as (t1 & Ht1 & Hq1).
  exists (tc ++ t1 ++ [EvAttachCurrentThread])%list. split.
  - rewrite Htc, Ht1. cbn. rewrite <- !app_assoc. reflexivity.
  - repeat apply quiet_app; auto. reflexivity.
Qed.

(** X4: the edge-generation trampoline when both descriptors are made: they
    are two different new objects; making them acquires at most one
    global reference, the second being made from the class the first left
    in the statics; and the hook method is invoked with the two, after
    which, no exception being pending, the trampoline returns without
    calling the engine. *)
Theorem edge_gen_builds_two_descriptors uc a b ud w rec j1 w1 j2 w2 :
  cache_sound (w_tb w) ->
  w_heap w !! ud = Some rec -> callable rec ->
  makeTranslationBlock (Some a) (push_event EvAttachCurrentThread w)
  = Done j1 w1 ->
  is_null j1 = false ->
  makeTranslationBlock (Some b) w1 = Done j2 w2 ->
  is_null j2 = false ->
  j1 <> j2
  /\ (exists t,
         w_trace w2 = (t ++ w_trace w)%list
         /\ (length (acquired t) <= 1)%nat /\ quiet t)
  /\ (let rw := after_hook (hook_obj rec) (hook_meth rec)
                  [JObj (unicorn rec); JObj j1; JObj j2; JObj (user_data rec)]
                  w2 in
      w_exc (snd rw) = None ->
      cb_edge_gen uc (Some a) (Some b) ud w = Done tt (snd rw)).
Proof.
  intros Hsound Hrec Hcall Hmk1 Hn1 Hmk2 Hn2.
  destruct (makeTranslationBlock_caches a (push_event EvAttachCurrentThread w))
    as (j & w' & t1 & Hrun & Ht1 & Hq1 & Hh1 & Hle1 & _ & _ & Hlen1 & Hs1 & _
        & Hobj1).
  rewrite Hmk1 in Hrun. injection Hrun as <- <-.
  destruct (Hobj1 Hsound Hn1) as (Hfilled & id1 & -> & Hid1 & _).
  destruct (makeTranslationBlock_caches b w1)
    as (j & w' & t2 & Hrun & Ht2 & Hq2 & Hh2 & Hle2 & _ & _ & _ & _ & Hf2
        & Hobj2).
  rewrite Hmk2 in Hrun. injection Hrun as <- <-.
  destruct (Hf2 Hfilled) as (_ & Hacq2).
  destruct (Hobj2 (Hs1 Hsound) Hn2) as (_ & id2 & -> & Hid2 & _).
  split; [intros [= Heq]; lia|]. split.
  - exists (t2 ++ t1 ++ [EvAttachCurrentThread])%list.
    split; [rewrite Ht2, Ht1; cbn; rewrite <- !app_assoc; reflexivity|].
    split.
    + rewrite !acquired_app, Hacq2. cbn. rewrite app_nil_r. exact Hlen1.
    + repeat apply quiet_app; auto. reflexivity.
  - intros rw Hclear.
    assert (Hrec2 : w_heap w2 !! ud = Some rec)
      by (rewrite Hh2, Hh1; exact Hrec).
    unfold cb_edge_gen, CallVoidMethod. destruct Hcall as [Hobj Hmeth].
    run ltac:(first [ exact Hmk1 | exact Hmk2
                    | apply load_live; exact Hrec2
                    | apply (CallMethod_callable _ _ _ _ Hobj Hmeth)
                    | apply hookErrorCheck_clear; exact Hclear ]).
Qed.

(** ** What a registration leaves *)

Lemma statuses_deletes l : statuses (map EvDeleteGlobalRef l) = [].
Proof. induction l; [reflexivity | exact IHl]. Qed.

Lemma thrown_deletes l : thrown (map EvDeleteGlobalRef l) = [].
Proof. induction l; [reflexivity | exact IHl]. Qed.

Lemma uc_hook_add_live uc p type cb begin end_ extra w rec :
  w_heap w !! p = Some rec ->
  uc_hook_add uc p type cb p begin end_ extra w
  = (let c := hook_add_call uc p type cb begin end_ extra in
     let s := engine_status c w in
     if s =? UC_ERR_OK
     then Done s (set_heap
                    (<[p := with_uc_hh (hd 0 (engine_out c w)) rec]> (w_heap w))
                    (push_event (EvEngine c s) w))
     else Done s (push_event (EvEngine c s) w)).
Proof.
  intros Hrec.
  unfold uc_hook_add, hook_add_call, engine, store, load, bind, modify, ret.
  cbn [fst snd]. cbv zeta.
  destruct (engine_status _ _ =? UC_ERR_OK); [|reflexivity].
  cbn [w_heap push_event]. rewrite Hrec. reflexivity.
Qed.

(** The two ways a registration returns: with the record, which the
    engine accepted and which holds the handle the engine gave; or with
    0, the engine having refused, with its exception thrown and every
    block and reference given up. *)
Lemma hook_add_register_outcome self uc type callback udata begin end_ extra
    hook_sig cb w hh w1 :
  supply w -> w_heap w !! 0 = None ->
  resolves "java/lang/OutOfMemoryError" ->
  hook_add_register self uc type callback udata begin end_ extra hook_sig cb w
  = Done hh w1 ->
  exists p w0 t0,
    makeHookWrapper self callback udata "hook" hook_sig w = Done p w0
    /\ w_trace w0 = (t0 ++ w_trace w)%list
    /\ statuses t0 = [] /\ thrown t0 = []
    /\ let c := hook_add_call uc p type cb begin end_ extra in
       let s := engine_status c w0 in
       (s = UC_ERR_OK /\ hh = p /\ p <> 0
        /\ released t0 = [] /\ freed t0 = [] /\ allocated t0 = [p]
        /\ exists rec,
            w_heap w0 !! p = Some rec /\ holds_globals rec
            /\ w1 = set_heap
                      (<[p := with_uc_hh (hd 0 (engine_out c w0)) rec]>
                         (w_heap w0))
                      (push_event (EvEngine c s) w0))
       \/ (s <> UC_ERR_OK /\ hh = 0
           /\ w_heap w1 = w_heap w /\ w_globals w1 = w_globals w
           /\ w_exc w1 = Some ("unicorn/UnicornException", uc_strerror s)
           /\ exists t1,
               w_trace w1
               = (t1 ++ EvThrowNew "unicorn/UnicornException" (uc_strerror s)
                     :: EvEngine c s :: w_trace w0)%list
               /\ statuses t1 = [] /\ thrown t1 = []
               /\ released (t1 ++ t0) = acquired (t1 ++ t0)
               /\ freed (t1 ++ t0) = allocated (t1 ++ t0)).
Proof.
  intros Hs Hnull Hoom Hrun.
  destruct (makeHookWrapper_spec self callback udata "hook" hook_sig w Hs Hoom)
    as (p & w0 & t0 & Hmk & Ht & Hs' & Hle & Hst & Hth & Harr & Hcases).
  exists p, w0, t0. split; [exact Hmk|]. split; [exact Ht|].
  split; [exact Hst|]. split; [exact Hth|]. cbv zeta.
  unfold hook_add_register in Hrun.
  erewrite bind_done in Hrun by exact Hmk.
  destruct Hcases as [(-> & Hheap & Hglob & Hrel & Hfr & _)
                     | (-> & _ & rec & Hheap & Hglob & Hhg & Hnd & Hfresh
                        & Hacq & Hrel & Hall & Hfr & _)].
  - (* no record *)
    right.
    assert (Hnull0 : w_heap w0 !! 0 = None) by (rewrite Hheap; exact Hnull).
    pose proof (uc_hook_add_null uc type cb begin end_ extra w0 Hnull0) as Hadd.
    cbv zeta in Hadd.
    destruct (engine_status _ w0 =? UC_ERR_OK) eqn:Hok.
    { rewrite (bind_fault _ _ _ _ Hadd) in Hrun. discriminate. }
    erewrite bind_done in Hrun by exact Hadd.
    rewrite Hok in Hrun. cbn [negb] in Hrun.
    unfold bind in Hrun.
    destruct (throwUnicornException _ _) as [u w2|w2] eqn:Hthrow;
      [|discriminate].
    apply throwUnicornException_done in Hthrow. subst w2.
    cbn in Hrun. injection Hrun as <- <-.
    split; [apply Z.eqb_neq; exact Hok|]. split; [reflexivity|].
    split; [exact Hheap|]. split; [exact Hglob|]. split; [reflexivity|].
    exists []. cbn [app]. repeat split; assumption.
  - (* a record *)
    assert (Hp : w_next w <> 0) by (pose proof (proj1 Hs); lia).
    assert (Hrec : w_heap w0 !! w_next w = Some rec)
      by (rewrite Hheap; apply lookup_insert_eq).
    pose proof (uc_hook_add_live uc (w_next w) type cb begin end_ extra w0 rec
                  Hrec) as Hadd.
    cbv zeta in Hadd.
    destruct (engine_status _ w0 =? UC_ERR_OK) eqn:Hok.
    + left. erewrite bind_done in Hrun by exact Hadd.
      rewrite Hok in Hrun. cbn in Hrun. injection Hrun as <- <-.
      split; [apply Z.eqb_eq; exact Hok|]. split; [reflexivity|].
      split; [exact Hp|]. split; [exact Hrel|]. split; [exact Hfr|].
      split; [exact Hall|].
      exists rec. repeat split; try assumption; apply Hhg.
    + right. erewrite bind_done in Hrun by exact Hadd.
      rewrite Hok in Hrun. cbn [negb] in Hrun.
      unfold bind at 1 in Hrun.
      destruct (throwUnicornException _ _) as [u w2|w2] eqn:Hthrow;
        [|discriminate].
      apply throwUnicornException_done in Hthrow. subst w2.
      match type of Hrun with
      | bind _ _ ?wf = _ =>
        destruct (deleteHookWrapper_spec (w_next w) wf rec Hp Hrec Hhg)
          as (w3 & Hdel & Htr3 & Hheap3 & Hglob3 & _ & Hexc3 & _)
      end.
      erewrite bind_done in Hrun by exact Hdel.
      injection Hrun as <- <-.
      split; [apply Z.eqb_neq; exact Hok|]. split; [reflexivity|].
      split.
      { rewrite Hheap3. cbn [w_heap failed push_event set_exc].
        rewrite Hheap, delete_insert_eq. apply delete_id.
        apply (supply_free w _ Hs). lia. }
      split.
      { rewrite Hglob3. cbn [w_globals failed push_event set_exc].
        rewrite Hglob.
        assert (Hout : forall g, g ∈ held rec -> g ∉ w_globals w).
        { intros g Hg. apply (supply_fresh w g Hs).
          pose proof (Hfresh g Hg). lia. }
        set_solver. }
      split; [rewrite Hexc3; reflexivity|].
      exists (EvFree (w_next w) :: map EvDeleteGlobalRef (rev (held rec))).
      split; [rewrite Htr3; reflexivity|].
      cbn [statuses thrown released acquired freed allocated app].
      rewrite !released_app, !acquired_app, !freed_app, !allocated_app,
        released_deletes, acquired_deletes, freed_deletes, allocated_deletes,
        Hrel, Hacq, Hfr, Hall.
      split; [apply statuses_deletes|]. split; [apply thrown_deletes|].
      split; [rewrite app_nil_r; reflexivity|]. reflexivity.
Qed.

(** A record that [makeHookWrapper] returns can be dispatched: it has a
    target and a method. *)
Lemma makeHookWrapper_callable self callback udata name sig w :
  supply w ->
  match makeHookWrapper self callback udata name sig w with
  | Done p w' =>
    p <> 0 -> exists rec, w_heap w' !! p = Some rec /\ callable rec
  | Fault _ => True
  end.
Proof.
  intros Hs.
  assert (Hnz : (w_next w =? 0) = false)
    by (apply Z.eqb_neq; pose proof (proj1 Hs); lia).
  split_paths Hnz Hnz.
  all: try exact I.
  all: try (intros Hp; exfalso; apply Hp; reflexivity).
  all: intros _; eexists;
    (split; [first [reflexivity | apply lookup_insert_eq]|]);
    split; reflexivity.
Qed.

(** X5: A registration that returns a record, through any of the three
    overloads: the record can be dispatched and holds the handle the
    engine stored when it accepted the hook; the record itself is what
    the engine was given as user data; and [_hook_del] hands that very
    handle to [uc_hook_del]. *)
Theorem registration_keeps_engine_handle self uc type callback udata begin
    end_ extra add w hh w1 :
  registration self uc type callback udata begin end_ extra add ->
  supply w -> w_heap w !! 0 = None ->
  resolves "java/lang/OutOfMemoryError" ->
  add w = Done hh w1 -> hh <> 0 ->
  exists rec cb w0,
    w_heap w1 !! hh = Some rec /\ callable rec
    /\ w_trace w1
       = EvEngine (hook_add_call uc hh type cb begin end_ extra) UC_ERR_OK
         :: w_trace w0
    /\ uc_hh rec
       = hd 0 (engine_out (hook_add_call uc hh type cb begin end_ extra) w0)
    /\ forall uc',
        exists w2 t,
          Java_unicorn_Unicorn__1hook_1del uc' hh w1 = Done tt w2
          /\ w_trace w2
             = (t ++ EvEngine (Call "uc_hook_del" [AInt uc'; AInt (uc_hh rec)])
                       (engine_status
                          (Call "uc_hook_del" [AInt uc'; AInt (uc_hh rec)]) w1)
                  :: w_trace w1)%list
          /\ statuses t = [].
Proof.
  intros Hreg Hs Hnull Hoom Hadd Hhh.
  destruct (registration_registers _ _ _ _ _ _ _ _ _ Hreg)
    as (hook_sig & cb & Hfun).
  rewrite Hfun in Hadd.
  destruct (hook_add_register_outcome _ _ _ _ _ _ _ _ _ _ _ _ _ Hs Hnull Hoom
              Hadd)
    as (p & w0 & t0 & Hmk & Ht0 & _ & _ & Hout).
  cbv zeta in Hout.
  destruct Hout as [(Hok & <- & Hp & _ & _ & _ & rec & Hrec & Hhg & ->)
                   | (_ & -> & _)]; [|contradiction].
  pose proof (makeHookWrapper_callable self callback udata "hook" hook_sig w Hs)
    as Hcall.
  rewrite Hmk in Hcall. destruct (Hcall Hhh) as (rec' & Hrec' & Hcallable).
  rewrite Hrec in Hrec'. injection Hrec' as <-.
  set (c := hook_add_call uc hh type cb begin end_ extra) in *.
  set (rec1 := with_uc_hh (hd 0 (engine_out c w0)) rec).
  exists rec1, cb, w0.
  assert (Hrec1 : w_heap
                    (set_heap (<[hh := rec1]> (w_heap w0))
                       (push_event (EvEngine c (engine_status c w0)) w0))
                  !! hh = Some rec1) by apply lookup_insert_eq.
  split; [exact Hrec1|]. split; [exact Hcallable|].
  split; [cbn [w_trace set_heap push_event]; rewrite Hok; reflexivity|].
  split; [reflexivity|].
  intros uc'.
  assert (Hhg1 : holds_globals rec1).
  { destruct Hhg as (H1 & H2 & H3). repeat split; assumption. }
  destruct (hook_del_spec uc' hh _ rec1 Hrec1 Hhg1)
    as (w2 & Hdel & Htr2 & _).
  exists w2, (map EvDeleteGlobalRef (rev (held rec1))).
  split; [exact Hdel|]. split; [exact Htr2|]. apply statuses_deletes.
Qed.

(** X6: A registration that returns 0, through any of the three overloads:
    the engine refused the hook; its status is the only one received and
    its message the only exception thrown, which is pending; and the
    blocks and the live global references are those from before the
    call, each reference acquired and each block allocated in the call
    having been given up. *)
Theorem refused_registration_leaves_nothing self uc type callback udata begin
    end_ extra add w w1 :
  registration self uc type callback udata begin end_ extra add ->
  supply w -> w_heap w !! 0 = None ->
  resolves "java/lang/OutOfMemoryError" ->
  add w = Done 0 w1 ->
  exists s t,
    s <> UC_ERR_OK
    /\ w_trace w1 = (t ++ w_trace w)%list
    /\ statuses t = [s] /\ thrown t = [uc_strerror s]
    /\ w_exc w1 = Some ("unicorn/UnicornException", uc_strerror s)
    /\ w_heap w1 = w_heap w /\ w_globals w1 = w_globals w
    /\ released t = acquired t /\ freed t = allocated t.
Proof.
  intros Hreg Hs Hnull Hoom Hadd.
  destruct (registration_registers _ _ _ _ _ _ _ _ _ Hreg)
    as (hook_sig & cb & Hfun).
  rewrite Hfun in Hadd.
  destruct (hook_add_register_outcome _ _ _ _ _ _ _ _ _ _ _ _ _ Hs Hnull Hoom
              Hadd)
    as (p & w0 & t0 & Hmk & Ht0 & Hst0 & Hth0 & Hout).
  cbv zeta in Hout.
  destruct Hout as [(_ & <- & Hp & _) | (Hne & _ & Hheap & Hglob & Hexc & t1
                                         & Htr & Hst1 & Hth1 & Hrel & Hfr)];
    [contradiction|].
  set (c := hook_add_call uc p type cb begin end_ extra) in *.
  set (s := engine_status c w0) in *.
  exists s,
    (t1 ++ [EvThrowNew "unicorn/UnicornException" (uc_strerror s);
            EvEngine c s] ++ t0)%list.
  split; [exact Hne|].
  split; [rewrite Htr, Ht0, <- !app_assoc; reflexivity|].
  rewrite !statuses_app, !thrown_app, !released_app, !acquired_app,
    !freed_app, !allocated_app in *.
  cbn [statuses thrown released acquired freed allocated app c hook_add_call
       fn String.eqb Ascii.eqb Bool.eqb].
  rewrite Hst1, Hst0, Hth1, Hth0.
  repeat split; assumption.
Qed.

(** ** Edges of the registry *)

(** X7: [makeHookWrapper] for a null hook object: it returns null, having
    given up the block and the reference to the engine facade it had
    acquired, and, when the block could be allocated, without raising any
    exception: nothing tells the caller why there is no record. *)
Theorem null_callback_is_refused_silently self callback udata name sig w :
  supply w -> resolves "java/lang/OutOfMemoryError" ->
  is_null callback = true ->
  exists w' t,
    makeHookWrapper self callback udata name sig w = Done 0 w'
    /\ w_trace w' = (t ++ w_trace w)%list
    /\ w_heap w' = w_heap w /\ w_globals w' = w_globals w
    /\ released t = acquired t /\ freed t = allocated t
    /\ (grants ReqCalloc w = true -> w_exc w' = w_exc w /\ thrown t = []
        /\ forall cls msg, ~ In (EvThrowNew cls msg) t).
Proof.
  intros Hs Hoom Hcb. destruct callback; try discriminate.
  pose proof (supply_fresh w (w_next w + 1) Hs ltac:(lia)) as Hg1.
  pose proof (supply_free w (w_next w) Hs ltac:(lia)) as Hh0.
  assert (Hnz : (w_next w =? 0) = false)
    by (apply Z.eqb_neq; pose proof (proj1 Hs); lia).
  unfold resolves in Hoom.
  split_paths Hnz Hoom.
  all: eexists _, _; split; [reflexivity|]; split; [cbn [w_trace]; added|].
  all: cbn [w_heap w_globals w_exc released acquired freed allocated thrown].
  all: split; [first [reflexivity | apply delete_id; exact Hh0]|].
  all: split; [set_solver|].
  all: split; [reflexivity|]; split; [reflexivity|].
  all: intros Hgr; try congruence.
  all: split; [reflexivity|]; split; [reflexivity|].
  all: intros cls msg Hin; cbn in Hin; intuition discriminate.
Qed.

(** X8: [_hookwrapper_free] does not call the engine.  For a live record it
    releases the references the record holds and frees the block; from
    then on the pointer designates nothing: a second
    [_hookwrapper_free], a [_hook_del], and a trampoline that the engine
    still dispatches with it, all read freed memory. *)
Theorem freed_record_is_gone hh w rec :
  hh <> 0 -> w_heap w !! hh = Some rec -> holds_globals rec ->
  exists w',
    Java_unicorn_Unicorn__1hookwrapper_1free hh w = Done tt w'
    /\ w_trace w'
       = (EvFree hh :: map EvDeleteGlobalRef (rev (held rec)) ++ w_trace w)%list
    /\ w_heap w' !! hh = None
    /\ w_globals w' = w_globals w ∖ list_to_set (held rec)
    /\ Java_unicorn_Unicorn__1hookwrapper_1free hh w' = Fault w'
    /\ (forall uc, Java_unicorn_Unicorn__1hook_1del uc hh w' = Fault w')
    /\ (forall uc address size,
           cb_hookcode uc address size hh w'
           = Fault (push_event EvAttachCurrentThread w')).
Proof.
  intros Hhh Hrec Hhg.
  destruct (deleteHookWrapper_spec hh w rec Hhh Hrec Hhg)
    as (w' & Hdel & Htr & Hheap & Hglob & _).
  exists w'. split; [exact Hdel|]. split; [exact Htr|].
  assert (Hgone : w_heap w' !! hh = None)
    by (rewrite Hheap; apply lookup_delete_eq).
  assert (Hz : (hh =? 0) = false) by (apply Z.eqb_neq; exact Hhh).
  split; [exact Hgone|]. split; [exact Hglob|].
  split; [|split].
  - unfold Java_unicorn_Unicorn__1hookwrapper_1free, deleteHookWrapper.
    rewrite Hz. unfold bind, load. rewrite Hgone. reflexivity.
  - intros uc. unfold Java_unicorn_Unicorn__1hook_1del, bind, load.
    rewrite Hgone. reflexivity.
  - intros uc address size.
    unfold cb_hookcode, AttachCurrentThread, log, modify, bind, load.
    cbn [w_heap push_event]. rewrite Hgone. reflexivity.
Qed.

(** ** Arrays that the engine fills *)

Lemma overlay_length (out buf : list Z) : length (overlay out buf) = length buf.
Proof.
  unfold overlay. rewrite length_take, length_app, length_drop. lia.
Qed.

Lemma overlay_fits (out buf : list Z) :
  (length out <= length buf)%nat ->
  overlay out buf = (out ++ drop (length out) buf)%list.
Proof.
  intros Hfit. unfold overlay. apply take_ge.
  rewrite length_app, length_drop. lia.
Qed.

Lemma status_check_resolved err w :
  resolves "unicorn/UnicornException" ->
  (if negb (err =? UC_ERR_OK)
   then bind (throwUnicornException err) (fun _ => ret tt) else ret tt) w
  = Done tt (if err =? UC_ERR_OK then w else failed (uc_strerror err) w).
Proof.
  intros Hue. destruct (err =? UC_ERR_OK); cbn [negb]; [reflexivity|].
  unfold bind. rewrite (throwUnicornException_resolved _ _ Hue). reflexivity.
Qed.

Section Destination.

Variables (dest : jobject) (id : Z) (l : list Z) (w : World).
Hypothesis Hid : array_id dest = Some id.
Hypothesis Harr : w_arrays w !! id = Some l.
Hypothesis Hgr : grants (ReqGetArrayElements dest) w = true.

Lemma GetArrayLength_live :
  GetArrayLength dest w = Done (Z.of_nat (length l)) w.
Proof.
  unfold GetArrayLength, array_contents, bind. rewrite Hid, Harr. reflexivity.
Qed.

Lemma GetArrayElements_live : GetArrayElements dest w = Done (Some l) w.
Proof.
  unfold GetArrayElements, array_contents, granted, reads, bind.
  rewrite Hid, Harr, Hgr. reflexivity.
Qed.

Lemma engine_fill_live name a :
  let c := Call name a in
  let s := engine_status c w in
  engine_fill name a (Some l) w
  = Done (s, Some (overlay (engine_out c w) l)) (push_event (EvEngine c s) w).
Proof. reflexivity. Qed.

Lemma engine_fill_unsized_live name a :
  let c := Call name a in
  let s := engine_status c w in
  (length (engine_out c w) <= length l)%nat ->
  engine_fill_unsized name a (Some l) w
  = Done (s, Some (engine_out c w ++ drop (length (engine_out c w)) l)%list)
         (push_event (EvEngine c s) w).
Proof.
  intros c s Hfit. unfold engine_fill_unsized, engine, bind. cbn [fst snd].
  fold c.
  assert (Hlt : (length l <? length (engine_out c w))%nat = false)
    by (apply Nat.ltb_ge; exact Hfit).
  rewrite Hlt, (overlay_fits _ _ Hfit). reflexivity.
Qed.

Lemma engine_fill_unsized_over name a :
  let c := Call name a in
  (length l < length (engine_out c w))%nat ->
  engine_fill_unsized name a (Some l) w
  = Fault (push_event (EvEngine c (engine_status c w)) w).
Proof.
  intros c Hover. unfold engine_fill_unsized, engine, bind. cbn [fst snd].
  fold c.
  assert (Hlt : (length l <? length (engine_out c w))%nat = true)
    by (apply Nat.ltb_lt; exact Hover).
  rewrite Hlt. reflexivity.
Qed.

Lemma ReleaseArrayElements_commit l' w1 :
  ReleaseArrayElements dest (Some l') 0 w1
  = Done tt (set_arrays (<[id := l']> (w_arrays w1)) w1).
Proof. unfold ReleaseArrayElements. rewrite Hid. reflexivity. Qed.

End Destination.

(** X9: [_reg_read_bytes] for a destination whose elements the virtual
    machine hands out, the class of the engine's exception being
    loadable.  The engine is given the elements and no length.  When it
    stores no more than the destination holds, the call returns: the
    elements are committed before the status is looked at, so the
    destination holds what the engine stored, followed by the rest of
    what it held, whether the engine succeeded or failed, and no other
    array changes; when the engine failed its exception is thrown after
    the commit and is pending.  When the engine stores more than the
    destination holds, the call does not return. *)
Theorem reg_read_bytes_fills_destination dest id l w ptr isContext regid :
  array_id dest = Some id -> w_arrays w !! id = Some l ->
  grants (ReqGetArrayElements dest) w = true ->
  resolves "unicorn/UnicornException" ->
  let c := Call (if negb (isContext =? 0) then "uc_context_reg_read"
                 else "uc_reg_read")
             [AInt ptr; AInt regid; ABuf (Some l)] in
  let s := engine_status c w in
  let out := engine_out c w in
  ((length out <= length l)%nat ->
   exists w',
     Java_unicorn_Unicorn__1reg_1read_1bytes ptr isContext regid dest w
     = Done tt w'
     /\ w_arrays w' = <[id := (out ++ drop (length out) l)%list]> (w_arrays w)
     /\ w_trace w'
        = ((if s =? UC_ERR_OK then []
            else [EvThrowNew "unicorn/UnicornException" (uc_strerror s)])
           ++ EvEngine c s :: w_trace w)%list
     /\ w_exc w' = (if s =? UC_ERR_OK then w_exc w
                    else Some ("unicorn/UnicornException", uc_strerror s)))
  /\ ((length l < length out)%nat ->
      Java_unicorn_Unicorn__1reg_1read_1bytes ptr isContext regid dest w
      = Fault (push_event (EvEngine c s) w)).
Proof.
  intros Hid Harr Hgr Hue.
  destruct (negb (isContext =? 0)) eqn:Hctx; intros c s out.
  all: split;
    [ intros Hfit; eexists; split;
      [ unfold Java_unicorn_Unicorn__1reg_1read_1bytes; cbv zeta;
        eapply bind_step;
        [exact (GetArrayElements_live dest id l w Hid Harr Hgr)|];
        eapply bind_step;
        [unfold generic_reg_read; rewrite Hctx;
         apply (engine_fill_unsized_live l w _ _ Hfit)|];
        cbn [fst snd];
        eapply bind_step; [apply (ReleaseArrayElements_commit dest id Hid)|];
        apply (status_check_resolved _ _ Hue) |];
      fold c; fold s; fold out;
      (split; [destruct (s =? UC_ERR_OK); reflexivity|]);
      split; destruct (s =? UC_ERR_OK); reflexivity
    | intros Hover;
      unfold Java_unicorn_Unicorn__1reg_1read_1bytes; cbv zeta;
      eapply bind_step;
      [exact (GetArrayElements_live dest id l w Hid Harr Hgr)|];
      apply bind_fault; unfold generic_reg_read; rewrite Hctx;
      apply (engine_fill_unsized_over l w _ _ Hover) ].
Qed.

(** X16: [_mem_read] for a destination whose elements the virtual machine
    hands out, the class of the engine's exception being loadable, as
    far as the entry point goes (a read that reaches no MMIO hook).  The
    engine is given the elements and their number, and the call
    returns.  The elements are committed before the status is looked
    at: the destination holds what the engine stored, as far as the
    destination goes, followed by the rest of what it held, whether the
    engine succeeded or failed, and no other array changes; when the
    engine failed its exception is thrown after the commit and is
    pending. *)
Theorem mem_read_fills_destination dest id l w uc address :
  array_id dest = Some id -> w_arrays w !! id = Some l ->
  grants (ReqGetArrayElements dest) w = true ->
  resolves "unicorn/UnicornException" ->
  let c := Call "uc_mem_read"
             [AInt uc; AInt address; ABuf (Some l);
              AInt (Z.of_nat (length l))] in
  let s := engine_status c w in
  let out := engine_out c w in
  exists w',
    Java_unicorn_Unicorn__1mem_1read uc address dest w = Done tt w'
    /\ w_arrays w' = <[id := overlay out l]> (w_arrays w)
    /\ ((length out <= length l)%nat ->
        overlay out l = (out ++ drop (length out) l)%list)
    /\ w_trace w'
       = ((if s =? UC_ERR_OK then []
           else [EvThrowNew "unicorn/UnicornException" (uc_strerror s)])
          ++ EvEngine c s :: w_trace w)%list
    /\ w_exc w' = (if s =? UC_ERR_OK then w_exc w
                   else Some ("unicorn/UnicornException", uc_strerror s)).
Proof.
  intros Hid Harr Hgr Hue c s out.
  eexists. split.
  { unfold Java_unicorn_Unicorn__1mem_1read. cbv zeta.
    eapply bind_step; [exact (GetArrayLength_live dest id l w Hid Harr)|].
    eapply bind_step;
      [exact (GetArrayElements_live dest id l w Hid Harr Hgr)|].
    eapply bind_step; [apply engine_fill_live|]. cbn [fst snd].
    eapply bind_step; [apply (ReleaseArrayElements_commit dest id Hid)|].
    apply (status_check_resolved _ _ Hue). }
  fold c. fold s. fold out.
  split; [destruct (s =? UC_ERR_OK); reflexivity|].
  split; [apply overlay_fits|].
  split; destruct (s =? UC_ERR_OK); reflexivity.
Qed.

(** ** Elements that the virtual machine does not hand out *)

Lemma GetArrayElements_denied src id l w :
  array_id src = Some id -> w_arrays w !! id = Some l ->
  grants (ReqGetArrayElements src) w = false ->
  GetArrayElements src w = Done None w.
Proof.
  intros Hid Harr Hgr.
  unfold GetArrayElements, array_contents, granted, reads, bind.
  rewrite Hid, Harr, Hgr. reflexivity.
Qed.

(** X10: when [Get<Type>ArrayElements] returns null, the four calls that move
    bytes between a Java array and the engine do not test for it: the
    engine is called with a null buffer, and the call does not return
    normally, the null being handed to [Release<Type>ArrayElements] when
    the engine has not stopped on it.  [_ctl_set_exits] does test: it
    returns at once, and nothing has happened. *)
Theorem unchecked_array_elements src id l w :
  array_id src = Some id -> w_arrays w !! id = Some l ->
  grants (ReqGetArrayElements src) w = false ->
  (forall uc address,
      let c := Call "uc_mem_write"
                 [AInt uc; AInt address; ABuf None;
                  AInt (Z.of_nat (length l))] in
      Java_unicorn_Unicorn__1mem_1write uc address src w
      = Fault (push_event (EvEngine c (engine_status c w)) w))
  /\ (forall uc address,
         let c := Call "uc_mem_read"
                    [AInt uc; AInt address; ABuf None;
                     AInt (Z.of_nat (length l))] in
         Java_unicorn_Unicorn__1mem_1read uc address src w
         = Fault (push_event (EvEngine c (engine_status c w)) w))
  /\ (forall ptr isContext regid,
         let c := Call (if negb (isContext =? 0) then "uc_context_reg_write"
                        else "uc_reg_write")
                    [AInt ptr; AInt regid; ABuf None] in
         Java_unicorn_Unicorn__1reg_1write_1bytes ptr isContext regid src w
         = Fault (push_event (EvEngine c (engine_status c w)) w))
  /\ (forall ptr isContext regid,
         let c := Call (if negb (isContext =? 0) then "uc_context_reg_read"
                        else "uc_reg_read")
                    [AInt ptr; AInt regid; ABuf None] in
         Java_unicorn_Unicorn__1reg_1read_1bytes ptr isContext regid src w
         = Fault (push_event (EvEngine c (engine_status c w)) w))
  /\ (forall uc, Java_unicorn_Unicorn__1ctl_1set_1exits uc src w = Done tt w).
Proof.
  intros Hid Harr Hgr.
  pose proof (GetArrayElements_denied src id l w Hid Harr Hgr) as Hget.
  pose proof (GetArrayLength_live src id l w Hid Harr) as Hlen.
  split; [|split; [|split; [|split]]].
  - intros uc address c.
    unfold Java_unicorn_Unicorn__1mem_1write.
    erewrite bind_done by exact Hlen. erewrite bind_done by exact Hget.
    reflexivity.
  - intros uc address c.
    unfold Java_unicorn_Unicorn__1mem_1read.
    erewrite bind_done by exact Hlen. erewrite bind_done by exact Hget.
    unfold engine_fill, engine, bind. cbn [fst snd]. fold c.
    destruct (engine_status c w =? UC_ERR_OK); reflexivity.
  - intros ptr isContext regid.
    unfold Java_unicorn_Unicorn__1reg_1write_1bytes, generic_reg_write.
    erewrite bind_done by exact Hget.
    destruct (negb (isContext =? 0)); reflexivity.
  - intros ptr isContext regid.
    unfold Java_unicorn_Unicorn__1reg_1read_1bytes, generic_reg_read.
    erewrite bind_done by exact Hget.
    destruct (negb (isContext =? 0)); cbv zeta;
      unfold engine_fill_unsized, engine, bind; cbn [fst snd];
      destruct (engine_status _ w =? UC_ERR_OK); reflexivity.
  - intros uc. unfold Java_unicorn_Unicorn__1ctl_1set_1exits.
    erewrite bind_done by exact Hlen. erewrite bind_done by exact Hget.
    reflexivity.
Qed.

(** ** The list of the exits *)

Lemma engine_get_live name a init w :
  let c := Call name a in
  let s := engine_status c w in
  engine_get name a init w
  = Done (s, hd 0 (overlay (engine_out c w) [init]))
         (push_event (EvEngine c s) w).
Proof. reflexivity. Qed.

(** X11: [_ctl_get_exits] always returns, the class of the engine's
    exception being loadable.  An array that it returns is a new
    one, of as many elements as the engine counted (the count converted
    to [jsize]), and holds what the engine stored over its zeros; the
    engine was asked for the count and for the exits, was told the count
    as it gave it, and succeeded both times; nothing was thrown. *)
Theorem ctl_get_exits_lists_exits uc w :
  resolves "unicorn/UnicornException" ->
  exists j w',
    Java_unicorn_Unicorn__1ctl_1get_1exits uc w = Done j w'
    /\ (is_null j = false ->
        let c1 := Call "uc_ctl_get_exits_cnt" [AInt uc] in
        let cnt := hd 0 (overlay (engine_out c1 w) [0]) in
        let zeros := replicate (Z.to_nat (jint_of cnt)) 0 in
        let c2 := Call "uc_ctl_get_exits"
                    [AInt uc; ABuf (Some zeros); AInt cnt] in
        exists w2 l,
          j = Local (OArray (w_next w))
          /\ w_arrays w' = <[w_next w := l]> (w_arrays w)
          /\ l = overlay (engine_out c2 w2) zeros
          /\ length l = Z.to_nat (jint_of cnt)
          /\ w_trace w2 = EvEngine c1 UC_ERR_OK :: w_trace w
          /\ w_trace w' = EvEngine c2 UC_ERR_OK :: w_trace w2
          /\ w_exc w' = w_exc w).
Proof.
  intros Hue.
  set (c1 := Call "uc_ctl_get_exits_cnt" [AInt uc]).
  set (s1 := engine_status c1 w).
  set (w1 := push_event (EvEngine c1 s1) w).
  pose proof (engine_get_live "uc_ctl_get_exits_cnt" [AInt uc] 0 w) as Hcnt.
  cbv zeta in Hcnt. fold c1 in Hcnt. fold s1 in Hcnt. fold w1 in Hcnt.
  unfold Java_unicorn_Unicorn__1ctl_1get_1exits.
  destruct (s1 =? UC_ERR_OK) eqn:Hok1.
  2:{ eexists NULL, _. split; [|intros [=]].
      eapply bind_step; [exact Hcnt|]. cbv zeta. cbn [fst snd].
      rewrite Hok1. cbn [negb].
      eapply bind_step; [apply (throwUnicornException_resolved _ _ Hue)|].
      reflexivity. }
  set (cnt := hd 0 (overlay (engine_out c1 w) [0])) in *.
  set (zeros := replicate (Z.to_nat (jint_of cnt)) 0).
  destruct (grants (ReqNewArray (jint_of cnt)) w1) eqn:Hgr.
  2:{ eexists NULL, _. split; [|intros [=]].
      eapply bind_step; [exact Hcnt|]. cbv zeta. cbn [fst snd].
      rewrite Hok1. cbn [negb].
      unfold NewArray, granted, reads, raise, modify.
      unfold bind at 1 2 3. rewrite Hgr. reflexivity. }
  set (arr := w_next w).
  set (wd := set_arrays (<[arr := zeros]> (w_arrays w1)) (set_next (arr + 1) w1)).
  assert (Hnew : NewArray (jint_of cnt) w1 = Done (Local (OArray arr)) wd).
  { unfold NewArray, granted, reads, fresh, modify.
    unfold bind at 1. rewrite Hgr. reflexivity. }
  assert (Harr : w_arrays wd !! arr = Some zeros) by apply lookup_insert_eq.
  destruct (grants (ReqGetArrayElements (Local (OArray arr))) wd) eqn:Hel.
  2:{ eexists NULL, _. split; [|intros [=]].
      eapply bind_step; [exact Hcnt|]. cbv zeta. cbn [fst snd].
      rewrite Hok1. cbn [negb].
      eapply bind_step; [exact Hnew|]. cbn [is_null].
      eapply bind_step;
        [exact (GetArrayElements_denied (Local (OArray arr)) arr zeros wd eq_refl Harr Hel)|].
      reflexivity. }
  set (c2 := Call "uc_ctl_get_exits" [AInt uc; ABuf (Some zeros); AInt cnt]).
  set (s2 := engine_status c2 wd).
  set (l := overlay (engine_out c2 wd) zeros).
  set (w3 := push_event (EvEngine c2 s2) wd).
  set (w4 := set_arrays (<[arr := l]> (w_arrays w3)) w3).
  assert (Hfill : engine_fill "uc_ctl_get_exits"
                    [AInt uc; ABuf (Some zeros); AInt cnt] (Some zeros) wd
                  = Done (s2, Some l) w3)
    by apply (engine_fill_live zeros wd).
  destruct (s2 =? UC_ERR_OK) eqn:Hok2.
  2:{ eexists NULL, _. split; [|intros [=]].
      eapply bind_step; [exact Hcnt|]. cbv zeta. cbn [fst snd].
      rewrite Hok1. cbn [negb].
      eapply bind_step; [exact Hnew|]. cbn [is_null].
      eapply bind_step;
        [exact (GetArrayElements_live (Local (OArray arr)) arr zeros wd eq_refl Harr Hel)|].
      eapply bind_step; [exact Hfill|]. cbn [fst snd].
      eapply bind_step;
        [apply (ReleaseArrayElements_commit (Local (OArray arr)) arr eq_refl)|].
      rewrite Hok2. cbn [negb].
      eapply bind_step; [apply (throwUnicornException_resolved _ _ Hue)|].
      reflexivity. }
  exists (Local (OArray arr)), w4. split.
  { eapply bind_step; [exact Hcnt|]. cbv zeta. cbn [fst snd].
    rewrite Hok1. cbn [negb].
    eapply bind_step; [exact Hnew|]. cbn [is_null].
    eapply bind_step;
      [exact (GetArrayElements_live (Local (OArray arr)) arr zeros wd eq_refl Harr Hel)|].
    eapply bind_step; [exact Hfill|]. cbn [fst snd].
    eapply bind_step;
      [apply (ReleaseArrayElements_commit (Local (OArray arr)) arr eq_refl)|].
    rewrite Hok2. reflexivity. }
  intros _. cbv zeta. fold c1. fold cnt. fold zeros. fold c2.
  apply Z.eqb_eq in Hok1, Hok2.
  exists wd, l. split; [reflexivity|].
  split.
  { cbn [w4 w3 wd w1 w_arrays set_arrays push_event set_next].
    apply insert_insert_eq. }
  split; [reflexivity|].
  split; [unfold l, zeros; rewrite overlay_length, length_replicate; reflexivity|].
  split; [cbn; rewrite <- Hok1; reflexivity|].
  split; [cbn; rewrite <- Hok2; reflexivity|].
  reflexivity.
Qed.

(** ** The calls that return a descriptor *)

(** The constructors log work of the virtual machine only, and a
    descriptor that they return leaves the pending exception as it
    was. *)
Lemma makeTranslationBlock_plain s w :
  exists j w' t,
    makeTranslationBlock (Some s) w = Done j w'
    /\ w_trace w' = (t ++ w_trace w)%list /\ jni_only t
    /\ (is_null j = false -> w_exc w' = w_exc w).
Proof.
  destruct w as [exc globals heap arrays next mmr cp [tc ti] rg tr].
  destruct tc, ti; construct_paths.
  all: eexists _, _, _; split; [reflexivity|]; split; [cbn; added|];
    split; [reflexivity|]; cbn;
    first [intros _; reflexivity | intros Hj; discriminate Hj].
Qed.

Lemma makeX86_MMR_plain s w :
  exists j w' t,
    makeX86_MMR (Some s) w = Done j w'
    /\ w_trace w' = (t ++ w_trace w)%list /\ jni_only t
    /\ (is_null j = false -> w_exc w' = w_exc w).
Proof.
  destruct w as [exc globals heap arrays next [mc mi] cp tb rg tr].
  destruct mc, mi; construct_paths.
  all: eexists _, _, _; split; [reflexivity|]; split; [cbn; added|];
    split; [reflexivity|]; cbn;
    first [intros _; reflexivity | intros Hj; discriminate Hj].
Qed.

(** What a constructor is known to do, as [builds_descriptor] needs it
    after a successful call [c]. *)
Lemma built_after_engine {S} (make : option S -> M jobject)
    (get : World -> class_cache) (ctor_args : S -> list jvalue) (s : S)
    (c : EngineCall) w :
  caches_class make get ctor_args ->
  (exists j w' t,
      make (Some s) (push_event (EvEngine c UC_ERR_OK) w) = Done j w'
      /\ w_trace w' = (t ++ w_trace (push_event (EvEngine c UC_ERR_OK) w))%list
      /\ jni_only t /\ (is_null j = false -> w_exc w' = w_exc w)) ->
  get (push_event (EvEngine c UC_ERR_OK) w) = get w ->
  exists j w',
    make (Some s) (push_event (EvEngine c UC_ERR_OK) w) = Done j w'
    /\ exists t,
        w_trace w' = (t ++ w_trace (push_event (EvEngine c UC_ERR_OK) w))%list
        /\ jni_only t /\ w_heap w' = w_heap w
        /\ (is_null j = false -> w_exc w' = w_exc w)
        /\ (cache_sound (get w) -> is_null j = false ->
            exists id,
              j = Local (OInst id) /\ w_next w <= id < w_next w'
              /\ head t
                 = Some (EvNewObject id (cc_clazz (get w')) (ctor_args s))).
Proof.
  intros Hcache (j & w' & t & Hrun & Ht & Hjni & Hexc) Hget.
  destruct (Hcache s (push_event (EvEngine c UC_ERR_OK) w))
    as (j2 & w2 & t2 & Hrun2 & Ht2 & _ & Hheap & _ & _ & _ & _ & _ & _ & Hobj).
  rewrite Hrun in Hrun2. injection Hrun2 as <- <-.
  rewrite Ht in Ht2. apply app_inv_tail in Ht2. subst t2.
  exists j, w'. split; [exact Hrun|]. exists t.
  split; [exact Ht|]. split; [exact Hjni|]. split; [exact Hheap|].
  split; [exact Hexc|].
  intros Hsound Hj. rewrite Hget in Hobj.
  destruct (Hobj Hsound Hj) as (_ & id & Hid & Hrange & Hhead).
  exists id. split; [exact Hid|]. split; [exact Hrange | exact Hhead].
Qed.

(** X12: [_ctl_request_cache] and [_reg_read_x86_mmr] ask the engine once
    and build their descriptor from what it stored: the three members of
    [uc_tb] as a long and two ints, and of [uc_x86_mmr] its base, limit,
    flags and selector as a long, two ints and a short.  After a
    successful call the engine is not called again and the binding
    throws nothing; when the engine fails they only throw its exception,
    its class being loadable, and return null.  [_reg_read_x86_mmr]
    gives the engine no length: this holds when the engine stores no
    more than the structure holds, and the call does not return when it
    stores more. *)
Theorem descriptor_calls_build_from_engine :
  resolves "unicorn/UnicornException" ->
  (forall uc address w,
      builds_descriptor (Java_unicorn_Unicorn__1ctl_1request_1cache uc address)
        (Call "uc_ctl_request_cache" [AInt uc; AInt (uint64_of address)])
        [0; 0; 0] w_tb
        (fun tb => [JLong (jlong_of (nth 0 tb 0)); JInt (jint_of (nth 1 tb 0));
                    JInt (jint_of (nth 2 tb 0))]) w)
  /\ (forall ptr isContext regid w,
         let c := Call (if negb (isContext =? 0) then "uc_context_reg_read"
                        else "uc_reg_read")
                    [AInt ptr; AInt regid; ABuf (Some [0; 0; 0; 0])] in
         ((length (engine_out c w) <= 4)%nat ->
          builds_descriptor
            (Java_unicorn_Unicorn__1reg_1read_1x86_1mmr ptr isContext regid)
            c [0; 0; 0; 0] w_mmr
            (fun reg => [JLong (jlong_of (nth 1 reg 0));
                         JInt (jint_of (nth 2 reg 0));
                         JInt (jint_of (nth 3 reg 0));
                         JShort (jshort_of (nth 0 reg 0))]) w)
         /\ ((4 < length (engine_out c w))%nat ->
             Java_unicorn_Unicorn__1reg_1read_1x86_1mmr ptr isContext regid w
             = Fault (push_event (EvEngine c (engine_status c w)) w))).
Proof.
  intros Hue. split.
  - intros uc address w. unfold builds_descriptor. cbv zeta.
    set (c := Call "uc_ctl_request_cache" _).
    unfold Java_unicorn_Unicorn__1ctl_1request_1cache.
    pose proof (engine_fill_live [0; 0; 0] w "uc_ctl_request_cache"
                  [AInt uc; AInt (uint64_of address)]) as Hfill.
    cbv zeta in Hfill. fold c in Hfill.
    destruct (engine_status c w =? UC_ERR_OK) eqn:Hok.
    + pose proof (proj1 (Z.eqb_eq _ _) Hok) as Heq.
      set (tb := UcTb (nth 0 (overlay (engine_out c w) [0; 0; 0]) 0)
                      (nth 1 (overlay (engine_out c w) [0; 0; 0]) 0)
                      (nth 2 (overlay (engine_out c w) [0; 0; 0]) 0)).
      destruct (built_after_engine makeTranslationBlock w_tb _ tb c w
                  makeTranslationBlock_caches
                  (makeTranslationBlock_plain tb _) eq_refl)
        as (j & w' & Hrun & Hfacts).
      exists j, w'. rewrite Heq. split.
      { eapply bind_step; [exact Hfill|]. cbn [fst snd].
        rewrite Hok. cbn [negb]. rewrite Heq. exact Hrun. }
      split; [intros Hs; exfalso; apply Hs; reflexivity|].
      intros _. exact Hfacts.
    + exists NULL, (failed (uc_strerror (engine_status c w))
                      (push_event (EvEngine c (engine_status c w)) w)).
      split.
      { eapply bind_step; [exact Hfill|]. cbn [fst snd].
        rewrite Hok. cbn [negb].
        eapply bind_step; [apply (throwUnicornException_resolved _ _ Hue)|].
        reflexivity. }
      split; [intros _; split; reflexivity|].
      intros Hs. apply Z.eqb_neq in Hok. contradiction.
  - intros ptr isContext regid w c. split.
    + intros Hfit. unfold builds_descriptor. cbv zeta.
      unfold Java_unicorn_Unicorn__1reg_1read_1x86_1mmr.
      assert (Hfill : generic_reg_read ptr isContext regid
                        (Some [0; 0; 0; 0]) w
                      = Done (engine_status c w,
                              Some (overlay (engine_out c w) [0; 0; 0; 0]))
                             (push_event (EvEngine c (engine_status c w)) w)).
      { unfold generic_reg_read, c in *.
        destruct (negb (isContext =? 0));
          rewrite (engine_fill_unsized_live [0; 0; 0; 0] w _ _ Hfit);
          rewrite <- (overlay_fits _ [0; 0; 0; 0] Hfit); reflexivity. }
      destruct (engine_status c w =? UC_ERR_OK) eqn:Hok.
      * pose proof (proj1 (Z.eqb_eq _ _) Hok) as Heq.
        set (reg := UcX86Mmr
                      (nth 0 (overlay (engine_out c w) [0; 0; 0; 0]) 0)
                      (nth 1 (overlay (engine_out c w) [0; 0; 0; 0]) 0)
                      (nth 2 (overlay (engine_out c w) [0; 0; 0; 0]) 0)
                      (nth 3 (overlay (engine_out c w) [0; 0; 0; 0]) 0)).
        destruct (built_after_engine makeX86_MMR w_mmr _ reg c w
                    makeX86_MMR_caches (makeX86_MMR_plain reg _) eq_refl)
          as (j & w' & Hrun & Hfacts).
        exists j, w'. rewrite Heq. split.
        { eapply bind_step; [exact Hfill|]. cbn [fst snd].
          rewrite Hok. cbn [negb]. rewrite Heq. exact Hrun. }
        split; [intros Hs; exfalso; apply Hs; reflexivity|].
        intros _. exact Hfacts.
      * exists NULL, (failed (uc_strerror (engine_status c w))
                        (push_event (EvEngine c (engine_status c w)) w)).
        split.
        { eapply bind_step; [exact Hfill|]. cbn [fst snd].
          rewrite Hok. cbn [negb].
          eapply bind_step; [apply (throwUnicornException_resolved _ _ Hue)|].
          reflexivity. }
        split; [intros _; split; reflexivity|].
        intros Hs. apply Z.eqb_neq in Hok. contradiction.
    + intros Hover.
      unfold Java_unicorn_Unicorn__1reg_1read_1x86_1mmr.
      apply bind_fault. unfold generic_reg_read, c in *.
      destruct (negb (isContext =? 0));
        apply (engine_fill_unsized_over [0; 0; 0; 0] w _ _ Hover).
Qed.

(** ** The facade leaves the registry alone *)

Lemma registry_ret {A} (a : A) : keeps_registry (ret a).
Proof. intros w. split; reflexivity. Qed.

Lemma registry_fault {A} : keeps_registry (@fault A).
Proof. intros w. split; reflexivity. Qed.

Lemma registry_reads {A} (f : World -> A) : keeps_registry (reads f).
Proof. intros w. split; reflexivity. Qed.

Lemma registry_modify (f : World -> World) :
  (forall w, w_heap (f w) = w_heap w /\ w_globals (f w) = w_globals w) ->
  keeps_registry (modify f).
Proof. intros Hf w. apply Hf. Qed.

Lemma registry_bind {A B} (m : M A) (k : A -> M B) :
  keeps_registry m -> (forall a, keeps_registry (k a)) ->
  keeps_registry (bind m k).
Proof.
  intros Hm Hk w. unfold bind. specialize (Hm w).
  destruct (m w) as [a w1|w1]; cbn in *; [|exact Hm].
  destruct (Hk a w1) as (Hh & Hg). destruct Hm as (Hh1 & Hg1).
  rewrite Hh, Hg. split; assumption.
Qed.

Lemma registry_array_contents r : keeps_registry (array_contents r).
Proof.
  intros w. unfold array_contents.
  destruct (array_id r); [|split; reflexivity].
  destruct (w_arrays w !! _); split; reflexivity.
Qed.

Lemma registry_direct_buffer buf : keeps_registry (direct_buffer buf).
Proof.
  intros w. unfold direct_buffer.
  destruct (array_id buf); [|split; reflexivity].
  destruct (w_arrays w !! _); [|split; reflexivity].
  destruct (grants _ _); split; reflexivity.
Qed.

Lemma registry_engine c : keeps_registry (engine c).
Proof. intros w. split; reflexivity. Qed.

Lemma registry_engine_value name a : keeps_registry (engine_value name a).
Proof. intros w. split; reflexivity. Qed.

Lemma registry_fresh : keeps_registry fresh.
Proof. intros w. split; reflexivity. Qed.

Lemma registry_throw clazz msg : keeps_registry (ThrowNew clazz msg).
Proof.
  unfold ThrowNew. destruct (referent clazz) as [[name| |]|];
    try apply registry_fault.
  apply registry_bind; intros; apply registry_modify; intros;
    split; reflexivity.
Qed.

(** Applies the rules above along the structure of a computation. *)
Ltac untouched :=
  repeat first
    [ apply registry_ret | apply registry_fault | apply registry_reads
    | apply registry_array_contents | apply registry_direct_buffer
    | apply registry_engine | apply registry_engine_value
    | apply registry_fresh | apply registry_throw
    | apply registry_modify; intros ?; split; reflexivity
    | apply registry_bind; [|intros ?]
    | match goal with
      | |- keeps_registry (if ?b then _ else _) => destruct b
      | |- keeps_registry (match ?x with _ => _ end) => destruct x
      end
    | progress unfold granted, raise, FindClass, throwUnicornException,
        throwCustomUnicornException, GetArrayLength, GetArrayElements,
        ReleaseArrayElements, NewArray, NewStringUTF, engine_st, engine_fill,
        engine_fill_unsized, engine_get, generic_reg_read, generic_reg_write,
        uc_emu_stop ].

(** X13: the entry points of the facade whose engine call runs no guest
    code -- those that open, close, stop and query the engine, read and
    write registers, map, unmap and protect memory, handle contexts, and
    the controls -- do not change a [hook_wrapper] block or the set of
    live global references, whether they return, throw or stop.  The
    entry points left out are those of the callback registry, the three
    that build a descriptor, which acquire the reference to its class,
    and the three during which the engine dispatches hooks: [_emu_start],
    and [_mem_read] and [_mem_write], which reach the hooks of an MMIO
    region. *)
Theorem facade_keeps_registry :
  (forall arch mode,
      keeps_registry (Java_unicorn_Unicorn__1open
                        arch mode))
  /\ (forall uc,
      keeps_registry (Java_unicorn_Unicorn__1close
                        uc))
  /\ (forall uc,
      keeps_registry (Java_unicorn_Unicorn__1emu_1stop
                        uc))
  /\ (forall ptr isContext regid,
      keeps_registry (Java_unicorn_Unicorn__1reg_1read_1long
                        ptr isContext regid))
  /\ (forall ptr isContext regid data,
      keeps_registry (Java_unicorn_Unicorn__1reg_1read_1bytes
                        ptr isContext regid data))
  /\ (forall ptr isContext regid value,
      keeps_registry (Java_unicorn_Unicorn__1reg_1write_1long
                        ptr isContext regid value))
  /\ (forall ptr isContext regid data,
      keeps_registry (Java_unicorn_Unicorn__1reg_1write_1bytes
                        ptr isContext regid data))
  /\ (forall ptr isContext regid selector base limit flags,
      keeps_registry (Java_unicorn_Unicorn__1reg_1write_1x86_1mmr
                        ptr isContext regid selector base limit flags))
  /\ (forall ptr isContext rid,
      keeps_registry (Java_unicorn_Unicorn__1reg_1read_1x86_1msr
                        ptr isContext rid))
  /\ (forall ptr isContext rid value,
      keeps_registry (Java_unicorn_Unicorn__1reg_1write_1x86_1msr
                        ptr isContext rid value))
  /\ (forall ptr isContext cp is64 sec crn crm opc1 opc2,
      keeps_registry (Java_unicorn_Unicorn__1reg_1read_1arm_1cp
                        ptr isContext cp is64 sec crn crm opc1 opc2))
  /\ (forall ptr isContext cp is64 sec crn crm opc1 opc2 value,
      keeps_registry (Java_unicorn_Unicorn__1reg_1write_1arm_1cp
                        ptr isContext cp is64 sec crn crm opc1 opc2 value))
  /\ (forall ptr isContext crn crm op0 op1 op2,
      keeps_registry (Java_unicorn_Unicorn__1reg_1read_1arm64_1cp
                        ptr isContext crn crm op0 op1 op2))
  /\ (forall ptr isContext crn crm op0 op1 op2 value,
      keeps_registry (Java_unicorn_Unicorn__1reg_1write_1arm64_1cp
                        ptr isContext crn crm op0 op1 op2 value))
  /\ keeps_registry Java_unicorn_Unicorn__1version
  /\ (forall arch,
      keeps_registry (Java_unicorn_Unicorn__1arch_1supported
                        arch))
  /\ (forall uc type,
      keeps_registry (Java_unicorn_Unicorn__1query
                        uc type))
  /\ (forall uc,
      keeps_registry (Java_unicorn_Unicorn__1errno
                        uc))
  /\ (forall code,
      keeps_registry (Java_unicorn_Unicorn__1strerror
                        code))
  /\ (forall uc address size perms,
      keeps_registry (Java_unicorn_Unicorn__1mem_1map
                        uc address size perms))
  /\ (forall uc address buf perms,
      keeps_registry (Java_unicorn_Unicorn__1mem_1map_1ptr
                        uc address buf perms))
  /\ (forall uc address size,
      keeps_registry (Java_unicorn_Unicorn__1mem_1unmap
                        uc address size))
  /\ (forall uc address size perms,
      keeps_registry (Java_unicorn_Unicorn__1mem_1protect
                        uc address size perms))
  /\ (forall uc,
      keeps_registry (Java_unicorn_Unicorn__1context_1alloc
                        uc))
  /\ (forall ctx,
      keeps_registry (Java_unicorn_Unicorn__1context_1free
                        ctx))
  /\ (forall uc ctx,
      keeps_registry (Java_unicorn_Unicorn__1context_1save
                        uc ctx))
  /\ (forall uc ctx,
      keeps_registry (Java_unicorn_Unicorn__1context_1restore
                        uc ctx))
  /\ (forall uc,
      keeps_registry (Java_unicorn_Unicorn__1ctl_1get_1mode
                        uc))
  /\ (forall uc,
      keeps_registry (Java_unicorn_Unicorn__1ctl_1get_1arch
                        uc))
  /\ (forall uc,
      keeps_registry (Java_unicorn_Unicorn__1ctl_1get_1timeout
                        uc))
  /\ (forall uc,
      keeps_registry (Java_unicorn_Unicorn__1ctl_1get_1page_1size
                        uc))
  /\ (forall uc page_size,
      keeps_registry (Java_unicorn_Unicorn__1ctl_1set_1page_1size
                        uc page_size))
  /\ (forall uc value,
      keeps_registry (Java_unicorn_Unicorn__1ctl_1set_1use_1exits
                        uc value))
  /\ (forall uc,
      keeps_registry (Java_unicorn_Unicorn__1ctl_1get_1exits_1cnt
                        uc))
  /\ (forall uc,
      keeps_registry (Java_unicorn_Unicorn__1ctl_1get_1exits
                        uc))
  /\ (forall uc exits,
      keeps_registry (Java_unicorn_Unicorn__1ctl_1set_1exits
                        uc exits))
  /\ (forall uc,
      keeps_registry (Java_unicorn_Unicorn__1ctl_1get_1cpu_1model
                        uc))
  /\ (forall uc cpu_model,
      keeps_registry (Java_unicorn_Unicorn__1ctl_1set_1cpu_1model
                        uc cpu_model))
  /\ (forall uc address end_,
      keeps_registry (Java_unicorn_Unicorn__1ctl_1remove_1cache
                        uc address end_))
  /\ (forall uc,
      keeps_registry (Java_unicorn_Unicorn__1ctl_1flush_1tb
                        uc))
  /\ (forall uc,
      keeps_registry (Java_unicorn_Unicorn__1ctl_1flush_1tlb
                        uc))
  /\ (forall uc mode,
      keeps_registry (Java_unicorn_Unicorn__1ctl_1tlb_1mode
                        uc mode)).
Proof.
  repeat apply conj; intros.
  all: unfold
    Java_unicorn_Unicorn__1open, Java_unicorn_Unicorn__1close,
    Java_unicorn_Unicorn__1emu_1stop,
    Java_unicorn_Unicorn__1reg_1read_1long,
    Java_unicorn_Unicorn__1reg_1read_1bytes,
    Java_unicorn_Unicorn__1reg_1write_1long,
    Java_unicorn_Unicorn__1reg_1write_1bytes,
    Java_unicorn_Unicorn__1reg_1write_1x86_1mmr,
    Java_unicorn_Unicorn__1reg_1read_1x86_1msr,
    Java_unicorn_Unicorn__1reg_1write_1x86_1msr,
    Java_unicorn_Unicorn__1reg_1read_1arm_1cp,
    Java_unicorn_Unicorn__1reg_1write_1arm_1cp,
    Java_unicorn_Unicorn__1reg_1read_1arm64_1cp,
    Java_unicorn_Unicorn__1reg_1write_1arm64_1cp,
    Java_unicorn_Unicorn__1version, Java_unicorn_Unicorn__1arch_1supported,
    Java_unicorn_Unicorn__1query, Java_unicorn_Unicorn__1errno,
    Java_unicorn_Unicorn__1strerror, Java_unicorn_Unicorn__1mem_1map,
    Java_unicorn_Unicorn__1mem_1map_1ptr, Java_unicorn_Unicorn__1mem_1unmap,
    Java_unicorn_Unicorn__1mem_1protect,
    Java_unicorn_Unicorn__1context_1alloc,
    Java_unicorn_Unicorn__1context_1free,
    Java_unicorn_Unicorn__1context_1save,
    Java_unicorn_Unicorn__1context_1restore,
    Java_unicorn_Unicorn__1ctl_1get_1mode,
    Java_unicorn_Unicorn__1ctl_1get_1arch,
    Java_unicorn_Unicorn__1ctl_1get_1timeout,
    Java_unicorn_Unicorn__1ctl_1get_1page_1size,
    Java_unicorn_Unicorn__1ctl_1set_1page_1size,
    Java_unicorn_Unicorn__1ctl_1set_1use_1exits,
    Java_unicorn_Unicorn__1ctl_1get_1exits_1cnt,
    Java_unicorn_Unicorn__1ctl_1get_1exits,
    Java_unicorn_Unicorn__1ctl_1set_1exits,
    Java_unicorn_Unicorn__1ctl_1get_1cpu_1model,
    Java_unicorn_Unicorn__1ctl_1set_1cpu_1model,
    Java_unicorn_Unicorn__1ctl_1remove_1cache,
    Java_unicorn_Unicorn__1ctl_1flush_1tb,
    Java_unicorn_Unicorn__1ctl_1flush_1tlb,
    Java_unicorn_Unicorn__1ctl_1tlb_1mode.
  all: cbv zeta; untouched.
Qed.

(** ** Mapping the memory of a buffer *)


(** ** The list of the memory regions *)




Section Regions.

Variables (clazz : jobject) (clazzInit : jmethodID) (result : jobject)
          (id : Z) (regions : list Z).
Hypothesis Hclazz : is_null clazz = false.
Hypothesis Hinit : no_method clazzInit = false.
Hypothesis Hid : array_id result = Some id.


End Regions.






End Properties.

(** * The properties at sample inputs *)

(** With hooks that throw, the port-in trampoline stops engine 1 and
    returns 0, not the 42 that the hook returned. *)
Lemma trampoline_failure_takes_priority_witness :
  let w1 := snd (after_hook (P:=throwing) (hook_obj sample_record)
                   (hook_meth sample_record)
                   [JObj (unicorn sample_record); JInt (jint_of 96);
                    JInt (jint_of 4); JObj (user_data sample_record)]
                   (push_event EvAttachCurrentThread w_hooked)) in
  pending w1
  /\ cb_insn_in (P:=throwing) 1 96 4 16 w_hooked
     = Done 0 (stop_request (P:=throwing) 1 w1).
Proof.
  intros w1.
  assert (Hp : pending w1) by (eexists; reflexivity).
  split; [exact Hp|].
  apply (proj1 (proj2 (proj2 (proj2 (proj2
           (trampoline_failure_takes_priority (P:=throwing) (H:=unicorn_h))))))
           1 96 4 16 w_hooked sample_record).
  - reflexivity.
  - split; reflexivity.
  - exact Hp.
Defined.

(** A TLB-fill hook that returns 0x1007: the page at 0x1000, with all
    three permissions. *)
Lemma tlb_fill_splits_result_witness :
  exists e,
    cb_tlbevent (P:=calm 4103) (H:=unicorn_h) 1 8192 16 (UcTlbEntry 0 0) 16
                w_hooked
    = Done (true, e)
           (snd (after_hook (P:=calm 4103) (hook_obj sample_record)
                   (hook_meth sample_record)
                   [JObj (unicorn sample_record); JLong (jlong_of 8192);
                    JInt (jint_of 16); JObj (user_data sample_record)]
                   (push_event EvAttachCurrentThread w_hooked)))
    /\ paddr e = 4096 /\ perms e = 7.
Proof.
  destruct (proj1 (tlb_fill_splits_result (P:=calm 4103) (H:=unicorn_h)
                     1 8192 16 (UcTlbEntry 0 0) 16 w_hooked sample_record
                     eq_refl (conj eq_refl eq_refl)
                     ltac:(vm_compute; split; [discriminate | reflexivity]))
                  eq_refl ltac:(vm_compute; discriminate))
    as (e & Hrun & Hp & _ & Hq & _).
  exists e. split; [exact Hrun|]. split.
  - rewrite Hp. reflexivity.
  - rewrite Hq. reflexivity.
Defined.

(** An edge whose previous block is null: no hook method runs, no fault. *)
Lemma edge_gen_short_circuits_witness :
  exists w1 b w',
    construction_fails (P:=calm 0) (Some (UcTb 4096 2 8)) None
      (push_event EvAttachCurrentThread w_hooked) w1
    /\ hookErrorCheck (P:=calm 0) 1 w1 = Done b w'
    /\ cb_edge_gen (P:=calm 0) 1 (Some (UcTb 4096 2 8)) None 16 w_hooked
       = Done tt w'.
Proof.
  destruct (proj2 (edge_gen_short_circuits (P:=calm 0) 1
                     (Some (UcTb 4096 2 8)) None 16 w_hooked)
                  (or_intror eq_refl)) as (w1 & Hfail).
  destruct (proj1 (edge_gen_short_circuits (P:=calm 0) 1
                     (Some (UcTb 4096 2 8)) None 16 w_hooked) w1 Hfail)
    as (b & w' & Hc & Hrun & _).
  exists w1, b, w'. auto.
Defined.
(** A region with a read and a write target.  The engine refuses to map
    it: both records are given up again and the references they held are
    released.  The engine accepts it: the array holds the two records,
    at the addresses 16 and 20, each bound to the method of its target,
    and the engine was given both with their trampolines. *)
Lemma mmio_map_all_or_nothing_witness :
  supply w_init
  /\ (exists w' t,
        Java_unicorn_Unicorn__1mmio_1map (P:=no_mmio) this 1 4096
          4096 listener cookie writer NULL w_init = Done NULL w'
        /\ w_trace w' = t
        /\ w_heap w' = w_heap w_init /\ w_globals w' = w_globals w_init
        /\ released t ≡ₚ acquired t /\ freed t ≡ₚ allocated t)
  /\ (exists w' id r0 r1,
        Java_unicorn_Unicorn__1mmio_1map (P:=calm 0) this 1 4096
          4096 listener cookie writer NULL w_init = Done (Local (OArray id)) w'
        /\ w_arrays w' !! id = Some [16; 20]
        /\ w_heap w' !! 16 = Some r0
        /\ hook_meth r0 = Method "read" sig_MmioReadHandler
        /\ w_heap w' !! 20 = Some r1
        /\ hook_meth r1 = Method "write" sig_MmioWriteHandler
        /\ head (w_trace w')
           = Some (EvEngine
                     (Call "uc_mmio_map"
                        [AInt 1; AInt 4096; AInt 4096;
                         AFn (Some ptr_cb_mmio_read); AInt 16;
                         AFn (Some ptr_cb_mmio_write); AInt 20]) 0)).
Proof.
  assert (Hs : supply w_init).
  { split; [reflexivity|]. split; intros k _; [reflexivity | set_solver]. }
  split; [exact Hs|]. split.
  - destruct (mmio_map_all_or_nothing (P:=no_mmio) this 1 4096
                4096 listener cookie writer NULL w_init Hs
                (fun _ => eq_refl) (fun _ => eq_refl))
      as (result & w' & t & Hrun & Htr & Hnull & _).
    assert (Hres : result = NULL).
    { assert (Hv : value_of (Done result w') = Some NULL)
        by (rewrite <- Hrun; vm_compute; reflexivity).
      injection Hv as ->. reflexivity. }
    subst result.
    destruct (Hnull eq_refl) as (Hh & Hg & Hrel & _ & Hfr).
    exists w', t. rewrite app_nil_r in Htr. auto 10.
  - destruct (mmio_map_all_or_nothing (P:=calm 0) this 1 4096
                4096 listener cookie writer NULL w_init Hs
                (fun _ => eq_refl) (fun _ => eq_refl))
      as (result & w' & t & Hrun & Htr & _ & Hfull & Hmust).
    assert (Hgranted : registry_granted (P:=calm 0))
      by (intros r w0; destruct r; first [reflexivity | exact I]).
    pose proof (Hmust eq_refl Hgranted (fun _ _ _ => eq_refl)) as Hn.
    destruct (Hfull Hn)
      as (_ & _ & _ & _ & id & hooks & -> & Harr & Hrev & _ & _ & Hread
          & Hwrite & h0 & h1 & Hhooks & _ & _ & Hcall).
    destruct (Hread eq_refl) as (h & r0 & Hh & Hr0 & _ & Hm0 & _).
    destruct (Hwrite eq_refl) as (h' & r1 & Hh' & Hr1 & _ & Hm1 & _).
    change (w_trace w_init) with (@nil Event) in Htr.
    rewrite app_nil_r in Htr. rewrite <- Htr in Hrev, Hcall.
    assert (Hal : allocated (w_trace w') = [20; 16]).
    { apply (f_equal (fun r => allocated (w_trace (world_of r)))) in Hrun.
      vm_compute in Hrun. symmetry. exact Hrun. }
    rewrite Hal in Hrev. cbn in Hrev. subst hooks.
    cbn in Hhooks. injection Hhooks as <- <-.
    cbn in Hh, Hh'. injection Hh as <-. injection Hh' as <-.
    exists w', id, r0, r1.
    split; [exact Hrun|]. split; [exact Harr|]. split; [exact Hr0|].
    split; [exact Hm0|]. split; [exact Hr1|]. split; [exact Hm1|].
    exact Hcall.
Defined.

(** A code hook is registered in the empty world and unregistered again:
    the record at address 16 is freed and nothing stays referenced. *)
Lemma unregister_releases_each_reference_once_witness :
  let add :=
    Java_unicorn_Unicorn__1hook_1add__JILunicorn_Hook_2Ljava_lang_Object_2JJ
      (P:=calm 0) (H:=unicorn_h) this 1 4 listener cookie 1 0 in
  supply w_init
  /\ add w_init = Done 16 (world_of (add w_init))
  /\ exists w2 w3 t,
      Java_unicorn_Unicorn__1hook_1del (P:=calm 0) 1 16 (world_of (add w_init))
      = Done tt w2
      /\ Java_unicorn_Unicorn__1hookwrapper_1free 16 w2 = Done tt w3
      /\ w_trace w3 = t
      /\ released t = acquired t /\ freed t = [16]
      /\ w_heap w3 = ∅ /\ w_globals w3 = ∅.
Proof.
  intros add.
  assert (Hs : supply w_init).
  { split; [reflexivity|]. split; intros k _; [reflexivity | set_solver]. }
  assert (Hadd : add w_init = Done 16 (world_of (add w_init)))
    by (vm_compute; reflexivity).
  split; [exact Hs|]. split; [exact Hadd|].
  destruct (proj1 (proj2 (unregister_releases_each_reference_once
                            (P:=calm 0) (H:=unicorn_h))
                         (fun _ => eq_refl) this 1 4 listener cookie 1 0)
                  w_init 16 (world_of (add w_init)) Hs Hadd
                  ltac:(discriminate))
    as (w2 & w3 & t & Hdel & Hfree & Htr & _ & Hrel & _ & Hfr & Hh & Hg).
  exists w2, w3, t. rewrite app_nil_r in Htr. auto 10.
Defined.

(** Instruction 0 under [UC_HOOK_INSN] is turned down with the message of
    [UC_ERR_INSN_INVALID], which is not the one of [UC_ERR_HOOK]. *)
Lemma unknown_insn_is_not_a_hook_kind_error :
  accepts_JJI (H:=unicorn_h) 2 0 = false
  /\ ~ rejected_as (P:=calm 0) (@UC_ERR_HOOK unicorn_h)
         (Java_unicorn_Unicorn__1hook_1add__JILunicorn_Hook_2Ljava_lang_Object_2JJI
            (P:=calm 0) (H:=unicorn_h) this 1 2 listener cookie 1 0 0).
Proof.
  split; [vm_compute; reflexivity|].
  intros Hrej. specialize (Hrej w_init).
  apply (f_equal (fun r => w_exc (world_of r))) in Hrej.
  vm_compute in Hrej. discriminate Hrej.
Qed.

(** Event type 3 with the [JJ] overload, and instruction 0 under
    [UC_HOOK_INSN] with the [JJI] overload. *)
Lemma invalid_shape_fails_before_registration_witness :
  Java_unicorn_Unicorn__1hook_1add__JILunicorn_Hook_2Ljava_lang_Object_2JJ
    (P:=calm 0) (H:=unicorn_h) this 1 3 listener cookie 1 0 w_init
  = Done 0 (failed "Invalid hook type (UC_ERR_HOOK)" w_init)
  /\ Java_unicorn_Unicorn__1hook_1add__JILunicorn_Hook_2Ljava_lang_Object_2JJI
       (P:=calm 0) (H:=unicorn_h) this 1 2 listener cookie 1 0 0 w_init
     = Done 0 (failed "Invalid instruction (UC_ERR_INSN_INVALID)"
                 w_init).
Proof.
  destruct (invalid_shape_fails_before_registration (P:=calm 0) (H:=unicorn_h)
              (fun _ => eq_refl)) as (HJJ & _ & HJJI & _).
  split.
  - apply (HJJ this 1 3 listener cookie 1 0). vm_compute. reflexivity.
  - apply (HJJI this 1 listener cookie 1 0 0).
    apply (bool_decide_unpack _). vm_compute. reflexivity.
Defined.

(** A code hook is registered when the allocator has no memory: the
    engine is called with null for the record, accepts, and the store of
    the handle through null stops the call. *)
Lemma failed_record_is_registered_witness :
  exists hook_sig cb,
    makeHookWrapper (P:=no_memory) this listener cookie "hook" hook_sig w_init
    = Done 0 (out_of_memory w_init)
    /\ Java_unicorn_Unicorn__1hook_1add__JILunicorn_Hook_2Ljava_lang_Object_2JJ
         (P:=no_memory) (H:=unicorn_h) this 1 4 listener cookie 1 0 w_init
       = Fault (push_event (EvEngine (hook_add_call 1 0 4 cb 1 0 []) 0)
                  (out_of_memory w_init)).
Proof.
  destruct (failed_record_is_registered (P:=no_memory) (H:=unicorn_h)
              this 1 4 listener cookie 1 0 [] _ w_init
              (@reg_JJ no_memory unicorn_h this 1 4 listener cookie 1 0 eq_refl)
              eq_refl (fun _ => eq_refl) eq_refl)
    as (hook_sig & cb & Hmk & Hok & _).
  exists hook_sig, cb. split; [exact Hmk|]. apply Hok. reflexivity.
Defined.



(** With the values of the headers, [UC_X86_INS_SYSENTER] registers the
    trampoline of the syscall hook, and instruction 0 is turned down. *)
Lemma insn_id_selects_shape_witness :
  NoDup (insn_labels (H:=unicorn_h))
  /\ Java_unicorn_Unicorn__1hook_1add__JILunicorn_Hook_2Ljava_lang_Object_2JJI
       (P:=calm 0) (H:=unicorn_h) this 1 2 listener cookie 1 0 700 w_init
     = hook_add_register (P:=calm 0) this 1 2 listener cookie 1 0 [700]
         sig_SyscallHook ptr_cb_insn_syscall w_init
  /\ Java_unicorn_Unicorn__1hook_1add__JILunicorn_Hook_2Ljava_lang_Object_2JJI
       (P:=calm 0) (H:=unicorn_h) this 1 2 listener cookie 1 0 0 w_init
     = Done 0 (failed "Invalid instruction (UC_ERR_INSN_INVALID)"
                 w_init).
Proof.
  assert (Hnd : NoDup (insn_labels (H:=unicorn_h)))
    by (apply (bool_decide_unpack _); vm_compute; reflexivity).
  split; [exact Hnd|].
  destruct (insn_id_selects_shape (P:=calm 0) (H:=unicorn_h) Hnd)
    as (Hsel & _ & _ & Hrej).
  split.
  - apply (Hsel this 1 listener cookie 1 0
             [@UC_X86_INS_SYSCALL unicorn_h; @UC_X86_INS_SYSENTER unicorn_h]
             (sig_SyscallHook, ptr_cb_insn_syscall) 700 w_init).
    + unfold insn_groups. repeat constructor.
    + repeat constructor.
  - apply (Hrej (fun _ => eq_refl) this 1 listener cookie 1 0 0).
    apply (bool_decide_unpack _). vm_compute. reflexivity.
Defined.

(** A code hook that returns: the trampoline leaves the world as the
    hook method left it. *)
Lemma trampoline_hands_back_result_witness :
  let rw := after_hook (P:=calm 0) (hook_obj sample_record)
              (hook_meth sample_record)
              [JObj (unicorn sample_record); JLong (jlong_of 4096);
               JInt (jint_of 4); JObj (user_data sample_record)]
              (push_event EvAttachCurrentThread w_hooked) in
  cb_hookcode (P:=calm 0) 1 4096 4 16 w_hooked = Done tt (snd rw)
  /\ cb_insn_in (P:=calm 42) 1 96 4 16 w_hooked
     = Done 42
         (snd (after_hook (P:=calm 42) (hook_obj sample_record)
                 (hook_meth sample_record)
                 [JObj (unicorn sample_record); JInt (jint_of 96);
                  JInt (jint_of 4); JObj (user_data sample_record)]
                 (push_event EvAttachCurrentThread w_hooked))).
Proof.
  intros rw. split.
  - apply (proj1 (proj2 (trampoline_hands_back_result (P:=calm 0)))
             1 4096 4 16 w_hooked sample_record eq_refl
             (conj eq_refl eq_refl) eq_refl).
  - apply (proj1 (proj2 (proj2 (proj2 (proj2
             (trampoline_hands_back_result (P:=calm 42))))))
             1 96 4 16 w_hooked sample_record eq_refl
             (conj eq_refl eq_refl) eq_refl).
Defined.

(** The first translation block made in the empty world: the class is
    looked up, one global reference is acquired, and the descriptor is
    object 17 with the three members of the block. *)
Lemma constructors_cache_class_witness :
  exists w' clazz,
    makeTranslationBlock (P:=calm 0) (Some (UcTb 4096 2 8)) w_init
    = Done (Local (OInst 17)) w'
    /\ length (acquired (w_trace w')) = 1%nat
    /\ cache_filled (w_tb w')
    /\ head (w_trace w')
       = Some (EvNewObject 17 clazz [JLong 4096; JInt 2; JInt 8]).
Proof.
  destruct (proj2 (proj2 (constructors_cache_class (P:=calm 0)))
              (UcTb 4096 2 8) w_init)
    as (j & w' & t & Hrun & Ht & _ & _ & _ & _ & _ & _ & _ & _ & Hobj).
  change (w_trace w_init) with (@nil Event) in Ht. rewrite app_nil_r in Ht.
  assert (Hj : value_of (Done j w') = Some (Local (OInst 17)))
    by (rewrite <- Hrun; vm_compute; reflexivity).
  injection Hj as ->.
  destruct (Hobj ltac:(intros o; discriminate) eq_refl)
    as (Hfilled & id & [= <-] & _ & Hhead).
  exists w', (cc_clazz (w_tb w')).
  split; [exact Hrun|].
  split.
  { apply (f_equal (fun r => length (acquired (w_trace (world_of r))))) in Hrun.
    vm_compute in Hrun. symmetry. exact Hrun. }
  split; [exact Hfilled|].
  rewrite Ht. exact Hhead.
Defined.

(** A system-register hook whose register structure is null: no
    descriptor is built and the hook returns 0. *)
Lemma sys_hook_short_circuits_witness :
  exists b w',
    hookErrorCheck (P:=calm 0) 1 (push_event EvAttachCurrentThread w_hooked)
    = Done b w'
    /\ cb_insn_sys (P:=calm 0) 1 7 None 16 w_hooked = Done 0 w'.
Proof.
  pose proof (sys_hook_short_circuits (P:=calm 0) 1 7 None 16 w_hooked) as Hs.
  cbv zeta in Hs. destruct Hs as (Hall & Hnone).
  destruct (Hall _ (Hnone eq_refl)) as (b & w' & Hc & Hrun & _).
  exists b, w'. split; [exact Hc | exact Hrun].
Defined.

(** An edge between two blocks, in a world with one registered hook: the
    descriptors are the objects 21 and 22, and the hook method is
    invoked with both. *)
Lemma edge_gen_builds_two_descriptors_witness :
  let a := UcTb 4096 2 8 in
  let b := UcTb 8192 1 4 in
  let r1 := makeTranslationBlock (P:=calm 0) (Some a)
              (push_event EvAttachCurrentThread w_hooked) in
  let r2 := makeTranslationBlock (P:=calm 0) (Some b) (world_of r1) in
  r1 = Done (Local (OInst 21)) (world_of r1)
  /\ r2 = Done (Local (OInst 22)) (world_of r2)
  /\ cb_edge_gen (P:=calm 0) 1 (Some a) (Some b) 16 w_hooked
     = Done tt
         (snd (after_hook (P:=calm 0) (hook_obj sample_record)
                 (hook_meth sample_record)
                 [JObj (unicorn sample_record); JObj (Local (OInst 21));
                  JObj (Local (OInst 22)); JObj (user_data sample_record)]
                 (world_of r2))).
Proof.
  intros a b r1 r2.
  assert (H1 : r1 = Done (Local (OInst 21)) (world_of r1))
    by (vm_compute; reflexivity).
  assert (H2 : r2 = Done (Local (OInst 22)) (world_of r2))
    by (vm_compute; reflexivity).
  split; [exact H1|]. split; [exact H2|].
  apply (proj2 (proj2 (edge_gen_builds_two_descriptors (P:=calm 0) 1 a b 16
                         w_hooked sample_record _ _ _ _
                         ltac:(intros o; discriminate) eq_refl
                         (conj eq_refl eq_refl) H1 eq_refl H2 eq_refl))).
  vm_compute. reflexivity.
Defined.

(** A code hook registered in the empty world: the record at address 16
    holds the handle 77 that the engine stored, and [_hook_del] hands that
    handle back to the engine. *)
Lemma registration_keeps_engine_handle_witness :
  let add :=
    Java_unicorn_Unicorn__1hook_1add__JILunicorn_Hook_2Ljava_lang_Object_2JJ
      (P:=calm 0) (H:=unicorn_h) this 1 4 listener cookie 1 0 in
  supply w_init
  /\ add w_init = Done 16 (world_of (add w_init))
  /\ exists rec w2 t,
      w_heap (world_of (add w_init)) !! 16 = Some rec /\ uc_hh rec = 77
      /\ Java_unicorn_Unicorn__1hook_1del (P:=calm 0) 1 16
           (world_of (add w_init)) = Done tt w2
      /\ w_trace w2
         = (t ++ EvEngine (Call "uc_hook_del" [AInt 1; AInt 77]) 0
              :: w_trace (world_of (add w_init)))%list.
Proof.
  intros add.
  assert (Hs : supply w_init).
  { split; [reflexivity|]. split; intros k _; [reflexivity | set_solver]. }
  assert (Hadd : add w_init = Done 16 (world_of (add w_init)))
    by (vm_compute; reflexivity).
  split; [exact Hs|]. split; [exact Hadd|].
  destruct (registration_keeps_engine_handle (P:=calm 0) (H:=unicorn_h)
              this 1 4 listener cookie 1 0 [] add w_init 16
              (world_of (add w_init))
              (@reg_JJ (calm 0) unicorn_h this 1 4 listener cookie 1 0 eq_refl)
              Hs eq_refl (fun _ => eq_refl) Hadd ltac:(discriminate))
    as (rec & cb & w0 & Hrec & _ & _ & Hhh & Hdel).
  destruct (Hdel 1) as (w2 & t & Hrun & Htr & _).
  assert (H77 : uc_hh rec = 77) by (rewrite Hhh; reflexivity).
  rewrite H77 in Htr.
  exists rec, w2, t. split; [exact Hrec|]. split; [exact H77|].
  split; [exact Hrun | exact Htr].
Defined.

(** The engine refuses the registration of a code hook: 0 is returned,
    the record and its references are given up again, and the engine's
    exception is pending. *)
Lemma refused_registration_leaves_nothing_witness :
  let add :=
    Java_unicorn_Unicorn__1hook_1add__JILunicorn_Hook_2Ljava_lang_Object_2JJ
      (P:=refusing) (H:=unicorn_h) this 1 4 listener cookie 1 0 in
  let w1 := world_of (add w_init) in
  supply w_init
  /\ add w_init = Done 0 w1
  /\ w_exc w1
     = Some ("unicorn/UnicornException", "Invalid handle (UC_ERR_HANDLE)")
  /\ w_heap w1 = w_heap w_init /\ w_globals w1 = w_globals w_init
  /\ released (w_trace w1) = acquired (w_trace w1)
  /\ freed (w_trace w1) = allocated (w_trace w1).
Proof.
  intros add w1.
  assert (Hs : supply w_init).
  { split; [reflexivity|]. split; intros k _; [reflexivity | set_solver]. }
  assert (Hadd : add w_init = Done 0 w1) by (vm_compute; reflexivity).
  split; [exact Hs|]. split; [exact Hadd|].
  destruct (refused_registration_leaves_nothing (P:=refusing) (H:=unicorn_h)
              this 1 4 listener cookie 1 0 [] add w_init w1
              (@reg_JJ refusing unicorn_h this 1 4 listener cookie 1 0 eq_refl)
              Hs eq_refl (fun _ => eq_refl) Hadd)
    as (s & t & _ & Htr & _ & _ & _ & Hh & Hg & Hrel & Hfr).
  change (w_trace w_init) with (@nil Event) in Htr.
  rewrite app_nil_r in Htr. rewrite <- Htr in Hrel, Hfr.
  split; [vm_compute; reflexivity|].
  split; [exact Hh|]. split; [exact Hg|]. split; [exact Hrel | exact Hfr].
Defined.

(** A record asked for a null callback: 0 is returned, nothing is thrown
    and nothing stays allocated or referenced. *)
Lemma null_callback_is_refused_silently_witness :
  supply w_init
  /\ exists w',
      makeHookWrapper (P:=calm 0) this NULL cookie "hook" "(J)V" w_init
      = Done 0 w'
      /\ w_heap w' = w_heap w_init /\ w_globals w' = w_globals w_init
      /\ w_exc w' = None /\ thrown (w_trace w') = [].
Proof.
  assert (Hs : supply w_init).
  { split; [reflexivity|]. split; intros k _; [reflexivity | set_solver]. }
  split; [exact Hs|].
  destruct (null_callback_is_refused_silently (P:=calm 0) this NULL cookie
              "hook" "(J)V" w_init Hs (fun _ => eq_refl) eq_refl)
    as (w' & t & Hrun & Htr & Hh & Hg & _ & _ & Hquiet).
  destruct (Hquiet eq_refl) as (Hexc & Hth & _).
  change (w_trace w_init) with (@nil Event) in Htr.
  rewrite app_nil_r in Htr. rewrite <- Htr in Hth.
  exists w'. split; [exact Hrun|]. split; [exact Hh|]. split; [exact Hg|].
  split; [exact Hexc | exact Hth].
Defined.

(** The record of [w_hooked] is freed: its three references are
    released, and a second free of the same address is a fault. *)
Lemma freed_record_is_gone_witness :
  exists w',
    Java_unicorn_Unicorn__1hookwrapper_1free 16 w_hooked = Done tt w'
    /\ w_trace w'
       = [EvFree 16; EvDeleteGlobalRef 19; EvDeleteGlobalRef 18;
          EvDeleteGlobalRef 17]
    /\ w_heap w' !! 16 = None
    /\ Java_unicorn_Unicorn__1hookwrapper_1free 16 w' = Fault w'
    /\ Java_unicorn_Unicorn__1hook_1del (P:=calm 0) 1 16 w' = Fault w'.
Proof.
  destruct (freed_record_is_gone (P:=calm 0) 16 w_hooked sample_record
              ltac:(discriminate) eq_refl
              ltac:(repeat split; intros o; discriminate))
    as (w' & Hfree & Htr & Hgone & _ & Hagain & Hdel & _).
  exists w'. split; [exact Hfree|]. split; [exact Htr|].
  split; [exact Hgone|]. split; [exact Hagain | exact (Hdel 1)].
Defined.

(** A register read into the array [1; 2; 3] of [w_hooked].  The engine
    stores one byte, 77, and succeeds: the array holds [77; 2; 3].  The
    engine stores one byte, 9, and then refuses: the array holds
    [9; 2; 3] and the engine's exception is pending.  The engine stores
    five bytes: the call does not return. *)
Lemma reg_read_bytes_fills_destination_witness :
  (exists w',
      Java_unicorn_Unicorn__1reg_1read_1bytes (P:=calm 0) 1 0 35 bytes
        w_hooked = Done tt w'
      /\ w_arrays w' = <[5 := [77; 2; 3]]> (w_arrays w_hooked)
      /\ w_exc w' = None)
  /\ (exists w',
        Java_unicorn_Unicorn__1reg_1read_1bytes (P:=half_reading) 1 0 35 bytes
          w_hooked = Done tt w'
        /\ w_arrays w' = <[5 := [9; 2; 3]]> (w_arrays w_hooked)
        /\ w_exc w'
           = Some ("unicorn/UnicornException",
                   "Invalid handle (UC_ERR_HANDLE)"))
  /\ Java_unicorn_Unicorn__1reg_1read_1bytes (P:=wide_reading) 1 0 35 bytes
       w_hooked
     = Fault (push_event
                (EvEngine (Call "uc_reg_read"
                             [AInt 1; AInt 35; ABuf (Some [1; 2; 3])]) 0)
                w_hooked).
Proof.
  split; [|split].
  - destruct (proj1 (reg_read_bytes_fills_destination (P:=calm 0)
                       bytes 5 [1; 2; 3] w_hooked 1 0 35 eq_refl eq_refl
                       eq_refl (fun _ => eq_refl)) ltac:(cbn; lia))
      as (w' & Hrun & Harr & _ & Hexc).
    exists w'. split; [exact Hrun|]. split; [exact Harr | exact Hexc].
  - destruct (proj1 (reg_read_bytes_fills_destination (P:=half_reading)
                       bytes 5 [1; 2; 3] w_hooked 1 0 35 eq_refl eq_refl
                       eq_refl (fun _ => eq_refl)) ltac:(cbn; lia))
      as (w' & Hrun & Harr & _ & Hexc).
    exists w'. split; [exact Hrun|]. split; [exact Harr | exact Hexc].
  - apply (proj2 (reg_read_bytes_fills_destination (P:=wide_reading)
                    bytes 5 [1; 2; 3] w_hooked 1 0 35 eq_refl eq_refl
                    eq_refl (fun _ => eq_refl))).
    cbn. lia.
Defined.

(** A memory read into the array [1; 2; 3] of [w_hooked].  The engine
    stores one byte, 77, and succeeds: the array holds [77; 2; 3].  The
    engine stores one byte, 9, and then refuses: the array holds
    [9; 2; 3] and the engine's exception is pending. *)
Lemma mem_read_fills_destination_witness :
  (exists w',
      Java_unicorn_Unicorn__1mem_1read (P:=calm 0) 1 4096 bytes w_hooked
      = Done tt w'
      /\ w_arrays w' = <[5 := [77; 2; 3]]> (w_arrays w_hooked)
      /\ w_exc w' = None)
  /\ (exists w',
        Java_unicorn_Unicorn__1mem_1read (P:=half_reading) 1 4096 bytes
          w_hooked = Done tt w'
        /\ w_arrays w' = <[5 := [9; 2; 3]]> (w_arrays w_hooked)
        /\ w_exc w'
           = Some ("unicorn/UnicornException",
                   "Invalid handle (UC_ERR_HANDLE)")).
Proof.
  split.
  - destruct (mem_read_fills_destination (P:=calm 0) bytes 5 [1; 2; 3]
                w_hooked 1 4096 eq_refl eq_refl eq_refl (fun _ => eq_refl))
      as (w' & Hrun & Harr & _ & _ & Hexc).
    exists w'. split; [exact Hrun|]. split; [exact Harr | exact Hexc].
  - destruct (mem_read_fills_destination (P:=half_reading) bytes 5 [1; 2; 3]
                w_hooked 1 4096 eq_refl eq_refl eq_refl (fun _ => eq_refl))
      as (w' & Hrun & Harr & _ & _ & Hexc).
    exists w'. split; [exact Hrun|]. split; [exact Harr | exact Hexc].
Defined.

(** The virtual machine hands out no elements: a memory write from the
    array of [w_hooked] passes null to the engine with the length 3, and
    stops when the elements are released. *)
Lemma unchecked_array_elements_witness :
  Java_unicorn_Unicorn__1mem_1write (P:=no_elements) 1 4096
    bytes w_hooked
  = Fault (push_event
             (EvEngine (Call "uc_mem_write"
                          [AInt 1; AInt 4096; ABuf None; AInt 3]) 0)
             w_hooked)
  /\ Java_unicorn_Unicorn__1ctl_1set_1exits (P:=no_elements)
       1 bytes w_hooked = Done tt w_hooked.
Proof.
  destruct (unchecked_array_elements (P:=no_elements)
              bytes 5 [1; 2; 3] w_hooked eq_refl eq_refl eq_refl)
    as (Hwrite & _ & _ & _ & Hexits).
  split; [exact (Hwrite 1 4096) | exact (Hexits 1)].
Defined.



(** An engine with the two exits 4096 and 8192: the result is a new
    array with these two elements. *)
Lemma ctl_get_exits_lists_exits_witness :
  let r := Java_unicorn_Unicorn__1ctl_1get_1exits (P:=reporting) 1 w_init in
  value_of r = Some (Local (OArray 16))
  /\ w_arrays (world_of r) = <[16 := [4096; 8192]]> (w_arrays w_init)
  /\ w_exc (world_of r) = None.
Proof.
  intros r.
  assert (Hv : value_of r = Some (Local (OArray 16)))
    by (vm_compute; reflexivity).
  split; [exact Hv|].
  destruct (ctl_get_exits_lists_exits (P:=reporting) 1 w_init
              (fun _ => eq_refl)) as (j & w' & Hrun & Hfacts).
  fold r in Hrun. rewrite Hrun in Hv |- *. injection Hv as ->.
  destruct (Hfacts eq_refl) as (w2 & l & _ & Harr & Hl & _ & _ & _ & Hexc).
  cbn [world_of]. split; [|exact Hexc].
  rewrite Harr, Hl. reflexivity.
Defined.

(** A cached block at 4096 of two instructions and eight bytes: the
    engine is called once, nothing is thrown, and the descriptor is made
    from these three values; an engine that refuses gives null and its
    exception; and a register of five members read into the four of
    [uc_x86_mmr] stops the call. *)
Lemma descriptor_calls_build_from_engine_witness :
  (exists w' t clazz,
      Java_unicorn_Unicorn__1ctl_1request_1cache (P:=reporting) 1 4096 w_init
      = Done (Local (OInst 17)) w'
      /\ w_trace w'
         = (t ++ [EvEngine (Call "uc_ctl_request_cache" [AInt 1; AInt 4096])
                    0])%list
      /\ jni_only t
      /\ head t = Some (EvNewObject 17 clazz [JLong 4096; JInt 2; JInt 8])
      /\ w_exc w' = None)
  /\ Java_unicorn_Unicorn__1ctl_1request_1cache (P:=refusing) 1 4096 w_init
     = Done NULL
         (failed "Invalid handle (UC_ERR_HANDLE)"
            (push_event
               (EvEngine (Call "uc_ctl_request_cache" [AInt 1; AInt 4096]) 3)
               w_init))
  /\ Java_unicorn_Unicorn__1reg_1read_1x86_1mmr (P:=wide_reading) 1 0 35
       w_init
     = Fault (push_event
                (EvEngine (Call "uc_reg_read"
                             [AInt 1; AInt 35; ABuf (Some [0; 0; 0; 0])]) 0)
                w_init).
Proof.
  split; [|split].
  - destruct (proj1 (descriptor_calls_build_from_engine (P:=reporting)
                       (fun _ => eq_refl)) 1 4096 w_init)
      as (j & w' & Hrun & _ & Hok).
    assert (Hj : value_of (Done j w') = Some (Local (OInst 17)))
      by (rewrite <- Hrun; vm_compute; reflexivity).
    injection Hj as ->.
    destruct (Hok eq_refl) as (t & Htr & Hjni & _ & Hexc & Hobj).
    destruct (Hobj ltac:(intros o; discriminate) eq_refl)
      as (id & [= <-] & _ & Hhead).
    exists w', t, (cc_clazz (w_tb w')).
    split; [exact Hrun|]. split; [exact Htr|]. split; [exact Hjni|].
    split; [exact Hhead | exact (Hexc eq_refl)].
  - destruct (proj1 (descriptor_calls_build_from_engine (P:=refusing)
                       (fun _ => eq_refl)) 1 4096 w_init)
      as (j & w' & Hrun & Hfail & _).
    destruct (Hfail ltac:(discriminate)) as (-> & ->).
    exact Hrun.
  - apply (proj2 (proj2 (descriptor_calls_build_from_engine (P:=wide_reading)
                           (fun _ => eq_refl)) 1 0 35 w_init)).
    cbn. lia.
Defined.
